(** * The recommendation engine of the fitting system

    A shallow embedding of [fitting_system/ai_modules/recommendation_engine.py]
    (class [RecommendationEngine]) and the properties of its size, fit and
    product decisions.

    Python [float]s are IEEE 754 binary64 numbers and are modelled by Rocq's
    primitive [float]s, which are the same format with the same rounding;
    dictionaries are [gmap]s, query sets are lists in the order the store
    yields its rows. *)

From Stdlib Require Import ZArith List String Ascii Bool Lia Floats.
From Stdlib Require Import Permutation Sorted.
From stdpp Require Import gmap strings list.

Set Warnings "-inexact-float".
Open Scope string_scope.
Open Scope list_scope.
Open Scope Z_scope.

(** ** The catalog store *)

(** Modelled from the spec: the Django models of [fitting_system/models.py]
    ([Size], [Color], [Product], [ProductVariant] and its inventory) are not
    part of the sources; the rows carry the fields the engine reads.  Numeric
    columns are read as floats. *)
Record Size := {
  size_name : string;
  chest_min : float;
  chest_max : float;
  waist_min : float;
  waist_max : float
}.

Record Color := {
  color_id : Z;
  color_name : string;
  hex_code : string
}.

Record Product := {
  product_id : Z;
  product_name : string;
  product_category : string;
  product_gender : string;
  product_fit_type : string
}.

(** A variant row with the rows its foreign keys point to ([product] by
    id, [size] and [color] joined in) and the quantity of its inventory. *)
Record ProductVariant := {
  variant_product : Z;
  variant_size : Size;
  variant_color : Color;
  inventory_quantity : Z
}.

(** The tables, each in the order in which the store yields its rows (the
    order of iteration and of [.first()] on a query set without [order_by]). *)
Record Store := {
  sizes : list Size;
  colors : list Color;
  products : list Product;
  variants : list ProductVariant
}.

(** Modelled from the spec: the [BodyScan] model is not part of the sources
    either.  The measurements are the values [float(...)] yields; an optional
    field is [None] when the attribute is unset. *)
Record BodyScan := {
  scan_height : float;
  scan_chest : float;
  scan_waist : float;
  scan_shoulder_width : float;
  scan_hip : option float;
  scan_inseam : option float;
  scan_torso_length : option float;
  scan_arm_length : option float;
  scan_body_shape : option string;
  scan_undertone : option string;
  scan_skin_tone : string
}.

(** The dictionaries [get_matching_product_variants] collects. *)
Record MatchResult := {
  mr_product : Product;
  mr_variant : ProductVariant;
  mr_recommended_size : string;
  mr_recommended_color : string;
  mr_color_hex : string;
  mr_fit_type : string;
  is_perfect_match : bool;
  fit_matches_recommendation : bool;
  mr_recommended_fit : string;
  fit_message : string
}.

(** The rows [Recommendation.objects.create] is called with. *)
Record Recommendation := {
  rec_body_scan : BodyScan;
  rec_product : Product;
  rec_recommended_size : string;
  rec_recommended_fit : string;
  rec_recommended_colors : string;
  rec_priority : Z
}.

(** ** Class constants *)

Definition FIT_slim_min_ratio : float := 1.4%float.
Definition FIT_regular_min_ratio : float := 1.15%float.

Definition WIDTH_TO_CIRCUMFERENCE_FACTOR : float := 2.0%float.

Record GarmentConfig := {
  primary : list string;
  secondary : list string;
  fit_focus : string
}.

Definition shirt_config : GarmentConfig :=
  {| primary := ["chest"; "shoulder_width"];
     secondary := ["arm_length"; "torso_length"];
     fit_focus := "chest" |}.

Definition GARMENT_MEASUREMENTS : gmap string GarmentConfig :=
  list_to_map
    [("shirt", shirt_config);
     ("pants", {| primary := ["waist"; "hip"; "inseam"];
                  secondary := ["thigh"];
                  fit_focus := "waist" |});
     ("dress", {| primary := ["chest"; "waist"; "hip"];
                  secondary := ["torso_length"];
                  fit_focus := "waist" |});
     ("jacket", {| primary := ["chest"; "shoulder_width"];
                   secondary := ["arm_length"; "torso_length"];
                   fit_focus := "chest" |});
     ("skirt", {| primary := ["waist"; "hip"];
                  secondary := ["torso_length"];
                  fit_focus := "waist" |})].

Definition shape_row (shirt jacket pants dress skirt : Z) : gmap string Z :=
  list_to_map
    [("shirt", shirt); ("jacket", jacket); ("pants", pants);
     ("dress", dress); ("skirt", skirt)].

Definition BODY_SHAPE_ADJUSTMENTS : gmap string (gmap string Z) :=
  list_to_map
    [("inverted_triangle", shape_row 1 1 (-1) 0 (-1));
     ("triangle", shape_row (-1) 0 1 0 1);
     ("oval", shape_row 1 1 1 1 1);
     ("hourglass", shape_row 0 0 0 (-1) 0);
     ("rectangle", shape_row 0 0 0 0 0)].

Definition SIZE_ORDER : list string :=
  ["XS"; "S"; "M"; "L"; "XL"; "XXL"; "XXXL"].

(** ** Python and query-set primitives *)

(** [d.get(key, 0)] on a dictionary of floats. *)
Definition dict_get (d : gmap string float) (key : string) : float :=
  default 0%float (d !! key).

(** [str.upper()], on the ASCII letters; other bytes are left as they are. *)
Definition upper_ascii (c : ascii) : ascii :=
  let n := nat_of_ascii c in
  if ((97 <=? n) && (n <=? 122))%nat then ascii_of_nat (n - 32) else c.

Fixpoint upper (s : string) : string :=
  match s with
  | EmptyString => EmptyString
  | String c r => String (upper_ascii c) (upper r)
  end.

(** [l.index(x)]: the first position of [x], [None] for [ValueError]. *)
Fixpoint list_index (x : string) (l : list string) : option Z :=
  match l with
  | [] => None
  | y :: r => if String.eqb y x then Some 0 else Z.succ <$> list_index x r
  end.

(** [l[i]] for a Python integer [i]: negative indices count from the end,
    [None] stands for [IndexError]. *)
Definition list_getitem {A : Type} (l : list A) (i : Z) : option A :=
  let n := Z.of_nat (length l) in
  if 0 <=? i then l !! Z.to_nat i
  else if - n <=? i then l !! Z.to_nat (n + i)
  else None.

(** [l[:n]] for a Python integer [n]. *)
Definition slice_to {A : Type} (n : Z) (l : list A) : list A :=
  if 0 <=? n then firstn (Z.to_nat n) l
  else firstn (Z.to_nat (Z.of_nat (length l) + n)) l.

(** [list.sort]: a stable sort; [le x y] says that [x] may stand before [y]. *)
Fixpoint sort_insert {A : Type} (le : A -> A -> bool) (x : A) (l : list A) : list A :=
  match l with
  | [] => [x]
  | y :: r => if le x y then x :: y :: r else y :: sort_insert le x r
  end.

Fixpoint stable_sort {A : Type} (le : A -> A -> bool) (l : list A) : list A :=
  match l with
  | [] => []
  | x :: r => sort_insert le x (stable_sort le r)
  end.

(** [qs.order_by('chest_min')]. *)
Definition order_by_chest_min (l : list Size) : list Size :=
  stable_sort (fun a b => (chest_min a <=? chest_min b)%float) l.

(** ** Size recommendation *)

Section Engine.

(** The external collaborators: the catalog store and
    [SkinToneAnalyzer.get_recommended_colors] of
    [fitting_system/ai_modules/skin_tone.py], which is not part of the sources. *)
Variable db : Store.
Variable get_recommended_colors : string -> string -> list string.

Definition chest_in_range (chest : float) (s : Size) : bool :=
  ((chest_min s <=? chest) && (chest <=? chest_max s))%float.

Definition waist_in_range (waist : float) (s : Size) : bool :=
  ((waist_min s <=? waist) && (waist <=? waist_max s))%float.

Definition recommend_size (measurements : gmap string float) : string :=
  let chest := (dict_get measurements "chest" * WIDTH_TO_CIRCUMFERENCE_FACTOR)%float in
  let waist := (dict_get measurements "waist" * WIDTH_TO_CIRCUMFERENCE_FACTOR)%float in
  let height := dict_get measurements "height" in
  let shoulder :=
    (dict_get measurements "shoulder_width" * WIDTH_TO_CIRCUMFERENCE_FACTOR)%float in
  let matching_sizes :=
    List.filter (fun s => chest_in_range chest s && waist_in_range waist s) (sizes db) in
  match matching_sizes with
  | s :: _ => size_name s
  | [] =>
    let all_sizes := order_by_chest_min (sizes db) in
    match all_sizes with
    | [] => "M"
    | first :: _ =>
      let last := List.last all_sizes first in
      if (chest <? chest_min first)%float then size_name first
      else if (chest_max last <? chest)%float then size_name last
      else
        match List.find (chest_in_range chest) all_sizes with
        | Some s => size_name s
        | None => "M"
        end
    end
  end.

(** ** Body-shape adjustment *)

(** [None] stands for an [IndexError] of [SIZE_ORDER[new_index]], the one
    exception the [except ValueError] clause would not catch. *)
Definition adjustment_of (body_shape garment_type : string) : Z :=
  default 0 (default ∅ (BODY_SHAPE_ADJUSTMENTS !! body_shape) !! garment_type).

(** [max(0, min(new_index, len(self.SIZE_ORDER) - 1))] *)
Definition clamp_index (new_index : Z) : Z :=
  Z.max 0 (Z.min new_index (Z.of_nat (length SIZE_ORDER) - 1)).

Definition apply_body_shape_adjustment
    (base_size body_shape garment_type : string) : option string :=
  let adjustment := adjustment_of body_shape garment_type in
  if adjustment =? 0 then Some base_size
  else
    match list_index (upper base_size) SIZE_ORDER with
    | Some current_index =>
      let new_index := current_index + adjustment in
      let new_index := clamp_index new_index in
      list_getitem SIZE_ORDER new_index
    | None => Some base_size
    end.

Definition recommend_size_for_garment
    (measurements : gmap string float) (garment_type body_shape : string)
    : option string :=
  let config := default shirt_config (GARMENT_MEASUREMENTS !! garment_type) in
  let fit_focus := fit_focus config in
  let focus_value := (dict_get measurements fit_focus * WIDTH_TO_CIRCUMFERENCE_FACTOR)%float in
  let matching_sizes :=
    if String.eqb fit_focus "chest" then List.filter (chest_in_range focus_value) (sizes db)
    else if String.eqb fit_focus "waist" then List.filter (waist_in_range focus_value) (sizes db)
    else List.filter (chest_in_range focus_value) (sizes db) in
  let base_size :=
    match matching_sizes with
    | s :: _ => size_name s
    | [] => recommend_size measurements
    end in
  apply_body_shape_adjustment base_size body_shape garment_type.

(** ** Fit and colors *)

Definition recommend_fit (measurements : gmap string float) : string :=
  let chest := dict_get measurements "chest" in
  let waist := dict_get measurements "waist" in
  if (waist =? 0)%float then "regular"
  else
    let ratio := (chest / waist)%float in
    if (FIT_slim_min_ratio <=? ratio)%float then "slim"
    else if (FIT_regular_min_ratio <=? ratio)%float then "regular"
    else "oversize".

Definition recommend_colors (skin_tone undertone : string) : list string :=
  get_recommended_colors skin_tone undertone.

(** ** Product scoring *)

(** [x in names] for a list of strings. *)
Definition name_in (x : string) (names : list string) : bool :=
  existsb (String.eqb x) names.

(** [ProductVariant.objects.filter(product=product, inventory__quantity__gt=0)] *)
Definition available_variants (product : Product) : list ProductVariant :=
  List.filter
    (fun v => (variant_product v =? product_id product) && (0 <? inventory_quantity v))
    (variants db).

(** [color__in=recommended_colors]: the variant's color is one of the rows. *)
Definition color_in (recommended_colors : list Color) (v : ProductVariant) : bool :=
  existsb (fun c => color_id c =? color_id (variant_color v)) recommended_colors.

Definition has_size (recommended_size : string) (v : ProductVariant) : bool :=
  String.eqb (size_name (variant_size v)) recommended_size.

(** The priority computed by the body of the loop of [recommend_products]. *)
Definition priority_of
    (recommended_size recommended_fit : string) (recommended_colors : list Color)
    (product : Product) (available : list ProductVariant) : Z :=
  let priority := 0 in
  let priority :=
    if String.eqb (product_fit_type product) recommended_fit then priority + 15 else priority in
  let size_variants := List.filter (has_size recommended_size) available in
  let priority :=
    match size_variants with [] => priority | _ :: _ => priority + 10 end in
  let matching_color_variants := List.filter (color_in recommended_colors) available in
  let priority :=
    match matching_color_variants with [] => priority | _ :: _ => priority + 10 end in
  priority + 5.

(** The loop of [recommend_products] over the products of the query. *)
Fixpoint score_products
    (recommended_size recommended_fit : string) (recommended_colors : list Color)
    (ps : list Product) : list (Product * Z) :=
  match ps with
  | [] => []
  | product :: rest =>
    let available := available_variants product in
    match available with
    | [] => score_products recommended_size recommended_fit recommended_colors rest
    | _ :: _ =>
      (product,
       priority_of recommended_size recommended_fit recommended_colors product available)
      :: score_products recommended_size recommended_fit recommended_colors rest
    end
  end.

(** [Product.objects.filter(Q(gender=gender) | Q(gender='unisex'))] *)
Definition gender_products (gender : string) : list Product :=
  List.filter
    (fun p => String.eqb (product_gender p) gender || String.eqb (product_gender p) "unisex")
    (products db).

(** [recommendations.sort(key=lambda x: x[1], reverse=True)] *)
Definition sort_by_priority (l : list (Product * Z)) : list (Product * Z) :=
  stable_sort (fun a b => snd b <=? snd a) l.

Definition recommend_products
    (measurements : gmap string float) (skin_tone gender : string) (limit : Z)
    : list (Product * Z) :=
  let recommended_size := recommend_size measurements in
  let recommended_fit := recommend_fit measurements in
  let recommended_color_names := recommend_colors skin_tone "warm" in
  let recommended_colors :=
    List.filter (fun c => name_in (color_name c) recommended_color_names) (colors db) in
  let products := gender_products gender in
  let recommendations :=
    score_products recommended_size recommended_fit recommended_colors products in
  slice_to limit (sort_by_priority recommendations).

(** ** Variant matching *)

(** A measurement is added when the field is truthy: set and not zero. *)
Definition add_if_set (key : string) (x : option float)
    (d : gmap string float) : gmap string float :=
  match x with
  | Some v => if (v =? 0)%float then d else <[key := v]> d
  | None => d
  end.

(** The dictionary both entry points build from a body scan (they add the
    optional keys in different orders, which gives the same dictionary). *)
Definition build_measurements (body_scan : BodyScan) : gmap string float :=
  let measurements : gmap string float :=
    list_to_map
      [("height", scan_height body_scan); ("chest", scan_chest body_scan);
       ("waist", scan_waist body_scan);
       ("shoulder_width", scan_shoulder_width body_scan)] in
  let measurements := add_if_set "hip" (scan_hip body_scan) measurements in
  let measurements := add_if_set "inseam" (scan_inseam body_scan) measurements in
  let measurements := add_if_set "torso_length" (scan_torso_length body_scan) measurements in
  add_if_set "arm_length" (scan_arm_length body_scan) measurements.

(** [getattr(body_scan, 'body_shape', 'rectangle') or 'rectangle'] *)
Definition body_shape_of (body_scan : BodyScan) : string :=
  match scan_body_shape body_scan with
  | Some EmptyString | None => "rectangle"
  | Some shape => shape
  end.

(** [getattr(body_scan, 'undertone', 'warm')] *)
Definition undertone_of (body_scan : BodyScan) : string :=
  default "warm" (scan_undertone body_scan).

(** Python compares the key tuples [(bool, bool, str)] with [<]; strings are
    compared byte by byte, which on UTF-8 text is Python's order of code
    points. *)
Definition match_key (m : MatchResult) : bool * bool * string :=
  (negb (fit_matches_recommendation m), negb (is_perfect_match m),
   product_name (mr_product m)).

Definition key_ltb (a b : bool * bool * string) : bool :=
  let '(a1, a2, a3) := a in
  let '(b1, b2, b3) := b in
  if negb (Bool.eqb a1 b1) then negb a1 && b1
  else if negb (Bool.eqb a2 b2) then negb a2 && b2
  else String.ltb a3 b3.

(** [matching_products.sort(key=...)]: [y] stays behind [x] unless its key
    is smaller. *)
Definition sort_matches (l : list MatchResult) : list MatchResult :=
  stable_sort (fun x y => negb (key_ltb (match_key y) (match_key x))) l.

(** The two queries of the loop body and the dictionary it appends; the
    outer [None] is an exception of [recommend_size_for_garment], the inner
    one a product for which nothing is appended. *)
Definition tier1 (product : Product) (rec_size : string)
    (recommended_color_names : list string) (v : ProductVariant) : bool :=
  (variant_product v =? product_id product)
  && has_size rec_size v
  && name_in (color_name (variant_color v)) recommended_color_names
  && (0 <? inventory_quantity v).

Definition tier2 (product : Product) (rec_size : string) (v : ProductVariant) : bool :=
  (variant_product v =? product_id product)
  && has_size rec_size v
  && (0 <? inventory_quantity v).

Definition match_product
    (measurements : gmap string float) (body_shape : string)
    (recommended_color_names : list string) (recommended_fit : string)
    (product : Product) : option (option MatchResult) :=
  rec_size ← recommend_size_for_garment measurements (product_category product) body_shape;
  let fit_matches := String.eqb (product_fit_type product) recommended_fit in
  let matching_variant :=
    head (List.filter (tier1 product rec_size recommended_color_names) (variants db)) in
  match matching_variant with
  | Some matching_variant =>
    Some (Some
      {| mr_product := product;
         mr_variant := matching_variant;
         mr_recommended_size := rec_size;
         mr_recommended_color := color_name (variant_color matching_variant);
         mr_color_hex := hex_code (variant_color matching_variant);
         mr_fit_type := product_fit_type product;
         is_perfect_match := true;
         fit_matches_recommendation := fit_matches;
         mr_recommended_fit := recommended_fit;
         fit_message :=
           ("This " ++ product_category product ++ " in size " ++ rec_size ++ " with "
            ++ color_name (variant_color matching_variant)
            ++ " will fit you perfectly!")%string |})
  | None =>
    let size_only_variant :=
      head (List.filter (tier2 product rec_size) (variants db)) in
    match size_only_variant with
    | Some size_only_variant =>
      Some (Some
        {| mr_product := product;
           mr_variant := size_only_variant;
           mr_recommended_size := rec_size;
           mr_recommended_color := color_name (variant_color size_only_variant);
           mr_color_hex := hex_code (variant_color size_only_variant);
           mr_fit_type := product_fit_type product;
           is_perfect_match := false;
           fit_matches_recommendation := fit_matches;
           mr_recommended_fit := recommended_fit;
           fit_message :=
             ("This " ++ product_category product ++ " in size " ++ rec_size
              ++ " will fit you great!")%string |})
    | None => Some None
    end
  end.

(** The loop over the products, appending to [matching_products]. *)
Fixpoint collect_matches
    (measurements : gmap string float) (body_shape : string)
    (recommended_color_names : list string) (recommended_fit : string)
    (ps : list Product) (matching_products : list MatchResult)
    : option (list MatchResult) :=
  match ps with
  | [] => Some matching_products
  | product :: rest =>
    r ← match_product measurements body_shape recommended_color_names recommended_fit product;
    collect_matches measurements body_shape recommended_color_names recommended_fit rest
      (match r with
       | Some m => matching_products ++ [m]
       | None => matching_products
       end)
  end.

(** The product query with the optional gender and fit filters. *)
Definition filtered_products (gender fit_type : option string) : list Product :=
  let products := products db in
  let products :=
    match gender with
    | Some g =>
      if negb (String.eqb g "") && name_in g ["men"; "women"]
      then List.filter
             (fun p => String.eqb (product_gender p) g
                       || String.eqb (product_gender p) "unisex") products
      else products
    | None => products
    end in
  match fit_type with
  | Some f =>
    if negb (String.eqb f "") && name_in f ["slim"; "regular"; "oversize"]
    then List.filter (fun p => String.eqb (product_fit_type p) f) products
    else products
  | None => products
  end.

Definition get_matching_product_variants
    (body_scan : BodyScan) (gender fit_type : option string) (limit : Z)
    : option (list MatchResult) :=
  let measurements := build_measurements body_scan in
  let body_shape := body_shape_of body_scan in
  let undertone := undertone_of body_scan in
  let recommended_color_names := recommend_colors (scan_skin_tone body_scan) undertone in
  let recommended_fit := recommend_fit measurements in
  matching_products ←
    collect_matches measurements body_shape recommended_color_names recommended_fit
      (filtered_products gender fit_type) [];
  Some (slice_to limit (sort_matches matching_products)).

(** ** The orchestrator *)

(** The three passes, [product_recommendations.extend(recs)] for each. *)
Definition product_recommendations (body_scan : BodyScan) : list (Product * Z) :=
  let measurements := build_measurements body_scan in
  flat_map
    (fun gender => recommend_products measurements (scan_skin_tone body_scan) gender 10)
    ["men"; "women"; "unisex"].

(** The loop that removes duplicates, with its set [seen_products]. *)
Fixpoint remove_duplicates
    (recs : list (Product * Z)) (seen_products : gset Z)
    (unique_recommendations : list (Product * Z)) : list (Product * Z) :=
  match recs with
  | [] => unique_recommendations
  | (product, priority) :: rest =>
    if decide (product_id product ∈ seen_products)
    then remove_duplicates rest seen_products unique_recommendations
    else remove_duplicates rest ({[product_id product]} ∪ seen_products)
           (unique_recommendations ++ [(product, priority)])
  end.

Definition unique_recommendations (body_scan : BodyScan) : list (Product * Z) :=
  sort_by_priority (remove_duplicates (product_recommendations body_scan) ∅ []).

Definition generate_recommendations_for_scan (body_scan : BodyScan)
    : option (list Recommendation) :=
  let measurements := build_measurements body_scan in
  let body_shape := body_shape_of body_scan in
  let base_recommended_size := recommend_size measurements in
  let recommended_fit := recommend_fit measurements in
  let undertone := undertone_of body_scan in
  let recommended_colors := recommend_colors (scan_skin_tone body_scan) undertone in
  mapM
    (fun '(product, priority) =>
       recommended_size ←
         recommend_size_for_garment measurements (product_category product) body_shape;
       Some {| rec_body_scan := body_scan;
               rec_product := product;
               rec_recommended_size := recommended_size;
               rec_recommended_fit := recommended_fit;
               rec_recommended_colors := String.concat ", " (slice_to 5 recommended_colors);
               rec_priority := priority |})
    (slice_to 10 (unique_recommendations body_scan)).

End Engine.

(** * Notions of the properties *)

(** ** What the claims speak of *)

(** [head (filter f l)] is the first entry of [l] that satisfies [f]. *)
Definition first_satisfying {A : Type} (f : A -> bool) (l : list A) (x : A) : Prop :=
  exists before after,
    l = before ++ x :: after /\ f x = true /\ Forall (fun y => f y = false) before.

Definition size_names (db : Store) : list string := map size_name (sizes db).

(** The doubled chest value [recommend_size] matches the ranges against. *)
Definition chest_circumference (measurements : gmap string float) : float :=
  (dict_get measurements "chest" * WIDTH_TO_CIRCUMFERENCE_FACTOR)%float.

Definition bonus (earned : bool) (points : Z) : Z := if earned then points else 0.

(** The score of the claim: the base 5 and the three bonuses. *)
Definition expected_score
    (db : Store) (recommended_size recommended_fit : string)
    (recommended_colors : list Color) (product : Product) : Z :=
  5
  + bonus (String.eqb (product_fit_type product) recommended_fit) 15
  + bonus (existsb (has_size recommended_size) (available_variants db product)) 10
  + bonus (existsb (color_in recommended_colors) (available_variants db product)) 10.

(** [Color.objects.filter(name__in=recommended_color_names)] of a call of
    [recommend_products]. *)
Definition recommended_color_rows
    (db : Store) (get_recommended_colors : string -> string -> list string)
    (skin_tone : string) : list Color :=
  List.filter
    (fun c => name_in (color_name c) (recommend_colors get_recommended_colors skin_tone "warm"))
    (colors db).

(** What holds of an emitted dictionary, whichever tier chose its variant. *)
Definition emitted_for (product : Product) (rec_size recommended_fit : string)
    (m : MatchResult) : Prop :=
  mr_product m = product
  /\ mr_recommended_size m = rec_size
  /\ variant_product (mr_variant m) = product_id product
  /\ size_name (variant_size (mr_variant m)) = rec_size
  /\ 0 < inventory_quantity (mr_variant m)
  /\ fit_matches_recommendation m = String.eqb (product_fit_type product) recommended_fit.

(** The order of the claim: fit-matching entries first, perfect matches
    first among those that agree on the fit, then by product name. *)
Definition ranks_before (x y : MatchResult) : Prop :=
  (fit_matches_recommendation x = true /\ fit_matches_recommendation y = false)
  \/ (fit_matches_recommendation x = fit_matches_recommendation y
      /\ ((is_perfect_match x = true /\ is_perfect_match y = false)
          \/ (is_perfect_match x = is_perfect_match y
              /\ String.leb (product_name (mr_product x)) (product_name (mr_product y))
                 = true))).

Definition sort_le (x y : MatchResult) : bool :=
  negb (key_ltb (match_key y) (match_key x)).

(** The dictionaries the loop appends, product by product. *)
Definition emitted
    (db : Store) (measurements : gmap string float) (body_shape : string)
    (recommended_color_names : list string) (recommended_fit : string)
    (ps : list Product) : list MatchResult :=
  flat_map
    (fun product =>
       match match_product db measurements body_shape recommended_color_names
               recommended_fit product with
       | Some (Some m) => [m]
       | _ => []
       end) ps.

(** An entry of a scored list is an entry for the product [p]. *)
Definition same_product (p : Product) (e : Product * Z) : bool :=
  product_id (fst e) =? product_id p.

(** The order of the fit tiers: oversize < regular < slim. *)
Definition fit_tier (fit : string) : Z :=
  if String.eqb fit "slim" then 2
  else if String.eqb fit "regular" then 1
  else 0.

(** ** Rounding a binary64 quotient *)

(** The truncation of [N / D] with the position of the remainder: the
    rounding bit says that the remainder is at least half of [D], the sticky
    bit that it is neither zero nor the half. *)
Definition rec_of (N D : Z) : shr_record :=
  {| shr_m := N / D;
     shr_r := D <=? 2 * (N mod D);
     shr_s := negb (N mod D =? 0) && negb (2 * (N mod D) =? D) |}.

(** Round to nearest, ties to even, of [N / D]. *)
Definition rnd (N D : Z) : Z :=
  N / D
  + (if (D <? 2 * (N mod D)) || ((2 * (N mod D) =? D) && Z.odd (N / D)) then 1 else 0).

(** The binary64 value of the positive quotient [(N / D) * 2 ^ E], as
    [SFdiv] rounds it from the truncated quotient and its location. *)
Definition round_quotient (N D E : Z) : spec_float :=
  binary_round_aux prec emax false (N / D) E (new_location D (N mod D)).

(** The exponent the quotient is rounded at. *)
Definition target (N D E : Z) : Z := fexp prec emax (Zdigits2 (N / D) + E).

Definition overflow_to (m e : Z) : spec_float :=
  match m with
  | Z.pos p => if e <=? 971 then S754_finite false p e else S754_infinity false
  | Z0 => S754_zero false
  | Z.neg _ => S754_nan
  end.

(** The value for a rounded mantissa [m <= 2 ^ 53] at the exponent [t]. *)
Definition finish (m t : Z) : spec_float :=
  if m <? 2 ^ 53 then overflow_to m t else overflow_to (2 ^ 52) (t + 1).

(** The exponent [SFdiv_core_binary] computes the quotient at, and the
    shift of the dividend. *)
Definition div_exponent (m1 : positive) (e1 : Z) (m2 : positive) (e2 : Z) : Z :=
  Z.min (fexp prec emax (Zdigits2 (Z.pos m1) + e1 - (Zdigits2 (Z.pos m2) + e2))) (e1 - e2).

Definition div_numerator (m1 : positive) (e1 : Z) (m2 : positive) (e2 : Z) : Z :=
  Z.pos m1 * 2 ^ (e1 - e2 - div_exponent m1 e1 m2 e2).

(** ** Sample stores and scans *)

(** A catalog with a gap between its two ranges, and a scan whose doubled
    chest value (95) falls into the gap. *)
Definition gap_db : Store :=
  {| sizes :=
       [ {| size_name := "S"; chest_min := 80; chest_max := 90;
            waist_min := 60; waist_max := 70 |};
         {| size_name := "L"; chest_min := 100; chest_max := 110;
            waist_min := 80; waist_max := 90 |} ];
     colors := []; products := []; variants := [] |}.

Definition gap_measurements : gmap string float :=
  list_to_map [("chest", 47.5%float); ("waist", 40%float)].

(** A store with ten men's products, ten women's products and one unisex
    product, each with one variant in stock, and a scan. *)
Definition plain_product (gender : string) (id : Z) : Product :=
  {| product_id := id; product_name := "item"; product_category := "shirt";
     product_gender := gender; product_fit_type := "regular" |}.

Definition stocked (id : Z) : ProductVariant :=
  {| variant_product := id;
     variant_size := {| size_name := "M"; chest_min := 90; chest_max := 100;
                        waist_min := 70; waist_max := 80 |};
     variant_color := {| color_id := 1; color_name := "navy"; hex_code := "#000080" |};
     inventory_quantity := 3 |}.

Definition crowded_db : Store :=
  {| sizes := [];
     colors := [];
     products :=
       map (plain_product "men") [1; 2; 3; 4; 5; 6; 7; 8; 9; 10]
       ++ map (plain_product "women") [11; 12; 13; 14; 15; 16; 17; 18; 19; 20]
       ++ [plain_product "unisex" 21];
     variants := map stocked [1; 2; 3; 4; 5; 6; 7; 8; 9; 10; 11; 12; 13; 14; 15; 16;
                              17; 18; 19; 20; 21] |}.

Definition no_colors (skin_tone undertone : string) : list string := [].

Definition plain_scan : BodyScan :=
  {| scan_height := 175; scan_chest := 48; scan_waist := 40;
     scan_shoulder_width := 45; scan_hip := None; scan_inseam := None;
     scan_torso_length := None; scan_arm_length := None;
     scan_body_shape := None; scan_undertone := None; scan_skin_tone := "light" |}.

(** A small store: three ranges, three colors, four products (the blazer
    is out of stock), and a scan with chest 47 and waist 38. *)
Definition range (name : string) (c0 c1 w0 w1 : float) : Size :=
  {| size_name := name; chest_min := c0; chest_max := c1;
     waist_min := w0; waist_max := w1 |}.

Definition navy : Color := {| color_id := 1; color_name := "navy"; hex_code := "#000080" |}.
Definition red : Color := {| color_id := 2; color_name := "red"; hex_code := "#ff0000" |}.
Definition white : Color := {| color_id := 3; color_name := "white"; hex_code := "#ffffff" |}.

Definition oxford_shirt : Product :=
  {| product_id := 1; product_name := "Oxford shirt"; product_category := "shirt";
     product_gender := "men"; product_fit_type := "regular" |}.

Definition chino : Product :=
  {| product_id := 2; product_name := "Chino"; product_category := "pants";
     product_gender := "men"; product_fit_type := "slim" |}.

Definition parka : Product :=
  {| product_id := 3; product_name := "Parka"; product_category := "jacket";
     product_gender := "unisex"; product_fit_type := "oversize" |}.

Definition blazer : Product :=
  {| product_id := 4; product_name := "Blazer"; product_category := "jacket";
     product_gender := "women"; product_fit_type := "regular" |}.

Definition boutique_db : Store :=
  {| sizes := [range "S" 80 90 60 70; range "M" 90 100 70 80; range "L" 100 110 80 90];
     colors := [navy; red; white];
     products := [oxford_shirt; chino; parka; blazer];
     variants :=
       [ {| variant_product := 1; variant_size := range "M" 90 100 70 80;
            variant_color := red; inventory_quantity := 2 |};
         {| variant_product := 1; variant_size := range "M" 90 100 70 80;
            variant_color := navy; inventory_quantity := 1 |};
         {| variant_product := 2; variant_size := range "L" 100 110 80 90;
            variant_color := red; inventory_quantity := 5 |};
         {| variant_product := 3; variant_size := range "S" 80 90 60 70;
            variant_color := navy; inventory_quantity := 4 |};
         {| variant_product := 4; variant_size := range "M" 90 100 70 80;
            variant_color := navy; inventory_quantity := 0 |} ] |}.

Definition navy_and_white (skin_tone undertone : string) : list string :=
  ["navy"; "white"].

Definition triangle_scan : BodyScan :=
  {| scan_height := 178; scan_chest := 47; scan_waist := 38;
     scan_shoulder_width := 44; scan_hip := Some 50%float; scan_inseam := None;
     scan_torso_length := None; scan_arm_length := None;
     scan_body_shape := Some "triangle"; scan_undertone := Some "cool";
     scan_skin_tone := "light" |}.

Definition plain_waist_scan : BodyScan :=
  {| scan_height := 178; scan_chest := 47; scan_waist := 44;
     scan_shoulder_width := 44; scan_hip := None; scan_inseam := None;
     scan_torso_length := None; scan_arm_length := None;
     scan_body_shape := None; scan_undertone := None; scan_skin_tone := "light" |}.

(** ** What the further properties speak of *)

(** The doubled waist value [recommend_size] matches the ranges against. *)
Definition waist_circumference (measurements : gmap string float) : float :=
  (dict_get measurements "waist" * WIDTH_TO_CIRCUMFERENCE_FACTOR)%float.

(** A range fits when both doubled values are within its bounds. *)
Definition fits (measurements : gmap string float) (s : Size) : bool :=
  chest_in_range (chest_circumference measurements) s
  && waist_in_range (waist_circumference measurements) s.

(** The body shapes with a nonzero entry in [BODY_SHAPE_ADJUSTMENTS], and
    the garment types of its rows. *)
Definition adjusting_shapes : list string :=
  ["inverted_triangle"; "triangle"; "oval"; "hourglass"].

Definition known_garments : list string :=
  ["shirt"; "jacket"; "pants"; "dress"; "skirt"].

(** The garment types whose [fit_focus] is the waist. *)
Definition waist_garments : list string := ["pants"; "dress"; "skirt"].

(** The test the garment's fit focus selects the ranges with. *)
Definition focus_in_range
    (measurements : gmap string float) (garment_type : string) (s : Size) : bool :=
  if name_in garment_type waist_garments
  then waist_in_range (waist_circumference measurements) s
  else chest_in_range (chest_circumference measurements) s.

(** The dictionary as [generate_recommendations_for_scan] builds it: the
    optional keys in the order hip, torso length, arm length, inseam. *)
Definition build_measurements_for_recommendations (body_scan : BodyScan)
    : gmap string float :=
  let measurements : gmap string float :=
    list_to_map
      [("height", scan_height body_scan); ("chest", scan_chest body_scan);
       ("waist", scan_waist body_scan);
       ("shoulder_width", scan_shoulder_width body_scan)] in
  let measurements := add_if_set "hip" (scan_hip body_scan) measurements in
  let measurements := add_if_set "torso_length" (scan_torso_length body_scan) measurements in
  let measurements := add_if_set "arm_length" (scan_arm_length body_scan) measurements in
  add_if_set "inseam" (scan_inseam body_scan) measurements.

(** The value of an optional field that passes [if body_scan.field:]. *)
Definition truthy (x : option float) : option float :=
  match x with
  | Some v => if (v =? 0)%float then None else Some v
  | None => None
  end.

Definition required_keys : list string := ["height"; "chest"; "waist"; "shoulder_width"].
Definition optional_keys : list string := ["hip"; "inseam"; "torso_length"; "arm_length"].

(** Two scans with the same chest, waist, body shape, undertone and skin
    tone: they may differ in height, shoulder width, hip, inseam, torso
    length and arm length. *)
Definition same_decisive_fields (scan1 scan2 : BodyScan) : Prop :=
  scan_chest scan1 = scan_chest scan2
  /\ scan_waist scan1 = scan_waist scan2
  /\ body_shape_of scan1 = body_shape_of scan2
  /\ undertone_of scan1 = undertone_of scan2
  /\ scan_skin_tone scan1 = scan_skin_tone scan2.

(** What a recommendation row says, apart from the scan it belongs to. *)
Definition record_content (r : Recommendation) : Product * string * string * string * Z :=
  (rec_product r, rec_recommended_size r, rec_recommended_fit r,
   rec_recommended_colors r, rec_priority r).

(** Two scans with the same chest, waist and skin tone. *)
Definition same_ranking_fields (scan1 scan2 : BodyScan) : Prop :=
  scan_chest scan1 = scan_chest scan2
  /\ scan_waist scan1 = scan_waist scan2
  /\ scan_skin_tone scan1 = scan_skin_tone scan2.

(** The product, the priority and the fit of a row. *)
Definition record_rank (r : Recommendation) : Product * Z * string :=
  (rec_product r, rec_priority r, rec_recommended_fit r).

(** ** More sample scans *)

(** Measurements below and above every range of the small store. *)
Definition narrow_measurements : gmap string float :=
  list_to_map [("chest", 30%float); ("waist", 25%float)].

Definition broad_measurements : gmap string float :=
  list_to_map [("chest", 60%float); ("waist", 50%float)].

(** The triangle scan with another height, shoulder width and optional
    measurements, and the same scan without body shape and undertone. *)
Definition tall_triangle_scan : BodyScan :=
  {| scan_height := 190; scan_chest := 47; scan_waist := 38;
     scan_shoulder_width := 50; scan_hip := None; scan_inseam := Some 82%float;
     scan_torso_length := None; scan_arm_length := Some 60%float;
     scan_body_shape := Some "triangle"; scan_undertone := Some "cool";
     scan_skin_tone := "light" |}.

Definition unshaped_scan : BodyScan :=
  {| scan_height := 178; scan_chest := 47; scan_waist := 38;
     scan_shoulder_width := 44; scan_hip := Some 50%float; scan_inseam := None;
     scan_torso_length := None; scan_arm_length := None;
     scan_body_shape := None; scan_undertone := None;
     scan_skin_tone := "light" |}.

(** * Properties *)

(** ** Lists and the stable sort *)

Section ListFacts.
Context {A : Type}.

Lemma list_getitem_in_range (l : list A) (i : Z) :
  0 <= i < Z.of_nat (length l) ->
  exists x, list_getitem l i = Some x /\ In x l.
Proof.
  intros Hi. unfold list_getitem.
  destruct (Z.leb_spec 0 i) as [_|]; [|lia].
  destruct (lookup_lt_is_Some_2 l (Z.to_nat i)) as [x Hx]; [lia|].
  exists x. split; [exact Hx|].
  apply list_elem_of_In. eapply list_elem_of_lookup_2. exact Hx.
Qed.

Lemma slice_to_length (n : Z) (l : list A) :
  0 <= n -> Z.of_nat (length (slice_to n l)) <= n.
Proof.
  intros Hn. unfold slice_to.
  destruct (Z.leb_spec 0 n) as [_|]; [|lia].
  rewrite length_firstn. lia.
Qed.

Lemma slice_to_prefix (n : Z) (l : list A) :
  exists rest, l = slice_to n l ++ rest.
Proof.
  unfold slice_to.
  destruct (0 <=? n); eexists; symmetry; apply firstn_skipn.
Qed.

Lemma slice_to_incl (n : Z) (l : list A) (x : A) :
  In x (slice_to n l) -> In x l.
Proof.
  intros Hx. destruct (slice_to_prefix n l) as [rest ->].
  apply in_or_app. now left.
Qed.

Lemma slice_to_all (n : Z) (l : list A) :
  Z.of_nat (length l) <= n -> slice_to n l = l.
Proof.
  intros Hn. unfold slice_to.
  destruct (Z.leb_spec 0 n) as [_|]; [|lia].
  apply firstn_all2. lia.
Qed.

(** A prefix of a sorted list is sorted. *)
Lemma StronglySorted_app_l (R : A -> A -> Prop) (l1 l2 : list A) :
  StronglySorted R (l1 ++ l2) -> StronglySorted R l1.
Proof.
  induction l1 as [|x r IH]; simpl; intros Hs; [constructor|].
  inversion Hs as [|? ? Hr Hall]; subst.
  constructor; [now apply IH|].
  apply List.Forall_app in Hall. tauto.
Qed.

Lemma slice_to_sorted (R : A -> A -> Prop) (n : Z) (l : list A) :
  StronglySorted R l -> StronglySorted R (slice_to n l).
Proof.
  intros Hs. destruct (slice_to_prefix n l) as [rest Hl].
  rewrite Hl in Hs. now apply StronglySorted_app_l in Hs.
Qed.

Lemma StronglySorted_impl (R R' : A -> A -> Prop) (l : list A) :
  (forall x y, R x y -> R' x y) -> StronglySorted R l -> StronglySorted R' l.
Proof.
  intros Himpl. induction 1 as [|x r Hs IH Hall]; constructor; [exact IH|].
  eapply List.Forall_impl; [|exact Hall]. intros y. apply Himpl.
Qed.

Lemma StronglySorted_lookup (R : A -> A -> Prop) (l : list A) (i j : nat) (x y : A) :
  StronglySorted R l -> (i < j)%nat -> l !! i = Some x -> l !! j = Some y -> R x y.
Proof.
  intros Hs. revert i j. induction Hs as [|z r Hs IH Hall]; intros i j Hij Hi Hj.
  - discriminate.
  - destruct j as [|j]; [lia|]. simpl in Hj.
    destruct i as [|i]; simpl in Hi.
    + injection Hi as <-. rewrite List.Forall_forall in Hall. apply Hall.
      apply list_elem_of_In. eapply list_elem_of_lookup_2. exact Hj.
    + apply (IH i j); [lia|assumption..].
Qed.

Lemma head_filter_Some (f : A -> bool) (l : list A) (x : A) :
  head (List.filter f l) = Some x -> first_satisfying f l x.
Proof.
  induction l as [|y r IH]; simpl; [discriminate|].
  destruct (f y) eqn:Hy; simpl.
  - intros [= ->]. exists [], r. auto.
  - intros H. destruct (IH H) as (before & after & -> & Hx & Hb).
    exists (y :: before), after. auto.
Qed.

Lemma head_filter_None (f : A -> bool) (l : list A) :
  head (List.filter f l) = None <-> existsb f l = false.
Proof.
  induction l as [|y r IH]; simpl; [tauto|].
  destruct (f y); simpl; [split; discriminate|exact IH].
Qed.

Lemma head_filter_None' (f : A -> bool) (l : list A) (x : A) :
  head (List.filter f l) = Some x -> existsb f l = true.
Proof.
  intros H. destruct (existsb f l) eqn:Hex; [reflexivity|].
  apply head_filter_None in Hex. congruence.
Qed.

End ListFacts.

Section SortFacts.
Context {A : Type}.
Variable le : A -> A -> bool.

Lemma sort_insert_perm (x : A) (l : list A) :
  Permutation (x :: l) (sort_insert le x l).
Proof.
  induction l as [|y r IH]; simpl; [reflexivity|].
  destruct (le x y); [reflexivity|].
  rewrite perm_swap. now apply perm_skip.
Qed.

Lemma stable_sort_perm (l : list A) : Permutation l (stable_sort le l).
Proof.
  induction l as [|x r IH]; simpl; [reflexivity|].
  rewrite <- sort_insert_perm. now apply perm_skip.
Qed.

Lemma stable_sort_In (x : A) (l : list A) : In x (stable_sort le l) <-> In x l.
Proof.
  split; apply Permutation_in; [symmetry|]; apply stable_sort_perm.
Qed.

Lemma stable_sort_length (l : list A) : length (stable_sort le l) = length l.
Proof. symmetry. apply Permutation_length, stable_sort_perm. Qed.

(** The sort orders its input when [le] is a total preorder, and it is
    stable: entries a predicate singles out keep their order when any two of
    them may stand either way round. *)
Lemma sort_insert_sorted (x : A) (l : list A) :
  (forall a b, le a b = true \/ le b a = true) ->
  (forall a b c, le a b = true -> le b c = true -> le a c = true) ->
  StronglySorted (fun a b => le a b = true) l ->
  StronglySorted (fun a b => le a b = true) (sort_insert le x l).
Proof.
  intros Htotal Htrans. induction l as [|y r IH]; intros Hs; simpl.
  - constructor; [constructor|constructor].
  - inversion Hs as [|? ? Hr Hall]; subst.
    destruct (le x y) eqn:Hxy.
    + constructor; [exact Hs|]. constructor; [exact Hxy|].
      eapply List.Forall_impl; [|exact Hall]. intros z Hz. eauto.
    + constructor; [now apply IH|].
      assert (Hyx : le y x = true) by (destruct (Htotal x y); congruence).
      apply List.Forall_forall. intros z Hz.
      apply (Permutation_in _ (Permutation_sym (sort_insert_perm x r))) in Hz.
      destruct Hz as [<-|Hz]; [exact Hyx|].
      rewrite List.Forall_forall in Hall. now apply Hall.
Qed.

Lemma stable_sort_sorted (l : list A) :
  (forall a b, le a b = true \/ le b a = true) ->
  (forall a b c, le a b = true -> le b c = true -> le a c = true) ->
  StronglySorted (fun a b => le a b = true) (stable_sort le l).
Proof.
  intros Htotal Htrans. induction l as [|x r IH]; simpl; [constructor|].
  now apply sort_insert_sorted.
Qed.

Lemma sort_insert_filter (P : A -> bool) (x : A) (l : list A) :
  (forall y, P x = true -> P y = true -> le x y = true) ->
  List.filter P (sort_insert le x l) = List.filter P (x :: l).
Proof.
  intros Hties. induction l as [|y r IH]; simpl; [reflexivity|].
  destruct (le x y) eqn:Hxy; [reflexivity|].
  simpl. rewrite IH. simpl.
  destruct (P x) eqn:Hx, (P y) eqn:Hy; try reflexivity.
  rewrite (Hties y eq_refl Hy) in Hxy. discriminate.
Qed.

Lemma stable_sort_filter (P : A -> bool) (l : list A) :
  (forall x y, P x = true -> P y = true -> le x y = true) ->
  List.filter P (stable_sort le l) = List.filter P l.
Proof.
  intros Hties. induction l as [|x r IH]; simpl; [reflexivity|].
  rewrite sort_insert_filter by (intros y; apply Hties).
  simpl. now rewrite IH.
Qed.

End SortFacts.

(** ** The body-shape adjuster *)

Lemma list_index_range (x : string) (l : list string) (i : Z) :
  list_index x l = Some i -> 0 <= i < Z.of_nat (length l).
Proof.
  revert i. induction l as [|y r IH]; intros i; simpl; [discriminate|].
  destruct (String.eqb y x).
  - intros [= <-]. lia.
  - destruct (list_index x r) as [j|]; simpl; [|discriminate].
    intros [= <-]. specialize (IH j eq_refl). lia.
Qed.

Lemma list_index_In (x : string) (l : list string) :
  In x l -> exists i, list_index x l = Some i.
Proof.
  induction l as [|y r IH]; simpl; [tauto|].
  intros Hx. destruct (String.eqb_spec y x) as [_|Hne]; [eauto|].
  destruct Hx as [Hx|Hx]; [congruence|].
  destruct (IH Hx) as [i ->]. simpl. eauto.
Qed.

Lemma clamp_index_range (i : Z) :
  0 <= clamp_index i <= Z.of_nat (length SIZE_ORDER) - 1.
Proof. unfold clamp_index. simpl. lia. Qed.

Lemma SIZE_ORDER_upper (s : string) : In s SIZE_ORDER -> upper s = s.
Proof.
  unfold SIZE_ORDER. simpl.
  intros H. repeat (destruct H as [<-|H]; [reflexivity|]). destruct H.
Qed.

(** The two ways the adjuster returns: the label it was given, or the label
    of the scale at the clamped index.  It never raises. *)
Lemma apply_body_shape_adjustment_cases (base_size body_shape garment_type : string) :
  (apply_body_shape_adjustment base_size body_shape garment_type = Some base_size
   /\ (adjustment_of body_shape garment_type = 0
       \/ list_index (upper base_size) SIZE_ORDER = None))
  \/ exists current_index adjusted,
       adjustment_of body_shape garment_type <> 0
       /\ list_index (upper base_size) SIZE_ORDER = Some current_index
       /\ list_getitem SIZE_ORDER
            (clamp_index (current_index + adjustment_of body_shape garment_type))
          = Some adjusted
       /\ apply_body_shape_adjustment base_size body_shape garment_type = Some adjusted
       /\ In adjusted SIZE_ORDER.
Proof.
  unfold apply_body_shape_adjustment.
  destruct (Z.eqb_spec (adjustment_of body_shape garment_type) 0) as [Hz|Hnz];
    [left; auto|].
  destruct (list_index (upper base_size) SIZE_ORDER) as [i|] eqn:Hi; [|left; auto].
  right.
  destruct (list_getitem_in_range SIZE_ORDER
              (clamp_index (i + adjustment_of body_shape garment_type)))
    as (adjusted & Hget & Hin).
  { pose proof (clamp_index_range (i + adjustment_of body_shape garment_type)). lia. }
  exists i, adjusted. auto.
Qed.

Lemma apply_body_shape_adjustment_total (base_size body_shape garment_type : string) :
  is_Some (apply_body_shape_adjustment base_size body_shape garment_type).
Proof.
  destruct (apply_body_shape_adjustment_cases base_size body_shape garment_type)
    as [[-> _]|(i & r & _ & _ & _ & -> & _)]; eauto.
Qed.

(** C8: on a base size of the canonical scale the adjuster returns a label
    of the canonical scale, for every body shape and garment type; the index
    it reads the scale at is clamped into [0, len(SIZE_ORDER) - 1], where
    indexing succeeds, so that no call raises; 'M' with triangle/pants gives
    'L' and 'XXXL' stays 'XXXL'. *)
Theorem adjustment_stays_on_scale :
  (forall base_size body_shape garment_type : string,
      In base_size SIZE_ORDER ->
      exists adjusted,
        apply_body_shape_adjustment base_size body_shape garment_type = Some adjusted
        /\ In adjusted SIZE_ORDER)
  /\ (forall new_index : Z,
        0 <= clamp_index new_index <= Z.of_nat (length SIZE_ORDER) - 1
        /\ exists label, list_getitem SIZE_ORDER (clamp_index new_index) = Some label
                         /\ In label SIZE_ORDER)
  /\ (forall base_size body_shape garment_type : string,
        is_Some (apply_body_shape_adjustment base_size body_shape garment_type))
  /\ apply_body_shape_adjustment "M" "triangle" "pants" = Some "L"
  /\ apply_body_shape_adjustment "XXXL" "triangle" "pants" = Some "XXXL".
Proof.
  split; [|split; [|split; [apply apply_body_shape_adjustment_total|split; reflexivity]]].
  - intros base_size body_shape garment_type Hbase.
    destruct (apply_body_shape_adjustment_cases base_size body_shape garment_type)
      as [[-> _]|(i & r & _ & _ & _ & -> & Hin)]; eauto.
  - intros new_index. split; [apply clamp_index_range|].
    apply list_getitem_in_range.
    pose proof (clamp_index_range new_index). lia.
Qed.

Lemma adjustment_stays_on_scale_witness :
  In "XL" SIZE_ORDER
  /\ exists adjusted,
       apply_body_shape_adjustment "XL" "oval" "shirt" = Some adjusted
       /\ In adjusted SIZE_ORDER.
Proof.
  assert (H : In "XL" SIZE_ORDER) by (simpl; tauto).
  split; [exact H|].
  exact (proj1 adjustment_stays_on_scale "XL" "oval" "shirt" H).
Defined.

(** C10: with a nonzero step and a base size whose uppercasing is on the
    canonical scale the result is the upper-case label of the scale at the
    clamped index ('m' with a step of +1 gives 'L'); with a step of 0 the
    input string is returned as it is, in its own case. *)
Theorem adjustment_canonicalizes_case_only_when_shifting :
  (forall base_size body_shape garment_type : string,
      adjustment_of body_shape garment_type <> 0 ->
      In (upper base_size) SIZE_ORDER ->
      exists current_index adjusted,
        list_index (upper base_size) SIZE_ORDER = Some current_index
        /\ list_getitem SIZE_ORDER
             (clamp_index (current_index + adjustment_of body_shape garment_type))
           = Some adjusted
        /\ apply_body_shape_adjustment base_size body_shape garment_type = Some adjusted
        /\ In adjusted SIZE_ORDER
        /\ upper adjusted = adjusted)
  /\ (forall base_size body_shape garment_type : string,
        adjustment_of body_shape garment_type = 0 ->
        apply_body_shape_adjustment base_size body_shape garment_type = Some base_size)
  /\ (adjustment_of "triangle" "pants" = 1
      /\ apply_body_shape_adjustment "m" "triangle" "pants" = Some "L")
  /\ (adjustment_of "rectangle" "pants" = 0
      /\ apply_body_shape_adjustment "m" "rectangle" "pants" = Some "m").
Proof.
  split; [|split; [|split; split; reflexivity]].
  - intros base_size body_shape garment_type Hnz Hup.
    destruct (apply_body_shape_adjustment_cases base_size body_shape garment_type)
      as [[_ [Hz|Hnone]]|(i & r & _ & Hi & Hget & Happ & Hin)].
    + contradiction.
    + destruct (list_index_In _ _ Hup) as [i Hi]. congruence.
    + exists i, r. repeat split; auto using SIZE_ORDER_upper.
  - intros base_size body_shape garment_type Hz.
    unfold apply_body_shape_adjustment. now rewrite Hz.
Qed.

Lemma adjustment_canonicalizes_case_only_when_shifting_witness :
  adjustment_of "oval" "dress" <> 0
  /\ In (upper "xxl") SIZE_ORDER
  /\ apply_body_shape_adjustment "xxl" "oval" "dress" = Some "XXXL".
Proof.
  assert (Hnz : adjustment_of "oval" "dress" <> 0) by (vm_compute; discriminate).
  assert (Hup : In (upper "xxl") SIZE_ORDER) by (vm_compute; tauto).
  split; [exact Hnz|]. split; [exact Hup|].
  destruct (proj1 adjustment_canonicalizes_case_only_when_shifting
              "xxl" "oval" "dress" Hnz Hup) as (i & r & _ & _ & Happ & _).
  rewrite Happ. vm_compute in Happ. exact (eq_sym Happ).
Defined.

(** ** The generic size match *)

(** C1 as stated fails: the catalog {S, L} is not empty, and the generic
    match returns 'M', which is not one of its names. *)
Lemma recommend_size_outside_catalog :
  sizes gap_db <> []
  /\ recommend_size gap_db gap_measurements = "M"
  /\ ~ In (recommend_size gap_db gap_measurements) (size_names gap_db).
Proof.
  split; [discriminate|]. split; [reflexivity|].
  vm_compute. intros [H|[H|[]]]; discriminate.
Qed.

Lemma find_Forall_false {A : Type} (f : A -> bool) (l : list A) :
  List.find f l = None -> Forall (fun x => f x = false) l.
Proof.
  intros H. apply List.Forall_forall. intros x Hx.
  exact (find_none f l H x Hx).
Qed.

(** C1, amended: the generic match returns the name of a range of the
    catalog, or the default 'M'; it returns the default without it being a
    catalog name only when the catalog is empty or when no range of the
    catalog has the doubled chest value within its chest bounds. *)
Theorem recommend_size_in_catalog_or_default
    (db : Store) (measurements : gmap string float) :
  In (recommend_size db measurements) (size_names db)
  \/ (recommend_size db measurements = "M"
      /\ (sizes db = []
          \/ Forall (fun s => chest_in_range (chest_circumference measurements) s = false)
               (sizes db))).
Proof.
  unfold recommend_size, size_names. fold (chest_circumference measurements).
  set (chest := chest_circumference measurements).
  set (waist := (dict_get measurements "waist" * WIDTH_TO_CIRCUMFERENCE_FACTOR)%float).
  destruct (List.filter _ (sizes db)) as [|s rest] eqn:Hexact.
  2:{ left. apply in_map.
      assert (Hs : In s (List.filter
                (fun s => chest_in_range chest s && waist_in_range waist s) (sizes db)))
        by (rewrite Hexact; now left).
      now apply filter_In in Hs. }
  assert (Hsorted : forall s, In s (order_by_chest_min (sizes db)) -> In s (sizes db))
    by (intros s; apply stable_sort_In).
  destruct (order_by_chest_min (sizes db)) as [|first others] eqn:Hall.
  { right. split; [reflexivity|]. left.
    apply length_zero_iff_nil.
    rewrite <- (stable_sort_length (fun a b => (chest_min a <=? chest_min b)%float)).
    fold (order_by_chest_min (sizes db)). now rewrite Hall. }
  destruct (chest <? chest_min first)%float.
  { left. apply in_map, Hsorted. now left. }
  destruct (chest_max (List.last (first :: others) first) <? chest)%float.
  { left. apply in_map, Hsorted.
    destruct (exists_last (l := first :: others)) as (l' & a & Hl); [discriminate|].
    rewrite Hl, last_last. apply in_or_app. right. now left. }
  destruct (List.find (chest_in_range chest) (first :: others)) as [s|] eqn:Hfind.
  { left. apply in_map, Hsorted. now apply find_some in Hfind. }
  right. split; [reflexivity|]. right.
  apply find_Forall_false in Hfind.
  apply List.Forall_forall. intros s Hs.
  rewrite List.Forall_forall in Hfind. apply Hfind.
  rewrite <- Hall. now apply stable_sort_In.
Qed.

(** ** The product scorer *)

Lemma filter_nonempty_existsb {A : Type} (f : A -> bool) (l : list A) :
  match List.filter f l with [] => false | _ :: _ => true end = existsb f l.
Proof.
  induction l as [|x r IH]; simpl; [reflexivity|].
  destruct (f x); simpl; [reflexivity|exact IH].
Qed.

Lemma priority_of_expected (db : Store) (size fit : string) (cols : list Color)
    (product : Product) :
  priority_of size fit cols product (available_variants db product)
  = expected_score db size fit cols product.
Proof.
  unfold priority_of, expected_score, bonus.
  rewrite <- !filter_nonempty_existsb.
  destruct (String.eqb _ fit);
    destruct (List.filter (has_size size) _);
    destruct (List.filter (color_in cols) _); lia.
Qed.

Lemma expected_score_bounds (db : Store) (size fit : string) (cols : list Color)
    (product : Product) :
  5 <= expected_score db size fit cols product <= 40.
Proof.
  unfold expected_score, bonus.
  destruct (String.eqb _ fit); destruct (existsb (has_size size) _);
    destruct (existsb (color_in cols) _); lia.
Qed.

(** The loop keeps, in order, the products with an available variant. *)
Lemma score_products_In (db : Store) (size fit : string) (cols : list Color)
    (ps : list Product) (product : Product) (priority : Z) :
  In (product, priority) (score_products db size fit cols ps)
  <-> In product ps
      /\ available_variants db product <> []
      /\ priority = expected_score db size fit cols product.
Proof.
  induction ps as [|p rest IH]; simpl; [tauto|].
  destruct (available_variants db p) as [|v vs] eqn:Hav.
  - rewrite IH. split.
    + intros (Hin & Hne & Hs). auto.
    + intros ([->|Hin] & Hne & Hs); [congruence|auto].
  - simpl. rewrite IH. split.
    + intros [[= <- <-]|(Hin & Hne & Hs)].
      * split; [now left|]. split; [congruence|].
        rewrite <- Hav. apply priority_of_expected.
      * auto.
    + intros ([->|Hin] & Hne & ->).
      * left. f_equal. rewrite <- Hav. apply priority_of_expected.
      * right. auto.
Qed.

Lemma score_products_map_fst (db : Store) (size fit : string) (cols : list Color)
    (ps : list Product) :
  map fst (score_products db size fit cols ps)
  = List.filter
      (fun p => match available_variants db p with [] => false | _ :: _ => true end) ps.
Proof.
  induction ps as [|p rest IH]; simpl; [reflexivity|].
  destruct (available_variants db p); simpl; now rewrite IH.
Qed.

(** C3: a product with an in-stock variant is given the score 5 + 15 (fit)
    + 10 (recommended size in stock) + 10 (a recommended color in stock),
    every emitted score is that sum and lies in [5, 40], and a product with
    no available variant is not in the output. *)
Theorem recommend_products_scores
    (db : Store) (get_recommended_colors : string -> string -> list string)
    (measurements : gmap string float) (skin_tone gender : string) (limit : Z) :
  let score :=
    expected_score db (recommend_size db measurements) (recommend_fit measurements)
      (recommended_color_rows db get_recommended_colors skin_tone) in
  let scored :=
    score_products db (recommend_size db measurements) (recommend_fit measurements)
      (recommended_color_rows db get_recommended_colors skin_tone)
      (gender_products db gender) in
  let output :=
    recommend_products db get_recommended_colors measurements skin_tone gender limit in
  (forall product,
      In product (gender_products db gender) ->
      available_variants db product <> [] ->
      In (product, score product) scored)
  /\ output = slice_to limit (sort_by_priority scored)
  /\ (forall product priority,
        In (product, priority) output ->
        priority = score product /\ 5 <= priority <= 40
        /\ available_variants db product <> [])
  /\ (forall product priority,
        available_variants db product = [] -> ~ In (product, priority) output).
Proof.
  intros score scored output.
  assert (Hout : forall product priority,
             In (product, priority) output ->
             In product (gender_products db gender)
             /\ available_variants db product <> []
             /\ priority = score product).
  { intros product priority Hin. apply slice_to_incl in Hin.
    apply stable_sort_In in Hin. now apply score_products_In in Hin. }
  split; [|split; [reflexivity|split]].
  - intros product Hin Hav. apply score_products_In. auto.
  - intros product priority Hin.
    destruct (Hout _ _ Hin) as (_ & Hav & ->).
    split; [reflexivity|]. split; [apply expected_score_bounds|exact Hav].
  - intros product priority Hav Hin.
    destruct (Hout _ _ Hin) as (_ & Hne & _). contradiction.
Qed.

(** ** The variant matcher *)

Lemma recommend_size_for_garment_total
    (db : Store) (measurements : gmap string float) (garment_type body_shape : string) :
  is_Some (recommend_size_for_garment db measurements garment_type body_shape).
Proof. apply apply_body_shape_adjustment_total. Qed.

Lemma tier1_tier2 (product : Product) (rec_size : string) (names : list string)
    (v : ProductVariant) :
  tier1 product rec_size names v = true -> tier2 product rec_size v = true.
Proof.
  unfold tier1, tier2. intros H.
  repeat (apply andb_prop in H; destruct H as [H ?]).
  now repeat (apply andb_true_intro; split).
Qed.

Lemma tier2_true (product : Product) (rec_size : string) (v : ProductVariant) :
  tier2 product rec_size v = true ->
  variant_product v = product_id product
  /\ size_name (variant_size v) = rec_size
  /\ 0 < inventory_quantity v.
Proof.
  unfold tier2, has_size. intros H.
  repeat (apply andb_prop in H; destruct H as [H ?]).
  repeat split; [now apply Z.eqb_eq|now apply String.eqb_eq|now apply Z.ltb_lt].
Qed.

(** C4: for a product the matcher examines, with [rec_size] its
    garment-adjusted size: if an in-stock variant of the product has that size
    and a recommended color, the first such variant is emitted as a perfect
    match; otherwise, if an in-stock variant has that size, the first such is
    emitted and is not a perfect match; otherwise nothing is emitted.  An
    emitted variant has the adjusted size and positive stock, and
    [fit_matches_recommendation] compares the product's fit type with the
    recommended fit. *)
Theorem match_product_tiers
    (db : Store) (measurements : gmap string float) (body_shape : string)
    (recommended_color_names : list string) (recommended_fit : string)
    (product : Product) :
  exists rec_size,
    recommend_size_for_garment db measurements (product_category product) body_shape
    = Some rec_size
    /\ (existsb (tier1 product rec_size recommended_color_names) (variants db) = true ->
        exists m,
          match_product db measurements body_shape recommended_color_names
            recommended_fit product = Some (Some m)
          /\ is_perfect_match m = true
          /\ first_satisfying (tier1 product rec_size recommended_color_names)
               (variants db) (mr_variant m)
          /\ name_in (color_name (variant_color (mr_variant m))) recommended_color_names
             = true
          /\ emitted_for product rec_size recommended_fit m)
    /\ (existsb (tier1 product rec_size recommended_color_names) (variants db) = false ->
        existsb (tier2 product rec_size) (variants db) = true ->
        exists m,
          match_product db measurements body_shape recommended_color_names
            recommended_fit product = Some (Some m)
          /\ is_perfect_match m = false
          /\ first_satisfying (tier2 product rec_size) (variants db) (mr_variant m)
          /\ emitted_for product rec_size recommended_fit m)
    /\ (existsb (tier2 product rec_size) (variants db) = false ->
        match_product db measurements body_shape recommended_color_names
          recommended_fit product = Some None).
Proof.
  destruct (recommend_size_for_garment_total db measurements
              (product_category product) body_shape) as [rec_size Hsize].
  exists rec_size. split; [exact Hsize|].
  unfold match_product. rewrite Hsize. simpl.
  destruct (head (List.filter (tier1 product rec_size recommended_color_names)
                    (variants db))) as [v1|] eqn:H1.
  - pose proof (head_filter_Some _ _ _ H1) as Hfirst.
    assert (Hv1 : tier1 product rec_size recommended_color_names v1 = true)
      by (destruct Hfirst as (? & ? & _ & ? & _); assumption).
    apply head_filter_None' in H1 as Hex.
    split; [|split].
    + intros _. eexists. split; [reflexivity|]. simpl.
      split; [reflexivity|]. split; [exact Hfirst|].
      pose proof (tier2_true _ _ _ (tier1_tier2 _ _ _ _ Hv1)) as (? & ? & ?).
      split.
      { unfold tier1 in Hv1.
        repeat (apply andb_prop in Hv1; destruct Hv1 as [Hv1 ?]). assumption. }
      unfold emitted_for. simpl. auto 10.
    + intros Hno. congruence.
    + intros Hno. exfalso.
      rewrite <- not_true_iff_false in Hno. apply Hno.
      apply existsb_exists. exists v1. split; [|now apply tier1_tier2 in Hv1].
      destruct Hfirst as (b & a & -> & _). apply in_or_app. right. now left.
  - apply head_filter_None in H1.
    destruct (head (List.filter (tier2 product rec_size) (variants db)))
      as [v2|] eqn:H2.
    + pose proof (head_filter_Some _ _ _ H2) as Hfirst.
      assert (Hv2 : tier2 product rec_size v2 = true)
        by (destruct Hfirst as (? & ? & _ & ? & _); assumption).
      split; [|split].
      * intros Hyes. congruence.
      * intros _ _. eexists. split; [reflexivity|]. simpl.
        split; [reflexivity|]. split; [exact Hfirst|].
        pose proof (tier2_true _ _ _ Hv2) as (? & ? & ?).
        unfold emitted_for. simpl. auto 10.
      * intros Hno. exfalso.
        rewrite <- not_true_iff_false in Hno. apply Hno.
        apply existsb_exists. exists v2. split; [|exact Hv2].
        destruct Hfirst as (b & a & -> & _). apply in_or_app. right. now left.
    + apply head_filter_None in H2.
      split; [|split]; [congruence|congruence|reflexivity].
Qed.

(** *** The order of the sort keys *)

Lemma string_compare_lt_trans (a b c : string) :
  String.compare a b = Lt -> String.compare b c = Lt -> String.compare a c = Lt.
Proof.
  revert b c. induction a as [|x a IH]; intros [|y b] [|z c]; simpl;
    try congruence.
  unfold Ascii.compare.
  destruct (N_of_ascii x ?= N_of_ascii y)%N eqn:Hxy;
    destruct (N_of_ascii y ?= N_of_ascii z)%N eqn:Hyz;
    try congruence; intros H1 H2.
  - apply N.compare_eq in Hxy, Hyz. rewrite Hxy, Hyz, N.compare_refl. eauto.
  - apply N.compare_eq in Hxy. now rewrite Hxy, Hyz.
  - apply N.compare_eq in Hyz. now rewrite <- Hyz, Hxy.
  - assert (H : (N_of_ascii x ?= N_of_ascii z)%N = Lt).
    { apply N.compare_lt_iff. apply N.compare_lt_iff in Hxy.
      apply N.compare_lt_iff in Hyz. eapply N.lt_trans; eassumption. }
    now rewrite H.
Qed.

Lemma string_ltb_false_leb (a b : string) :
  String.ltb b a = false <-> String.leb a b = true.
Proof.
  unfold String.ltb, String.leb. rewrite (String.compare_antisym a b).
  destruct (String.compare b a); simpl; split; congruence.
Qed.

Lemma string_leb_trans (a b c : string) :
  String.leb a b = true -> String.leb b c = true -> String.leb a c = true.
Proof.
  rewrite <- !string_ltb_false_leb. unfold String.ltb.
  intros Hba Hcb.
  destruct (String.compare c a) eqn:Hca; try reflexivity. exfalso.
  destruct (String.compare b a) eqn:Hb; try discriminate.
  - apply String.compare_eq_iff in Hb. subst b. rewrite Hca in Hcb. discriminate.
  - assert (Hab : String.compare a b = Lt)
      by (rewrite String.compare_antisym, Hb; reflexivity).
    rewrite (string_compare_lt_trans c a b Hca Hab) in Hcb. discriminate.
Qed.

Lemma sort_le_ranks_before (x y : MatchResult) :
  sort_le x y = true <-> ranks_before x y.
Proof.
  unfold sort_le, ranks_before, match_key, key_ltb.
  rewrite negb_true_iff.
  destruct (fit_matches_recommendation x), (fit_matches_recommendation y),
    (is_perfect_match x), (is_perfect_match y); simpl;
    rewrite ?string_ltb_false_leb; intuition congruence.
Qed.

Lemma sort_le_total (x y : MatchResult) : sort_le x y = true \/ sort_le y x = true.
Proof.
  rewrite !sort_le_ranks_before. unfold ranks_before.
  destruct (String.leb_total (product_name (mr_product x)) (product_name (mr_product y)));
    destruct (fit_matches_recommendation x), (fit_matches_recommendation y),
      (is_perfect_match x), (is_perfect_match y); intuition congruence.
Qed.

Lemma sort_le_trans (x y z : MatchResult) :
  sort_le x y = true -> sort_le y z = true -> sort_le x z = true.
Proof.
  rewrite !sort_le_ranks_before. unfold ranks_before.
  pose proof (string_leb_trans (product_name (mr_product x))
                (product_name (mr_product y)) (product_name (mr_product z))).
  destruct (fit_matches_recommendation x), (fit_matches_recommendation y),
    (fit_matches_recommendation z), (is_perfect_match x), (is_perfect_match y),
    (is_perfect_match z); intuition congruence.
Qed.

Lemma collect_matches_emitted
    (db : Store) (measurements : gmap string float) (body_shape : string)
    (names : list string) (recommended_fit : string)
    (ps : list Product) (matching_products : list MatchResult) :
  collect_matches db measurements body_shape names recommended_fit ps matching_products
  = Some (matching_products ++ emitted db measurements body_shape names recommended_fit ps).
Proof.
  revert matching_products. induction ps as [|product rest IH]; intros acc; simpl.
  - now rewrite app_nil_r.
  - destruct (recommend_size_for_garment_total db measurements
                (product_category product) body_shape) as [rec_size Hsize].
    unfold match_product at 1 2. rewrite Hsize. simpl.
    fold (match_product db measurements body_shape names recommended_fit product).
    destruct (head (List.filter (tier1 product rec_size names) (variants db)));
      [|destruct (head (List.filter (tier2 product rec_size) (variants db)))];
      simpl; rewrite IH; [now rewrite <- app_assoc..|reflexivity].
Qed.

(** C5: the list the matcher returns is the list of emitted dictionaries,
    sorted by the key (not fit_matches_recommendation, not is_perfect_match,
    product name) and cut to the limit: fit-matching entries come first,
    perfect matches first among entries that agree on the fit, and entries
    that agree on both are in the order of their product names. *)
Theorem get_matching_product_variants_ranked
    (db : Store) (get_recommended_colors : string -> string -> list string)
    (body_scan : BodyScan) (gender fit_type : option string) (limit : Z) :
  let collected :=
    emitted db (build_measurements body_scan) (body_shape_of body_scan)
      (recommend_colors get_recommended_colors (scan_skin_tone body_scan)
         (undertone_of body_scan))
      (recommend_fit (build_measurements body_scan))
      (filtered_products db gender fit_type) in
  exists output,
    get_matching_product_variants db get_recommended_colors body_scan gender fit_type limit
    = Some output
    /\ output = slice_to limit (sort_matches collected)
    /\ Permutation collected (sort_matches collected)
    /\ StronglySorted ranks_before (sort_matches collected)
    /\ StronglySorted ranks_before output
    /\ (forall (i j : nat) (x y : MatchResult),
          (i < j)%nat -> output !! i = Some x -> output !! j = Some y ->
          ranks_before x y
          /\ (fit_matches_recommendation x = fit_matches_recommendation y ->
              is_perfect_match x = is_perfect_match y ->
              String.leb (product_name (mr_product x)) (product_name (mr_product y))
              = true))
    /\ (exists rest, sort_matches collected = output ++ rest)
    /\ (0 <= limit -> Z.of_nat (length output) <= limit).
Proof.
  intros collected.
  exists (slice_to limit (sort_matches collected)).
  assert (Hsorted : StronglySorted ranks_before (sort_matches collected)).
  { apply StronglySorted_impl with (R := fun a b => sort_le a b = true).
    - intros x y. apply sort_le_ranks_before.
    - apply stable_sort_sorted; [apply sort_le_total|apply sort_le_trans]. }
  assert (Hout : StronglySorted ranks_before (slice_to limit (sort_matches collected)))
    by (apply slice_to_sorted; exact Hsorted).
  split.
  { unfold get_matching_product_variants.
    rewrite collect_matches_emitted. reflexivity. }
  split; [reflexivity|]. split; [apply stable_sort_perm|].
  split; [exact Hsorted|]. split; [exact Hout|].
  split; [|split; [apply slice_to_prefix|apply slice_to_length]].
  intros i j x y Hij Hi Hj.
  pose proof (StronglySorted_lookup _ _ _ _ _ _ Hout Hij Hi Hj) as Hxy.
  split; [exact Hxy|].
  intros Hfit Hperfect. unfold ranks_before in Hxy.
  destruct (fit_matches_recommendation x), (fit_matches_recommendation y),
    (is_perfect_match x), (is_perfect_match y); intuition congruence.
Qed.

(** ** The orchestrator *)

Lemma remove_duplicates_acc (recs : list (Product * Z)) (seen : gset Z)
    (acc : list (Product * Z)) :
  remove_duplicates recs seen acc = acc ++ remove_duplicates recs seen [].
Proof.
  revert seen acc. induction recs as [|[product priority] rest IH]; intros seen acc; simpl.
  - now rewrite app_nil_r.
  - destruct (decide (product_id product ∈ seen)); [apply IH|].
    rewrite (IH _ (acc ++ [(product, priority)])), (IH _ [(product, priority)]).
    now rewrite <- app_assoc.
Qed.

(** The loop keeps an entry exactly when its product was not seen before
    and it is the first entry of the list for that product. *)
Lemma remove_duplicates_In (recs : list (Product * Z)) (seen : gset Z)
    (e : Product * Z) :
  In e (remove_duplicates recs seen [])
  <-> (product_id (fst e) ∉ seen)
      /\ List.find (same_product (fst e)) recs = Some e.
Proof.
  revert seen. induction recs as [|[product priority] rest IH]; intros seen; simpl.
  - split; [tauto|intros [_ ?]; discriminate].
  - unfold same_product at 1. simpl.
    destruct (decide (product_id product ∈ seen)) as [Hseen|Hnew].
    + rewrite IH.
      destruct (Z.eqb_spec (product_id product) (product_id (fst e))) as [Heq|Hne].
      * rewrite <- Heq. split; [tauto|]. intros [? _]. contradiction.
      * tauto.
    + rewrite remove_duplicates_acc. simpl. rewrite IH.
      destruct (Z.eqb_spec (product_id product) (product_id (fst e))) as [Heq|Hne].
      * split.
        -- intros [<-|[Hnot _]]; [auto|]. exfalso. apply Hnot.
           apply elem_of_union. left. now apply elem_of_singleton.
        -- intros [_ [= <-]]. now left.
      * split.
        -- intros [<-|[Hnot Hfind]]; [now simpl in Hne|].
           split; [|exact Hfind].
           intros Hin. apply Hnot, elem_of_union. now right.
        -- intros [Hnot Hfind]. right. split; [|exact Hfind].
           intros [Hin|Hin]%elem_of_union; [|contradiction].
           apply elem_of_singleton in Hin. congruence.
Qed.

Lemma remove_duplicates_NoDup (recs : list (Product * Z)) (seen : gset Z) :
  List.NoDup (map (fun e => product_id (fst e)) (remove_duplicates recs seen [])).
Proof.
  revert seen. induction recs as [|[product priority] rest IH]; intros seen; simpl.
  - constructor.
  - destruct (decide (product_id product ∈ seen)); [apply IH|].
    rewrite remove_duplicates_acc. simpl. constructor; [|apply IH].
    intros Hin. apply in_map_iff in Hin as (e & Hid & He).
    apply remove_duplicates_In in He as [Hnot _].
    apply Hnot. rewrite Hid. apply elem_of_union. left. now apply elem_of_singleton.
Qed.

Lemma remove_duplicates_sublist (recs : list (Product * Z)) (seen : gset Z) :
  sublist (remove_duplicates recs seen []) recs.
Proof.
  revert seen. induction recs as [|[product priority] rest IH]; intros seen; simpl.
  - constructor.
  - destruct (decide (product_id product ∈ seen)); [apply sublist_cons, IH|].
    rewrite remove_duplicates_acc. simpl. apply sublist_skip, IH.
Qed.

Lemma filter_none {A : Type} (f : A -> bool) (l : list A) :
  (forall x, In x l -> f x = false) -> List.filter f l = [].
Proof.
  induction l as [|x r IH]; simpl; intros H; [reflexivity|].
  rewrite (H x) by now left. apply IH. intros y Hy. apply H. now right.
Qed.

(** With distinct ids, the entries for a product are its one entry. *)
Lemma NoDup_filter_same_product (l : list (Product * Z)) (e : Product * Z) :
  List.NoDup (map (fun e => product_id (fst e)) l) ->
  In e l ->
  List.filter (same_product (fst e)) l = [e].
Proof.
  induction l as [|x r IH]; simpl; [tauto|].
  intros Hnd Hin. inversion Hnd as [|? ? Hx Hr]; subst.
  unfold same_product at 1.
  destruct Hin as [->|Hin].
  - rewrite Z.eqb_refl. f_equal. apply filter_none.
    intros y Hy. unfold same_product. apply Z.eqb_neq. intros Heq.
    apply Hx. rewrite <- Heq. now apply (in_map (fun e => product_id (fst e))).
  - destruct (Z.eqb_spec (product_id (fst x)) (product_id (fst e))) as [Heq|Hne].
    + exfalso. apply Hx. rewrite Heq.
      now apply (in_map (fun e => product_id (fst e))).
    + now apply IH.
Qed.

Lemma sort_by_priority_sorted (l : list (Product * Z)) :
  StronglySorted (fun a b => snd b <= snd a) (sort_by_priority l).
Proof.
  apply StronglySorted_impl with (R := fun a b => (snd b <=? snd a) = true).
  - intros x y. apply Z.leb_le.
  - apply (stable_sort_sorted (fun a b => snd b <=? snd a)).
    + intros a b. rewrite !Z.leb_le. lia.
    + intros a b c. rewrite !Z.leb_le. lia.
Qed.

(** Entries of equal priority keep the order they had before the sort. *)
Lemma sort_by_priority_stable (l : list (Product * Z)) (priority : Z) :
  List.filter (fun e => snd e =? priority) (sort_by_priority l)
  = List.filter (fun e => snd e =? priority) l.
Proof.
  apply (stable_sort_filter (fun a b => snd b <=? snd a)).
  intros x y Hx Hy. apply Z.eqb_eq in Hx, Hy. apply Z.leb_le. lia.
Qed.

Lemma find_is_Some {A : Type} (f : A -> bool) (l : list A) (x : A) :
  In x l -> f x = true -> exists y, List.find f l = Some y.
Proof.
  induction l as [|z r IH]; simpl; [tauto|].
  intros Hin Hx. destruct (f z) eqn:Hz; [eauto|].
  destruct Hin as [->|Hin]; [congruence|auto].
Qed.

Lemma same_product_first (p : Product) (e : Product * Z) :
  same_product p e = true -> same_product (fst e) = same_product p.
Proof.
  unfold same_product. intros Heq%Z.eqb_eq. now rewrite Heq.
Qed.

(** C2: the three passes are run in the order men, women, unisex; a product
    of their scored output is in the deduplicated list exactly once, with the
    entry (and so the score) of its first occurrence; the list is then
    sorted by descending score, entries of equal score keeping the order in
    which they were first encountered; and at most 10 records are made, one
    for each of the first 10 entries. *)
Theorem orchestrator_deduplicates_and_ranks
    (db : Store) (get_recommended_colors : string -> string -> list string)
    (body_scan : BodyScan) :
  let pass gender :=
    recommend_products db get_recommended_colors (build_measurements body_scan)
      (scan_skin_tone body_scan) gender 10 in
  let encountered := product_recommendations db get_recommended_colors body_scan in
  let deduplicated := remove_duplicates encountered ∅ [] in
  let ranked := unique_recommendations db get_recommended_colors body_scan in
  encountered = pass "men" ++ pass "women" ++ pass "unisex"
  /\ (forall e,
        In e encountered ->
        exists first,
          List.find (same_product (fst e)) encountered = Some first
          /\ List.filter (same_product (fst e)) deduplicated = [first]
          /\ List.filter (same_product (fst e)) ranked = [first])
  /\ sublist deduplicated encountered
  /\ ranked = sort_by_priority deduplicated
  /\ Permutation deduplicated ranked
  /\ StronglySorted (fun a b => snd b <= snd a) ranked
  /\ (forall priority,
        List.filter (fun e => snd e =? priority) ranked
        = List.filter (fun e => snd e =? priority) deduplicated)
  /\ exists records,
       generate_recommendations_for_scan db get_recommended_colors body_scan
       = Some records
       /\ map (fun r => (rec_product r, rec_priority r)) records = slice_to 10 ranked
       /\ (length records <= 10)%nat.
Proof.
  intros pass encountered deduplicated ranked.
  assert (Hperm : Permutation deduplicated ranked) by apply stable_sort_perm.
  assert (Hnd : List.NoDup (map (fun e => product_id (fst e)) deduplicated))
    by apply remove_duplicates_NoDup.
  split; [unfold encountered, product_recommendations; simpl; now rewrite app_nil_r|].
  split; [|split; [apply remove_duplicates_sublist|]].
  { intros e He.
    destruct (find_is_Some (same_product (fst e)) encountered e He) as [first Hfirst].
    { unfold same_product. apply Z.eqb_refl. }
    exists first. split; [exact Hfirst|].
    pose proof (find_some _ _ Hfirst) as [_ Hsame].
    rewrite <- (same_product_first _ _ Hsame).
    assert (Hin : In first deduplicated).
    { apply remove_duplicates_In. split; [apply not_elem_of_empty|].
      now rewrite (same_product_first _ _ Hsame). }
    split; [now apply NoDup_filter_same_product|].
    apply NoDup_filter_same_product.
    - eapply Permutation_NoDup; [|exact Hnd]. now apply Permutation_map.
    - eapply Permutation_in; [exact Hperm|exact Hin]. }
  split; [reflexivity|]. split; [exact Hperm|].
  split; [apply sort_by_priority_sorted|].
  split; [intros priority; apply sort_by_priority_stable|].
  unfold generate_recommendations_for_scan. fold ranked.
  match goal with |- context [mapM ?f ?l] => set (make := f) end.
  destruct (mapM_is_Some_2 make (slice_to 10 ranked)) as [records Hrecords].
  { apply List.Forall_forall. intros [product priority] _. unfold make. simpl.
    destruct (recommend_size_for_garment_total db (build_measurements body_scan)
                (product_category product) (body_shape_of body_scan)) as [size ->].
    simpl. eauto. }
  exists records. split; [exact Hrecords|].
  split; [|rewrite <- (length_mapM _ _ _ Hrecords);
            pose proof (slice_to_length 10 ranked); lia].
  apply mapM_Some_1 in Hrecords.
  induction Hrecords as [|[product priority] r l k Hx _ IH]; simpl; [reflexivity|].
  rewrite IH. f_equal. unfold make in Hx. simpl in Hx.
  destruct (recommend_size_for_garment db (build_measurements body_scan)
              (product_category product) (body_shape_of body_scan));
    simpl in Hx; [|discriminate].
  now injection Hx as <-.
Qed.

(** ** Unisex products and the passes *)

(** C9 as stated fails: the unisex product 21 is in stock, yet the 'men'
    pass and the 'women' pass return ten other products each, and the product
    is first encountered in the 'unisex' pass, as entry 21 of the list. *)
Lemma unisex_product_first_met_in_unisex_pass :
  let unisex := plain_product "unisex" 21 in
  let pass gender :=
    recommend_products crowded_db no_colors (build_measurements plain_scan)
      (scan_skin_tone plain_scan) gender 10 in
  In unisex (products crowded_db)
  /\ available_variants crowded_db unisex <> []
  /\ existsb (same_product unisex) (pass "men") = false
  /\ existsb (same_product unisex) (pass "women") = false
  /\ pass "unisex" = [(unisex, 30)]
  /\ product_recommendations crowded_db no_colors plain_scan
     = pass "men" ++ pass "women" ++ [(unisex, 30)]
  /\ length (pass "men" ++ pass "women") = 20%nat.
Proof.
  intros unisex pass.
  split; [unfold crowded_db; simpl; tauto|].
  split; [vm_compute; discriminate|].
  repeat split; vm_compute; reflexivity.
Qed.

Lemma find_app_l {A : Type} (f : A -> bool) (l1 l2 : list A) (x : A) :
  In x l1 -> f x = true ->
  exists y, List.find f (l1 ++ l2) = Some y /\ In y l1 /\ f y = true.
Proof.
  induction l1 as [|z r IH]; simpl; [tauto|].
  intros Hin Hx. destruct (f z) eqn:Hz; [eauto|].
  destruct Hin as [->|Hin]; [congruence|].
  destruct (IH Hin Hx) as (y & ? & ? & ?). eauto.
Qed.

(** C9, amended: a pass for gender g scores every product whose gender is g
    or 'unisex' and returns the first [limit] of them, best first.  So an
    in-stock unisex product is scored in every pass, with the same score; it
    is already encountered in the 'men' pass of the orchestrator whenever
    that pass returns it, which it does when at most 10 in-stock products
    are men's or unisex. *)
Theorem unisex_products_join_every_pass
    (db : Store) (get_recommended_colors : string -> string -> list string)
    (body_scan : BodyScan) :
  let measurements := build_measurements body_scan in
  let score :=
    expected_score db (recommend_size db measurements) (recommend_fit measurements)
      (recommended_color_rows db get_recommended_colors (scan_skin_tone body_scan)) in
  let scored gender :=
    score_products db (recommend_size db measurements) (recommend_fit measurements)
      (recommended_color_rows db get_recommended_colors (scan_skin_tone body_scan))
      (gender_products db gender) in
  let pass gender limit :=
    recommend_products db get_recommended_colors measurements
      (scan_skin_tone body_scan) gender limit in
  let encountered := product_recommendations db get_recommended_colors body_scan in
  (forall gender product,
      In product (gender_products db gender)
      <-> In product (products db)
          /\ (product_gender product = gender \/ product_gender product = "unisex"))
  /\ (forall gender limit, pass gender limit = slice_to limit (sort_by_priority (scored gender)))
  /\ (forall gender product,
        In product (products db) ->
        product_gender product = "unisex" ->
        available_variants db product <> [] ->
        In (product, score product) (scored gender))
  /\ (forall product priority,
        In (product, priority) (pass "men" 10) ->
        exists first,
          List.find (same_product product) encountered = Some first
          /\ In first (pass "men" 10)
          /\ product_id (fst first) = product_id product)
  /\ (forall product,
        In product (products db) ->
        product_gender product = "unisex" ->
        available_variants db product <> [] ->
        (length (scored "men") <= 10)%nat ->
        In (product, score product) (pass "men" 10)).
Proof.
  intros measurements score scored pass encountered.
  assert (Hgender : forall gender product,
             In product (gender_products db gender)
             <-> In product (products db)
                 /\ (product_gender product = gender
                     \/ product_gender product = "unisex")).
  { intros gender product. unfold gender_products.
    rewrite filter_In, orb_true_iff, !String.eqb_eq. tauto. }
  assert (Hscored : forall gender product,
             In product (products db) ->
             product_gender product = "unisex" ->
             available_variants db product <> [] ->
             In (product, score product) (scored gender)).
  { intros gender product Hin Hunisex Hav.
    apply score_products_In. split; [|auto]. apply Hgender. auto. }
  split; [exact Hgender|]. split; [reflexivity|]. split; [exact Hscored|].
  split.
  - intros product priority Hin.
    assert (Henc : encountered = pass "men" 10 ++ (pass "women" 10 ++ pass "unisex" 10)).
    { unfold encountered, product_recommendations. simpl. now rewrite app_nil_r. }
    rewrite Henc.
    destruct (find_app_l (same_product product) (pass "men" 10)
                (pass "women" 10 ++ pass "unisex" 10) (product, priority) Hin)
      as (first & Hfind & Hfirst & Hsame).
    { unfold same_product. apply Z.eqb_refl. }
    exists first. split; [exact Hfind|]. split; [exact Hfirst|].
    now apply Z.eqb_eq in Hsame.
  - intros product Hin Hunisex Hav Hfew.
    unfold pass, recommend_products.
    rewrite slice_to_all.
    + apply stable_sort_In. now apply Hscored.
    + unfold sort_by_priority. rewrite stable_sort_length.
      fold measurements. fold (recommended_color_rows db get_recommended_colors
                                 (scan_skin_tone body_scan)).
      fold (scored "men"). lia.
Qed.

(** ** Order of binary64 values *)

Lemma SFcompare_antisym (x y : spec_float) :
  SFcompare x y = option_map CompOpp (SFcompare y x).
Proof.
  destruct x as [sx|sx| |sx mx ex], y as [sy|sy| |sy my ey]; simpl;
    try reflexivity;
    try (destruct sx; reflexivity); try (destruct sy; reflexivity);
    try (destruct sx, sy; reflexivity).
  destruct sx, sy; try reflexivity;
    rewrite (Z.compare_antisym ey ex);
    destruct (ey ?= ex); simpl; try reflexivity;
    rewrite (Pos.compare_cont_antisym my mx Eq); simpl;
    try reflexivity; now rewrite CompOpp_involutive.
Qed.

Lemma SFltb_SFleb_false (x y : spec_float) :
  SFltb x y = true -> SFleb y x = false.
Proof.
  unfold SFltb, SFleb. rewrite (SFcompare_antisym y x).
  destruct (SFcompare x y) as [[]|]; simpl; congruence.
Qed.

Lemma SFleb_false_SFltb (x y : spec_float) :
  x <> S754_nan -> y <> S754_nan -> SFleb x y = false -> SFltb y x = true.
Proof.
  unfold SFltb, SFleb. rewrite (SFcompare_antisym y x).
  intros Hx Hy.
  destruct (SFcompare x y) as [[]|] eqn:Hc; simpl; try congruence.
  destruct x, y; simpl in Hc; congruence.
Qed.

Lemma SFleb_not_nan (x y : spec_float) :
  SFleb x y = true -> x <> S754_nan /\ y <> S754_nan.
Proof.
  unfold SFleb. destruct x, y; simpl; intros H; split; congruence.
Qed.

Lemma ltb_leb_false (x y : float) : (x <? y)%float = true -> (y <=? x)%float = false.
Proof.
  rewrite FloatAxioms.ltb_spec, FloatAxioms.leb_spec. apply SFltb_SFleb_false.
Qed.

Lemma leb_false_ltb (x y z : float) :
  (z <=? y)%float = true -> Prim2SF x <> S754_nan ->
  (x <=? y)%float = false -> (y <? x)%float = true.
Proof.
  rewrite !FloatAxioms.leb_spec, FloatAxioms.ltb_spec. intros Hzy Hx Hxy.
  apply SFleb_false_SFltb; [exact Hx| |exact Hxy].
  now apply SFleb_not_nan in Hzy.
Qed.

(** ** The fit classifier *)

(** C6: a waist of 0 gives 'regular'; otherwise, with ratio = chest / waist,
    a ratio at least the slim minimum gives 'slim', a ratio at least the
    regular minimum and below the slim minimum gives 'regular', and every
    other ratio gives 'oversize'. *)
Theorem recommend_fit_bands (measurements : gmap string float) :
  let chest := dict_get measurements "chest" in
  let waist := dict_get measurements "waist" in
  let ratio := (chest / waist)%float in
  ((waist =? 0)%float = true -> recommend_fit measurements = "regular")
  /\ ((waist =? 0)%float = false ->
      ((FIT_slim_min_ratio <=? ratio)%float = true ->
       recommend_fit measurements = "slim")
      /\ ((FIT_regular_min_ratio <=? ratio)%float = true ->
          (ratio <? FIT_slim_min_ratio)%float = true ->
          recommend_fit measurements = "regular")
      /\ ((FIT_slim_min_ratio <=? ratio)%float = false ->
          ((FIT_regular_min_ratio <=? ratio)%float
           && (ratio <? FIT_slim_min_ratio)%float) = false ->
          recommend_fit measurements = "oversize")).
Proof.
  intros chest waist ratio. unfold recommend_fit.
  fold chest waist. fold ratio.
  split; [intros ->; reflexivity|].
  intros ->. split; [intros ->; reflexivity|]. split.
  - intros Hregular Hbelow.
    rewrite (ltb_leb_false _ _ Hbelow), Hregular. reflexivity.
  - intros Hslim Hband. rewrite Hslim.
    destruct (FIT_regular_min_ratio <=? ratio)%float eqn:Hregular; [|reflexivity].
    simpl in Hband.
    rewrite (leb_false_ltb FIT_slim_min_ratio ratio FIT_regular_min_ratio) in Hband;
      [discriminate|exact Hregular| |exact Hslim].
    vm_compute. discriminate.
Qed.

(** ** Rounding in binary64 *)

(** The exponent of the format for a magnitude [e]. *)
Lemma fexp_equation (e : Z) : fexp prec emax e = Z.max (e - 53) (-1074).
Proof. reflexivity. Qed.

(** [Zdigits2 n] is the number of binary digits of [n]. *)
Lemma digits2_pos_bounds (p : positive) :
  2 ^ (Z.pos (digits2_pos p) - 1) <= Z.pos p < 2 ^ Z.pos (digits2_pos p).
Proof.
  induction p as [p IH|p IH|]; simpl digits2_pos;
    rewrite ?Pos2Z.inj_succ; [| |simpl; lia].
  - replace (Z.succ (Z.pos (digits2_pos p)) - 1)
      with (Z.succ (Z.pos (digits2_pos p) - 1)) by lia.
    rewrite !Z.pow_succ_r by lia. lia.
  - replace (Z.succ (Z.pos (digits2_pos p)) - 1)
      with (Z.succ (Z.pos (digits2_pos p) - 1)) by lia.
    rewrite !Z.pow_succ_r by lia. lia.
Qed.

Lemma Zdigits2_bounds (n : Z) :
  0 < n -> 2 ^ (Zdigits2 n - 1) <= n < 2 ^ Zdigits2 n.
Proof.
  destruct n as [|p|p]; try lia. intros _. apply digits2_pos_bounds.
Qed.

Lemma Zdigits2_nonneg (n : Z) : 0 <= Zdigits2 n.
Proof. destruct n; simpl; lia. Qed.

Lemma Zdigits2_unique (n d : Z) :
  2 ^ (d - 1) <= n < 2 ^ d -> 0 < n -> Zdigits2 n = d.
Proof.
  intros Hd Hn. pose proof (Zdigits2_bounds n Hn) as Hb.
  pose proof (Zdigits2_nonneg n).
  assert (0 < d).
  { destruct (Z.ltb_spec 0 d); [assumption|].
    destruct (Z.eq_dec d 0) as [->|]; [simpl in Hd; lia|].
    rewrite (Z.pow_neg_r 2 d) in Hd by lia. lia. }
  destruct (Z.lt_trichotomy (Zdigits2 n) d) as [Hlt|[Heq|Hgt]]; [|exact Heq|].
  - assert (2 ^ Zdigits2 n <= 2 ^ (d - 1)) by (apply Z.pow_le_mono_r; lia). lia.
  - assert (2 ^ d <= 2 ^ (Zdigits2 n - 1)) by (apply Z.pow_le_mono_r; lia). lia.
Qed.

Lemma Zdigits2_le (a b : Z) : 0 <= a <= b -> Zdigits2 a <= Zdigits2 b.
Proof.
  intros [Ha Hab].
  destruct (Z.eq_dec a 0) as [->|]; [apply Zdigits2_nonneg|].
  pose proof (Zdigits2_bounds a ltac:(lia)). pose proof (Zdigits2_bounds b ltac:(lia)).
  destruct (Z.le_gt_cases (Zdigits2 a) (Zdigits2 b)) as [|Hgt]; [assumption|].
  assert (2 ^ Zdigits2 b <= 2 ^ (Zdigits2 a - 1)) by (apply Z.pow_le_mono_r; lia). lia.
Qed.

Lemma Zdigits2_lt_pow (n d : Z) : 0 <= d -> 0 <= n < 2 ^ d -> Zdigits2 n <= d.
Proof.
  intros Hd [Hn Hlt].
  destruct (Z.eq_dec n 0) as [->|]; [simpl; lia|].
  pose proof (Zdigits2_bounds n ltac:(lia)).
  destruct (Z.le_gt_cases (Zdigits2 n) d) as [|Hgt]; [assumption|].
  assert (2 ^ d <= 2 ^ (Zdigits2 n - 1)) by (apply Z.pow_le_mono_r; lia). lia.
Qed.

Lemma Zdigits2_ge_pow (n d : Z) : 0 <= d -> 2 ^ d <= n -> d < Zdigits2 n.
Proof.
  intros Hd Hle.
  assert (0 < 2 ^ d) by (apply Z.pow_pos_nonneg; lia).
  pose proof (Zdigits2_bounds n ltac:(lia)). pose proof (Zdigits2_nonneg n).
  destruct (Z.lt_ge_cases d (Zdigits2 n)) as [|Hge]; [assumption|].
  assert (2 ^ Zdigits2 n <= 2 ^ d) by (apply Z.pow_le_mono_r; lia). lia.
Qed.

(** Digits of a quotient scaled by a power of two. *)
Lemma Zdigits2_div_scale (N D delta : Z) :
  0 < D -> 0 <= delta -> 0 < N / D ->
  Zdigits2 (N * 2 ^ delta / D) = Zdigits2 (N / D) + delta.
Proof.
  intros HD Hdelta Hq.
  pose proof (Zdigits2_bounds (N / D) Hq) as [Hlo Hhi].
  pose proof (Zdigits2_nonneg (N / D)).
  assert (Hd : 0 < Zdigits2 (N / D)).
  { destruct (Z.eq_dec (Zdigits2 (N / D)) 0) as [E|]; [|lia].
    rewrite E in Hhi. simpl in Hhi. lia. }
  assert (Hp : 0 < 2 ^ delta) by (apply Z.pow_pos_nonneg; lia).
  assert (Hlo' : 2 ^ (Zdigits2 (N / D) - 1) * D <= N).
  { pose proof (Z.mul_div_le N D HD). nia. }
  assert (Hhi' : N < 2 ^ Zdigits2 (N / D) * D).
  { pose proof (Z.mod_pos_bound N D HD). pose proof (Z.div_mod N D ltac:(lia)). nia. }
  apply Zdigits2_unique.
  - replace (Zdigits2 (N / D) + delta - 1) with ((Zdigits2 (N / D) - 1) + delta) by lia.
    rewrite !Z.pow_add_r by lia. split.
    + apply Z.div_le_lower_bound; [lia|]. nia.
    + apply Z.div_lt_upper_bound; [lia|]. nia.
  - apply Z.div_str_pos. split; [lia|].
    assert (D <= N) by (pose proof (Z.pow_pos_nonneg 2 (Zdigits2 (N / D) - 1)); nia).
    nia.
Qed.

Lemma shr_1_nonneg (m : Z) (r s : bool) :
  0 <= m ->
  shr_1 {| shr_m := m; shr_r := r; shr_s := s |}
  = {| shr_m := m / 2; shr_r := Z.odd m; shr_s := r || s |}.
Proof.
  intros Hm. rewrite <- Z.div2_div.
  destruct m as [|p|p]; [reflexivity| |lia].
  destruct p; reflexivity.
Qed.

Lemma shr_1_rec_of (N D : Z) :
  0 <= N -> 0 < D -> shr_1 (rec_of N D) = rec_of N (2 * D).
Proof.
  intros HN HD. unfold rec_of.
  rewrite shr_1_nonneg by (apply Z.div_pos; lia).
  pose proof (Z.div_mod N D ltac:(lia)) as Hdm.
  pose proof (Z.mod_pos_bound N D HD) as Hr.
  pose proof (Z.div_mod (N / D) 2 ltac:(lia)) as Hq.
  pose proof (Z.mod_pos_bound (N / D) 2 ltac:(lia)) as Hb.
  assert (Hdiv : N / (2 * D) = N / D / 2).
  { rewrite (Z.mul_comm 2 D). symmetry. apply Z.div_div; lia. }
  assert (Hodd : Z.odd (N / D) = (N / D mod 2 =? 1)).
  { rewrite Zmod_odd. destruct (Z.odd (N / D)); reflexivity. }
  rewrite Hdiv, Hodd.
  set (q := N / D) in *. set (rho := N mod D) in *.
  set (h := q / 2) in *. set (b := q mod 2) in *.
  assert (Hmod : N mod (2 * D) = rho + D * b).
  { symmetry. apply (Z.mod_unique_pos _ _ h).
    - assert (Hb' : b = 0 \/ b = 1) by lia. destruct Hb' as [-> | ->]; lia.
    - rewrite Hdm, Hq. ring. }
  rewrite Hmod.
  assert (Hb' : b = 0 \/ b = 1) by lia.
  destruct Hb' as [Hb0 | Hb1].
  - rewrite Hb0, Z.mul_0_r, Z.add_0_r. simpl (0 =? 1).
    f_equal.
    + symmetry. apply Z.leb_gt. lia.
    + destruct (Z.leb_spec D (2 * rho)), (Z.eqb_spec rho 0),
        (Z.eqb_spec (2 * rho) D), (Z.eqb_spec (2 * rho) (2 * D));
        simpl; try reflexivity; lia.
  - rewrite Hb1, Z.mul_1_r. simpl (1 =? 1).
    f_equal.
    + symmetry. apply Z.leb_le. lia.
    + destruct (Z.leb_spec D (2 * rho)), (Z.eqb_spec rho 0),
        (Z.eqb_spec (2 * rho) D), (Z.eqb_spec (rho + D) 0),
        (Z.eqb_spec (2 * (rho + D)) (2 * D));
        simpl; try reflexivity; lia.
Qed.

Lemma pow2_xI (p : positive) : 2 ^ Z.pos p~1 = 2 * 2 ^ Z.pos p * 2 ^ Z.pos p.
Proof.
  replace (Z.pos p~1) with (1 + Z.pos p + Z.pos p) by lia.
  rewrite !Z.pow_add_r by lia. reflexivity.
Qed.

Lemma pow2_xO (p : positive) : 2 ^ Z.pos p~0 = 2 ^ Z.pos p * 2 ^ Z.pos p.
Proof.
  replace (Z.pos p~0) with (Z.pos p + Z.pos p) by lia.
  now rewrite Z.pow_add_r by lia.
Qed.

Lemma iter_pos_shr_1 (p : positive) (N D : Z) :
  0 <= N -> 0 < D ->
  SpecFloat.iter_pos shr_1 p (rec_of N D) = rec_of N (D * 2 ^ Z.pos p).
Proof.
  intros HN. revert D. induction p as [p IH|p IH|]; intros D HD; cbn [SpecFloat.iter_pos].
  - assert (0 < 2 ^ Z.pos p) by (apply Z.pow_pos_nonneg; lia).
    rewrite shr_1_rec_of, IH, IH by nia. f_equal. rewrite pow2_xI. ring.
  - assert (0 < 2 ^ Z.pos p) by (apply Z.pow_pos_nonneg; lia).
    rewrite IH, IH by nia. f_equal. rewrite pow2_xO. ring.
  - rewrite shr_1_rec_of by lia. f_equal. rewrite Z.pow_1_r. ring.
Qed.

(** Shifting by [n >= 0] positions divides by [2 ^ n]. *)
Lemma shr_rec_of (N D e n : Z) :
  0 <= N -> 0 < D -> 0 <= n ->
  shr (rec_of N D) e n = (rec_of N (D * 2 ^ n), e + n).
Proof.
  intros HN HD Hn. destruct n as [|p|p]; [| |lia]; simpl shr.
  - now rewrite Z.pow_0_r, Z.mul_1_r, Z.add_0_r.
  - now rewrite iter_pos_shr_1.
Qed.

Lemma shr_nonpos (mrs : shr_record) (e n : Z) : n <= 0 -> shr mrs e n = (mrs, e).
Proof. destruct n; [reflexivity|lia|reflexivity]. Qed.

(** The location [SFdiv_core_binary] computes is that of the remainder. *)
Lemma shr_record_of_new_location (N D : Z) :
  0 < D ->
  shr_record_of_loc (N / D) (new_location D (N mod D)) = rec_of N D.
Proof.
  intros HD. pose proof (Z.mod_pos_bound N D HD) as Hr.
  unfold rec_of, new_location, new_location_even, new_location_odd.
  revert Hr. generalize (N mod D) (N / D). intros rho q Hr.
  destruct (Z.even D) eqn:Heven.
  - destruct (Z.eqb_spec rho 0) as [Hz|Hne]; simpl.
    + f_equal. symmetry. apply Z.leb_gt. lia.
    + destruct (Z.compare_spec (2 * rho) D); simpl; f_equal;
        destruct (Z.leb_spec D (2 * rho)), (Z.eqb_spec (2 * rho) D);
        simpl; try reflexivity; lia.
  - assert (Hodd : 2 * rho <> D).
    { intros <-. rewrite Z.even_mul in Heven. discriminate. }
    destruct (Z.eqb_spec rho 0) as [Hz|Hne]; simpl.
    + f_equal. symmetry. apply Z.leb_gt. lia.
    + destruct (Z.compare_spec (2 * rho + 1) D); simpl; f_equal;
        destruct (Z.leb_spec D (2 * rho)), (Z.eqb_spec (2 * rho) D);
        simpl; try reflexivity; lia.
Qed.

Lemma rec_of_exact (m : Z) : shr_record_of_loc m loc_Exact = rec_of m 1.
Proof.
  unfold rec_of. simpl. rewrite Z.div_1_r, Z.mod_1_r. reflexivity.
Qed.

Lemma round_rec_of (N D : Z) :
  0 < D ->
  round_nearest_even (shr_m (rec_of N D)) (loc_of_shr_record (rec_of N D)) = rnd N D.
Proof.
  intros HD. unfold rec_of, rnd. simpl.
  destruct (Z.leb_spec D (2 * (N mod D))), (Z.ltb_spec D (2 * (N mod D))),
    (Z.eqb_spec (N mod D) 0), (Z.eqb_spec (2 * (N mod D)) D);
    simpl; try lia; rewrite <- ?Z.negb_odd; try destruct (Z.odd (N / D)); simpl; lia.
Qed.

Lemma rec_of_scale (N D c : Z) :
  0 < D -> 0 < c -> rec_of (N * c) (D * c) = rec_of N D.
Proof.
  intros HD Hc. unfold rec_of.
  rewrite Z.div_mul_cancel_r, Z.mul_mod_distr_r by lia.
  f_equal.
  - destruct (Z.leb_spec (D * c) (2 * (N mod D * c))), (Z.leb_spec D (2 * (N mod D)));
      try reflexivity; nia.
  - destruct (Z.eqb_spec (N mod D * c) 0), (Z.eqb_spec (N mod D) 0),
      (Z.eqb_spec (2 * (N mod D * c)) (D * c)), (Z.eqb_spec (2 * (N mod D)) D);
      simpl; try reflexivity; nia.
Qed.

Lemma rnd_bounds (N D : Z) : N / D <= rnd N D <= N / D + 1.
Proof. unfold rnd. destruct (_ || _); lia. Qed.

Lemma rnd_le (N1 N2 D : Z) :
  0 < D -> N1 <= N2 -> rnd N1 D <= rnd N2 D.
Proof.
  intros HD Hle.
  pose proof (Z.div_le_mono N1 N2 D HD Hle) as Hq.
  destruct (Z.eq_dec (N1 / D) (N2 / D)) as [Heq|Hne].
  - pose proof (Z.div_mod N1 D ltac:(lia)). pose proof (Z.div_mod N2 D ltac:(lia)).
    assert (Hr : N1 mod D <= N2 mod D) by nia.
    unfold rnd. rewrite Heq.
    destruct (Z.ltb_spec D (2 * (N1 mod D))), (Z.ltb_spec D (2 * (N2 mod D))),
      (Z.eqb_spec (2 * (N1 mod D)) D), (Z.eqb_spec (2 * (N2 mod D)) D);
      simpl; try destruct (Z.odd (N2 / D)); simpl; lia.
  - pose proof (rnd_bounds N1 D). pose proof (rnd_bounds N2 D). lia.
Qed.

Lemma target_lower (N D E : Z) : -1074 <= target N D E.
Proof. unfold target. rewrite fexp_equation. lia. Qed.

Lemma truncated_lt (N D E : Z) :
  0 <= N -> 0 < D -> E <= target N D E ->
  0 <= N / (D * 2 ^ (target N D E - E)) < 2 ^ 53.
Proof.
  intros HN HD Ht.
  set (n := target N D E - E) in *.
  assert (Hn : 0 <= n) by lia.
  assert (Hp : 0 < 2 ^ n) by (apply Z.pow_pos_nonneg; lia).
  rewrite <- Z.div_div by lia.
  assert (Hq : 0 <= N / D) by (apply Z.div_pos; lia).
  split; [apply Z.div_pos; lia|].
  apply Z.div_lt_upper_bound; [lia|].
  destruct (Z.eq_dec (N / D) 0) as [->|Hne].
  { assert (0 < 2 ^ 53) by reflexivity. nia. }
  pose proof (Zdigits2_bounds (N / D) ltac:(lia)) as [_ Hhi].
  assert (Hd : Zdigits2 (N / D) <= n + 53).
  { unfold n, target. rewrite fexp_equation. lia. }
  rewrite <- Z.pow_add_r by lia.
  assert (2 ^ Zdigits2 (N / D) <= 2 ^ (n + 53)) by (apply Z.pow_le_mono_r; lia).
  lia.
Qed.

Lemma second_shift (m t : Z) :
  0 <= m <= 2 ^ 53 -> -1074 <= t ->
  (let '(mrs, e) := shr_fexp prec emax m t loc_Exact in
   match shr_m mrs with
   | Z0 => S754_zero false
   | Z.pos p => if e <=? emax - prec then S754_finite false p e else S754_infinity false
   | Z.neg _ => S754_nan
   end) = finish m t.
Proof.
  intros [Hlo Hhi] Ht. unfold shr_fexp, finish. rewrite fexp_equation.
  destruct (Z.ltb_spec m (2 ^ 53)) as [Hlt|Hge].
  - assert (Hd : Zdigits2 m <= 53) by (apply Zdigits2_lt_pow; lia).
    rewrite shr_nonpos by lia.
    destruct m; reflexivity.
  - assert (Hm : m = 2 ^ 53) by lia. subst m.
    assert (Hdigits : Zdigits2 (2 ^ 53) = 54) by reflexivity.
    rewrite Hdigits.
    replace (Z.max (54 + t - 53) (-1074) - t) with 1 by lia.
    rewrite rec_of_exact, shr_rec_of by lia.
    reflexivity.
Qed.

Lemma round_quotient_finish (N D E : Z) :
  0 <= N -> 0 < D -> E <= target N D E ->
  round_quotient N D E
  = finish (rnd N (D * 2 ^ (target N D E - E))) (target N D E).
Proof.
  intros HN HD Ht.
  unfold round_quotient, binary_round_aux.
  unfold shr_fexp at 1. fold (target N D E).
  rewrite shr_record_of_new_location by lia.
  rewrite shr_rec_of by lia.
  assert (Hp : 0 < 2 ^ (target N D E - E)) by (apply Z.pow_pos_nonneg; lia).
  rewrite round_rec_of by nia.
  replace (E + (target N D E - E)) with (target N D E) by lia.
  apply second_shift; [|apply target_lower].
  pose proof (truncated_lt N D E HN HD Ht).
  pose proof (rnd_bounds N (D * 2 ^ (target N D E - E))). lia.
Qed.

Lemma rnd_scale (N D c : Z) : 0 < D -> 0 < c -> rnd (N * c) (D * c) = rnd N D.
Proof.
  intros HD Hc.
  rewrite <- (round_rec_of (N * c) (D * c)), <- (round_rec_of N D) by nia.
  now rewrite rec_of_scale.
Qed.

(** Writing the same quotient with a smaller exponent does not change
    the exponent it is rounded at, nor its rounding. *)
Lemma target_scale (N D E delta : Z) :
  0 <= N -> 0 < D -> 0 <= delta -> E <= target N D E ->
  target (N * 2 ^ delta) D (E - delta) = target N D E.
Proof.
  intros HN HD Hdelta Ht. unfold target in *.
  assert (Hq : 0 <= N / D) by (apply Z.div_pos; lia).
  destruct (Z.eq_dec (N / D) 0) as [Hz|Hnz].
  - rewrite Hz in *. simpl Zdigits2 in *. rewrite !fexp_equation.
    rewrite fexp_equation in Ht.
    assert (Hp : 0 < 2 ^ delta) by (apply Z.pow_pos_nonneg; lia).
    assert (HND : N < D).
    { pose proof (Z.div_mod N D ltac:(lia)). pose proof (Z.mod_pos_bound N D HD). nia. }
    assert (Hd : Zdigits2 (N * 2 ^ delta / D) <= delta).
    { apply Zdigits2_lt_pow; [lia|]. split; [apply Z.div_pos; nia|].
      apply Z.div_lt_upper_bound; [lia|]. nia. }
    lia.
  - rewrite Zdigits2_div_scale by lia. f_equal. lia.
Qed.

Lemma round_quotient_scale (N D E delta : Z) :
  0 <= N -> 0 < D -> 0 <= delta -> E <= target N D E ->
  round_quotient (N * 2 ^ delta) D (E - delta) = round_quotient N D E.
Proof.
  intros HN HD Hdelta Ht.
  assert (Hp : 0 < 2 ^ delta) by (apply Z.pow_pos_nonneg; lia).
  pose proof (target_scale N D E delta HN HD Hdelta Ht) as Hts.
  rewrite !round_quotient_finish by (rewrite ?Hts; nia).
  rewrite Hts. f_equal.
  replace (target N D E - (E - delta)) with (target N D E - E + delta) by lia.
  rewrite Z.pow_add_r, Z.mul_assoc by lia.
  apply rnd_scale; [|lia].
  assert (0 < 2 ^ (target N D E - E)) by (apply Z.pow_pos_nonneg; lia). nia.
Qed.

(** Order of the rounded values. *)
Lemma overflow_to_le (m1 e1 m2 e2 : Z) :
  0 <= m1 -> 0 < m2 ->
  m1 = 0 \/ e1 < e2 \/ (e1 = e2 /\ m1 <= m2) ->
  SFleb (overflow_to m1 e1) (overflow_to m2 e2) = true.
Proof.
  intros H1 H2 Hle.
  destruct m2 as [|p2|p2]; try lia.
  destruct m1 as [|p1|p1]; try lia; unfold overflow_to.
  - destruct (e2 <=? 971); reflexivity.
  - destruct Hle as [Hle|Hle]; [discriminate|].
    destruct (Z.leb_spec e1 971), (Z.leb_spec e2 971); try reflexivity; [|lia].
    unfold SFleb. simpl.
    destruct (Z.compare_spec e1 e2); try reflexivity; [|lia].
    rewrite Pos.compare_cont_spec. simpl.
    destruct (Pos.compare_spec p1 p2); try reflexivity. lia.
Qed.

Lemma finish_le_same (m1 m2 t : Z) :
  0 <= m1 <= m2 -> m2 <= 2 ^ 53 ->
  SFleb (finish m1 t) (finish m2 t) = true.
Proof.
  intros [H0 Hle] Hhi. unfold finish.
  assert (Hc : 2 ^ 52 < 2 ^ 53) by reflexivity.
  destruct (Z.eq_dec m2 0) as [->|Hnz].
  { assert (m1 = 0) by lia. subst m1. reflexivity. }
  destruct (Z.ltb_spec m1 (2 ^ 53)), (Z.ltb_spec m2 (2 ^ 53));
    apply overflow_to_le; lia.
Qed.

Lemma finish_le_lt (m1 t1 m2 t2 : Z) :
  0 <= m1 <= 2 ^ 53 -> 2 ^ 52 <= m2 <= 2 ^ 53 -> t1 < t2 ->
  SFleb (finish m1 t1) (finish m2 t2) = true.
Proof.
  intros H1 H2 Ht. unfold finish.
  assert (Hc : 0 < 2 ^ 52 < 2 ^ 53) by (split; reflexivity).
  destruct (Z.ltb_spec m1 (2 ^ 53)), (Z.ltb_spec m2 (2 ^ 53));
    apply overflow_to_le; lia.
Qed.

Lemma target_le (N1 N2 D E : Z) :
  0 <= N1 <= N2 -> 0 < D -> target N1 D E <= target N2 D E.
Proof.
  intros [H0 Hle] HD. unfold target. rewrite !fexp_equation.
  assert (Zdigits2 (N1 / D) <= Zdigits2 (N2 / D)).
  { apply Zdigits2_le. split; [apply Z.div_pos; lia|now apply Z.div_le_mono]. }
  lia.
Qed.

(** Above the smallest exponent the truncated mantissa has 53 digits. *)
Lemma truncated_normal (N D E : Z) :
  0 <= N -> 0 < D -> E <= target N D E -> -1074 < target N D E ->
  2 ^ 52 <= N / (D * 2 ^ (target N D E - E)).
Proof.
  intros HN HD Ht Hnormal.
  assert (Hd : Zdigits2 (N / D) = target N D E - E + 53).
  { unfold target in *. rewrite fexp_equation in *. lia. }
  assert (Hq : 0 < N / D).
  { assert (0 <= N / D) by (apply Z.div_pos; lia).
    destruct (Z.eq_dec (N / D) 0) as [Hz|]; [|lia].
    rewrite Hz in Hd. simpl in Hd. lia. }
  pose proof (Zdigits2_bounds (N / D) Hq) as [Hlo _].
  rewrite Hd in Hlo.
  replace (target N D E - E + 53 - 1) with (52 + (target N D E - E)) in Hlo by lia.
  rewrite Z.pow_add_r in Hlo by lia.
  assert (0 < 2 ^ (target N D E - E)) by (apply Z.pow_pos_nonneg; lia).
  rewrite <- Z.div_div by lia.
  apply Z.div_le_lower_bound; lia.
Qed.

Lemma round_quotient_le (N1 N2 D E : Z) :
  0 <= N1 <= N2 -> 0 < D -> E <= target N1 D E ->
  SFleb (round_quotient N1 D E) (round_quotient N2 D E) = true.
Proof.
  intros [H0 Hle] HD Ht1.
  pose proof (target_le N1 N2 D E (conj H0 Hle) HD) as Ht.
  assert (HN2 : 0 <= N2) by lia.
  assert (Ht2 : E <= target N2 D E) by lia.
  rewrite !round_quotient_finish by assumption.
  pose proof (truncated_lt N1 D E H0 HD Ht1) as Hk1.
  pose proof (truncated_lt N2 D E HN2 HD Ht2) as Hk2.
  pose proof (rnd_bounds N1 (D * 2 ^ (target N1 D E - E))) as Hr1.
  pose proof (rnd_bounds N2 (D * 2 ^ (target N2 D E - E))) as Hr2.
  destruct (Z.eq_dec (target N1 D E) (target N2 D E)) as [Heq|Hne].
  - rewrite <- Heq in *. apply finish_le_same; [|lia].
    split; [lia|]. apply rnd_le; [|exact Hle].
    assert (0 < 2 ^ (target N1 D E - E)) by (apply Z.pow_pos_nonneg; lia). nia.
  - pose proof (target_lower N1 D E).
    pose proof (truncated_normal N2 D E HN2 HD Ht2 ltac:(lia)).
    apply finish_le_lt; lia.
Qed.

Lemma div_exponent_le (m1 : positive) (e1 : Z) (m2 : positive) (e2 : Z) :
  div_exponent m1 e1 m2 e2 <= e1 - e2.
Proof. unfold div_exponent. lia. Qed.

Lemma SFdiv_finite (m1 : positive) (e1 : Z) (m2 : positive) (e2 : Z) :
  SFdiv prec emax (S754_finite false m1 e1) (S754_finite false m2 e2)
  = round_quotient (div_numerator m1 e1 m2 e2) (Z.pos m2) (div_exponent m1 e1 m2 e2).
Proof.
  unfold SFdiv, SFdiv_core_binary, round_quotient, div_numerator.
  fold (div_exponent m1 e1 m2 e2).
  pose proof (div_exponent_le m1 e1 m2 e2) as Hle.
  set (s := e1 - e2 - div_exponent m1 e1 m2 e2) in *.
  assert (Hm : match s with
               | Z0 => Z.pos m1
               | Z.pos _ => Z.shiftl (Z.pos m1) s
               | Z.neg _ => 0
               end = Z.pos m1 * 2 ^ s).
  { destruct s as [|p|p] eqn:Hs; [now rewrite Z.mul_1_r| |lia].
    apply Z.shiftl_mul_pow2. lia. }
  rewrite Hm. unfold Z.div, Z.modulo.
  destruct (Z.div_eucl (Z.pos m1 * 2 ^ s) (Z.pos m2)). reflexivity.
Qed.

Lemma div_numerator_pos (m1 : positive) (e1 : Z) (m2 : positive) (e2 : Z) :
  0 < div_numerator m1 e1 m2 e2.
Proof.
  unfold div_numerator. pose proof (div_exponent_le m1 e1 m2 e2).
  assert (0 < 2 ^ (e1 - e2 - div_exponent m1 e1 m2 e2)) by (apply Z.pow_pos_nonneg; lia).
  lia.
Qed.

(** The quotient is computed at an exponent that is fine enough. *)
Lemma div_exponent_target (m1 : positive) (e1 : Z) (m2 : positive) (e2 : Z) :
  div_exponent m1 e1 m2 e2
  <= target (div_numerator m1 e1 m2 e2) (Z.pos m2) (div_exponent m1 e1 m2 e2).
Proof.
  pose proof (div_exponent_le m1 e1 m2 e2) as Hle.
  pose proof (div_numerator_pos m1 e1 m2 e2) as HN.
  assert (He : div_exponent m1 e1 m2 e2
               <= fexp prec emax (Zdigits2 (Z.pos m1) + e1 - (Zdigits2 (Z.pos m2) + e2)))
    by (unfold div_exponent; lia).
  unfold target, div_numerator in *.
  set (E := div_exponent m1 e1 m2 e2) in *.
  set (s := e1 - e2 - E) in *.
  set (d1 := Zdigits2 (Z.pos m1)) in *. set (d2 := Zdigits2 (Z.pos m2)) in *.
  pose proof (Zdigits2_bounds (Z.pos m1) ltac:(lia)) as [Hlo1 Hhi1].
  pose proof (Zdigits2_bounds (Z.pos m2) ltac:(lia)) as [Hlo2 Hhi2].
  fold d1 in Hlo1, Hhi1. fold d2 in Hlo2, Hhi2.
  assert (Hd1 : 0 < d1) by (unfold d1; simpl; lia).
  assert (Hd2 : 0 < d2) by (unfold d2; simpl; lia).
  assert (Hs : 0 <= s) by lia.
  assert (Hps : 0 < 2 ^ s) by (apply Z.pow_pos_nonneg; lia).
  rewrite fexp_equation in *.
  set (q := Z.pos m1 * 2 ^ s / Z.pos m2) in *.
  assert (Hq : 0 <= q) by (apply Z.div_pos; lia).
  assert (Hbig : 2 ^ (s + d1 - 1) <= Z.pos m1 * 2 ^ s).
  { replace (s + d1 - 1) with ((d1 - 1) + s) by lia.
    rewrite Z.pow_add_r by lia. nia. }
  destruct (Z.eq_dec q 0) as [Hz|Hnz].
  - rewrite Hz. simpl Zdigits2.
    assert (Hlt : Z.pos m1 * 2 ^ s < Z.pos m2).
    { pose proof (Z.div_mod (Z.pos m1 * 2 ^ s) (Z.pos m2) ltac:(lia)).
      pose proof (Z.mod_pos_bound (Z.pos m1 * 2 ^ s) (Z.pos m2) ltac:(lia)).
      fold q in H. rewrite Hz in H. lia. }
    assert (s + d1 - 1 < d2).
    { destruct (Z.lt_ge_cases (s + d1 - 1) d2) as [|Hge]; [assumption|].
      assert (2 ^ d2 <= 2 ^ (s + d1 - 1)) by (apply Z.pow_le_mono_r; lia). lia. }
    lia.
  - assert (Hdq : s + d1 - d2 <= Zdigits2 q).
    { pose proof (Zdigits2_bounds q ltac:(lia)).
      pose proof (Zdigits2_nonneg q).
      destruct (Z.le_gt_cases (s + d1 - d2 - 1) 0) as [Hsmall|Hlarge].
      - assert (Zdigits2 q <> 0) by (intros Hz; rewrite Hz in *; simpl in *; lia).
        lia.
      - assert (2 ^ (s + d1 - d2 - 1) <= q).
        { apply Z.div_le_lower_bound; [lia|].
          assert (2 ^ (s + d1 - 1) = 2 ^ (s + d1 - d2 - 1) * 2 ^ d2).
          { rewrite <- Z.pow_add_r by lia. f_equal. lia. }
          assert (0 < 2 ^ (s + d1 - d2 - 1)) by (apply Z.pow_pos_nonneg; lia).
          nia. }
        pose proof (Zdigits2_ge_pow q (s + d1 - d2 - 1) ltac:(lia) ltac:(lia)). lia. }
    lia.
Qed.

(** A canonical mantissa has at most 53 digits, and exactly 53 above the
    smallest exponent. *)
Lemma bounded_digits (m : positive) (e : Z) :
  bounded prec emax m e = true ->
  -1074 <= e /\ Z.pos m < 2 ^ 53 /\ (-1074 < e -> 2 ^ 52 <= Z.pos m).
Proof.
  unfold bounded, canonical_mantissa. intros [Hc _]%andb_prop.
  apply Z.eqb_eq in Hc. rewrite fexp_equation in Hc.
  pose proof (digits2_pos_bounds m) as [Hlo Hhi].
  split; [lia|]. split.
  - assert (2 ^ Z.pos (digits2_pos m) <= 2 ^ 53) by (apply Z.pow_le_mono_r; lia). lia.
  - intros He. assert (Hd : Z.pos (digits2_pos m) = 53) by lia.
    rewrite Hd in Hlo. exact Hlo.
Qed.

(** Division of positive binary64 numbers by a positive one is monotone. *)
Lemma SFdiv_le (m1 : positive) (e1 : Z) (m2 : positive) (e2 : Z)
    (mw : positive) (ew : Z) :
  bounded prec emax m1 e1 = true ->
  bounded prec emax m2 e2 = true ->
  SFleb (S754_finite false m1 e1) (S754_finite false m2 e2) = true ->
  SFleb (SFdiv prec emax (S754_finite false m1 e1) (S754_finite false mw ew))
        (SFdiv prec emax (S754_finite false m2 e2) (S754_finite false mw ew)) = true.
Proof.
  intros Hb1 Hb2 Hle.
  apply bounded_digits in Hb1 as (He1 & Hm1 & _).
  apply bounded_digits in Hb2 as (He2 & Hm2 & Hn2).
  assert (Hord : e1 < e2 \/ (e1 = e2 /\ Z.pos m1 <= Z.pos m2)).
  { unfold SFleb in Hle. simpl in Hle.
    destruct (Z.compare_spec e1 e2); [right|left; assumption|discriminate].
    split; [assumption|]. rewrite Pos.compare_cont_spec in Hle. simpl in Hle.
    destruct (Pos.compare_spec m1 m2); try discriminate; lia. }
  rewrite !SFdiv_finite.
  pose proof (div_exponent_target m1 e1 mw ew) as Ht1.
  pose proof (div_exponent_target m2 e2 mw ew) as Ht2.
  pose proof (div_numerator_pos m1 e1 mw ew) as HN1.
  pose proof (div_numerator_pos m2 e2 mw ew) as HN2.
  pose proof (div_exponent_le m1 e1 mw ew) as Hs1.
  pose proof (div_exponent_le m2 e2 mw ew) as Hs2.
  assert (Hd : Zdigits2 (Z.pos m1) + e1 <= Zdigits2 (Z.pos m2) + e2).
  { destruct Hord as [Hlt|[-> Hm]].
    - assert (Zdigits2 (Z.pos m1) <= 53) by (apply Zdigits2_lt_pow; lia).
      assert (52 < Zdigits2 (Z.pos m2)) by (apply Zdigits2_ge_pow; lia). lia.
    - assert (Zdigits2 (Z.pos m1) <= Zdigits2 (Z.pos m2)) by (apply Zdigits2_le; lia).
      lia. }
  assert (HE : div_exponent m1 e1 mw ew <= div_exponent m2 e2 mw ew).
  { unfold div_exponent. rewrite !fexp_equation. lia. }
  set (E1 := div_exponent m1 e1 mw ew) in *.
  set (E2 := div_exponent m2 e2 mw ew) in *.
  rewrite <- (round_quotient_scale (div_numerator m2 e2 mw ew) (Z.pos mw) E2 (E2 - E1))
    by lia.
  replace (E2 - (E2 - E1)) with E1 by lia.
  apply round_quotient_le; [|lia|exact Ht1].
  split; [lia|].
  unfold div_numerator. fold E1 E2.
  rewrite <- Z.mul_assoc, <- Z.pow_add_r by lia.
  replace (e2 - ew - E2 + (E2 - E1)) with ((e1 - ew - E1) + (e2 - e1)) by lia.
  rewrite Z.pow_add_r by lia.
  assert (0 < 2 ^ (e1 - ew - E1)) by (apply Z.pow_pos_nonneg; lia).
  assert (Z.pos m1 <= Z.pos m2 * 2 ^ (e2 - e1)).
  { destruct Hord as [Hlt|[-> Hm]].
    - assert (2 ^ 1 <= 2 ^ (e2 - e1)) by (apply Z.pow_le_mono_r; lia).
      specialize (Hn2 ltac:(lia)).
      assert (2 ^ 53 = 2 ^ 52 * 2 ^ 1) by reflexivity. nia.
    - rewrite Z.sub_diag. simpl. lia. }
  nia.
Qed.

(** Above a positive finite value there are only positive finite values
    and the positive infinity. *)
Lemma SFleb_finite_l (mt : positive) (et : Z) (y : spec_float) :
  SFleb (S754_finite false mt et) y = true ->
  y = S754_infinity false \/ exists m e, y = S754_finite false m e.
Proof.
  unfold SFleb. destruct y as [s|s| |s m e]; simpl; try discriminate.
  - destruct s; [discriminate|auto].
  - destruct s; [discriminate|eauto].
Qed.

Lemma SFleb_trans_pos (mt : positive) (et : Z) (y z : spec_float) :
  SFleb (S754_finite false mt et) y = true ->
  SFleb y z = true ->
  SFleb (S754_finite false mt et) z = true.
Proof.
  intros Hty Hyz.
  destruct (SFleb_finite_l _ _ _ Hty) as [->|(m & e & ->)].
  - unfold SFleb in *.
    destruct z as [s|s| |s mz ez]; simpl in *; try discriminate;
      destruct s; try discriminate; reflexivity.
  - destruct (SFleb_finite_l _ _ _ Hyz) as [->|(mz & ez & ->)]; [reflexivity|].
    unfold SFleb in *. simpl in *.
    destruct (Z.compare_spec et e), (Z.compare_spec e ez), (Z.compare_spec et ez);
      try discriminate; try reflexivity; try lia.
    subst. rewrite Pos.compare_cont_spec in *. simpl in *.
    destruct (Pos.compare_spec mt m), (Pos.compare_spec m mz), (Pos.compare_spec mt mz);
      try discriminate; try reflexivity; lia.
Qed.

(** [binary_round_aux] keeps the sign it is given. *)
Lemma binary_round_aux_negative (m e : Z) (l : location) (mt : positive) (et : Z) :
  SFleb (S754_finite false mt et) (binary_round_aux prec emax true m e l) = false.
Proof.
  unfold binary_round_aux.
  destruct (shr_fexp prec emax m e l) as [mrs e'].
  destruct (shr_fexp prec emax _ e' loc_Exact) as [mrs' e''].
  destruct (shr_m mrs'); [reflexivity| |reflexivity].
  destruct (e'' <=? emax - prec); reflexivity.
Qed.

(** Dividing by a positive number keeps a ratio at or above a positive
    threshold when the dividend grows. *)
Lemma SFdiv_threshold (t x1 x2 w : spec_float) (mt : positive) (et : Z) :
  t = S754_finite false mt et ->
  valid_binary x1 = true -> valid_binary x2 = true ->
  SFltb (S754_zero false) w = true ->
  SFleb x1 x2 = true ->
  SFleb t (SFdiv prec emax x1 w) = true ->
  SFleb t (SFdiv prec emax x2 w) = true.
Proof.
  intros -> Hv1 Hv2 Hw H12 Ht.
  destruct w as [sw|sw| |sw mw ew]; try discriminate.
  - (* the divisor is infinite *)
    destruct x1 as [s1|s1| |s1 m1 e1]; discriminate.
  - destruct sw; [discriminate|].
    destruct x1 as [s1|s1| |s1 m1 e1]; try discriminate.
    + (* the dividend is infinite *)
      destruct s1; [discriminate|].
      destruct x2 as [s2|s2| |s2 m2 e2]; try discriminate.
      destruct s2; [discriminate|reflexivity].
    + destruct s1.
      { simpl in Ht. destruct (SFdiv_core_binary _ _ _ _ _ _) as [[mz ez] lz].
        now rewrite binary_round_aux_negative in Ht. }
      destruct (SFleb_finite_l _ _ _ H12) as [->|(m2 & e2 & ->)]; [reflexivity|].
      eapply SFleb_trans_pos; [exact Ht|].
      now apply SFdiv_le.
Qed.

Lemma Prim2SF_zero : Prim2SF 0 = S754_zero false.
Proof. reflexivity. Qed.

Lemma div_threshold (t c1 c2 w : float) (mt : positive) (et : Z) :
  Prim2SF t = S754_finite false mt et ->
  (0 <? w)%float = true ->
  (c1 <=? c2)%float = true ->
  (t <=? c1 / w)%float = true ->
  (t <=? c2 / w)%float = true.
Proof.
  rewrite FloatAxioms.ltb_spec, !FloatAxioms.leb_spec, !FloatAxioms.div_spec, Prim2SF_zero.
  intros Ht Hw H12. apply (SFdiv_threshold _ _ _ _ mt et Ht); auto using Prim2SF_valid.
Qed.

Lemma positive_not_zero (w : float) : (0 <? w)%float = true -> (w =? 0)%float = false.
Proof.
  rewrite FloatAxioms.ltb_spec, FloatAxioms.eqb_spec, Prim2SF_zero. unfold SFltb, SFeqb.
  destruct (Prim2SF w) as [s|s| |s m e]; simpl; try discriminate;
    destruct s; try discriminate; reflexivity.
Qed.

(** ** Monotonicity of the fit classifier *)

Lemma FIT_slim_min_ratio_finite :
  Prim2SF FIT_slim_min_ratio = S754_finite false 6305039478318694 (-52).
Proof. vm_compute. reflexivity. Qed.

Lemma FIT_regular_min_ratio_finite :
  Prim2SF FIT_regular_min_ratio = S754_finite false 5179139571476070 (-52).
Proof. vm_compute. reflexivity. Qed.

Lemma recommend_fit_insert_chest (measurements : gmap string float) (chest : float) :
  (0 <? dict_get measurements "waist")%float = true ->
  recommend_fit (<["chest" := chest]> measurements)
  = if (FIT_slim_min_ratio <=? chest / dict_get measurements "waist")%float then "slim"
    else if (FIT_regular_min_ratio <=? chest / dict_get measurements "waist")%float
         then "regular"
         else "oversize".
Proof.
  intros Hwaist. unfold recommend_fit, dict_get.
  rewrite lookup_insert_eq, lookup_insert_ne by discriminate. simpl.
  fold (dict_get measurements "waist").
  now rewrite (positive_not_zero _ Hwaist).
Qed.

(** C7: with the waist fixed and positive, a larger chest value never gives
    a lower fit tier (oversize < regular < slim); and a chest/waist ratio at
    or above the slim minimum gives 'slim'. *)
Theorem recommend_fit_monotone
    (measurements : gmap string float) (chest1 chest2 : float) :
  (0 <? dict_get measurements "waist")%float = true ->
  (chest1 <=? chest2)%float = true ->
  fit_tier (recommend_fit (<["chest" := chest1]> measurements))
  <= fit_tier (recommend_fit (<["chest" := chest2]> measurements))
  /\ (forall chest : float,
        (FIT_slim_min_ratio <=? chest / dict_get measurements "waist")%float = true ->
        recommend_fit (<["chest" := chest]> measurements) = "slim").
Proof.
  intros Hwaist Hchest.
  split.
  - rewrite !recommend_fit_insert_chest by exact Hwaist.
    set (waist := dict_get measurements "waist") in *.
    destruct (FIT_slim_min_ratio <=? chest1 / waist)%float eqn:Hslim.
    { rewrite (div_threshold _ chest1 chest2 waist _ _ FIT_slim_min_ratio_finite
                 Hwaist Hchest Hslim). reflexivity. }
    destruct (FIT_regular_min_ratio <=? chest1 / waist)%float eqn:Hregular.
    { rewrite (div_threshold _ chest1 chest2 waist _ _ FIT_regular_min_ratio_finite
                 Hwaist Hchest Hregular).
      destruct (FIT_slim_min_ratio <=? chest2 / waist)%float;
        vm_compute; discriminate. }
    destruct (FIT_slim_min_ratio <=? chest2 / waist)%float;
      [|destruct (FIT_regular_min_ratio <=? chest2 / waist)%float];
      vm_compute; discriminate.
  - intros chest Hslim.
    rewrite recommend_fit_insert_chest by exact Hwaist. now rewrite Hslim.
Qed.

Lemma recommend_fit_monotone_witness :
  let measurements : gmap string float := {["waist" := 40%float]} in
  (0 <? dict_get measurements "waist")%float = true
  /\ (44 <=? 60)%float = true
  /\ fit_tier (recommend_fit (<["chest" := 44%float]> measurements))
     <= fit_tier (recommend_fit (<["chest" := 60%float]> measurements)).
Proof.
  intros measurements.
  assert (Hwaist : (0 <? dict_get measurements "waist")%float = true) by reflexivity.
  assert (Hchest : (44 <=? 60)%float = true) by reflexivity.
  split; [exact Hwaist|]. split; [exact Hchest|].
  exact (proj1 (recommend_fit_monotone measurements 44 60 Hwaist Hchest)).
Defined.

(** ** The engine on the small store *)

(** The shirt matches the fit, has the recommended size in stock and a
    recommended color in stock: 15 + 10 + 10 + 5.  The blazer has no stock and
    is in no pass. *)
Example boutique_passes :
  let pass gender :=
    map (fun e => (product_name (fst e), snd e))
      (recommend_products boutique_db navy_and_white (build_measurements triangle_scan)
         (scan_skin_tone triangle_scan) gender 10) in
  pass "men" = [("Oxford shirt", 40); ("Parka", 15); ("Chino", 5)]
  /\ pass "women" = [("Parka", 15)]
  /\ pass "unisex" = [("Parka", 15)].
Proof. repeat split; vm_compute; reflexivity. Qed.

Example boutique_recommendations :
  option_map
    (map (fun r => (product_name (rec_product r), rec_recommended_size r,
                    rec_recommended_fit r, rec_recommended_colors r, rec_priority r)))
    (generate_recommendations_for_scan boutique_db navy_and_white triangle_scan)
  = Some [("Oxford shirt", "S", "regular", "navy, white", 40);
          ("Parka", "M", "regular", "navy, white", 15);
          ("Chino", "L", "regular", "navy, white", 5)].
Proof. vm_compute. reflexivity. Qed.

(** The chino is matched by size only, the parka has no variant of the
    adjusted size, and the shirt (adjusted from M to S) has none either. *)
Example boutique_matches :
  option_map
    (map (fun m => (product_name (mr_product m), mr_recommended_size m,
                    mr_recommended_color m, is_perfect_match m,
                    fit_matches_recommendation m, fit_message m)))
    (get_matching_product_variants boutique_db navy_and_white triangle_scan None None 6)
  = Some [("Chino", "L", "red", false, false,
           "This pants in size L will fit you great!")].
Proof. vm_compute. reflexivity. Qed.

(** With a waist of 44 and no body shape the shirt is a perfect match (its
    navy variant, the red one standing before it in the store) and ranks
    before the chino, which is matched by size only. *)
Example boutique_matches_ranked :
  option_map
    (map (fun m => (product_name (mr_product m), mr_recommended_size m,
                    mr_recommended_color m, is_perfect_match m,
                    fit_matches_recommendation m)))
    (get_matching_product_variants boutique_db navy_and_white plain_waist_scan
       (Some "men") None 6)
  = Some [("Oxford shirt", "M", "navy", true, false);
          ("Chino", "L", "red", false, false)].
Proof. vm_compute. reflexivity. Qed.

(** The classifier at its thresholds: 7 / 5 is the float 1.4 itself. *)
Example recommend_fit_samples :
  let fit (chest waist : float) : string :=
    recommend_fit (list_to_map [("chest", chest); ("waist", waist)]) in
  fit 50%float 0%float = "regular"
  /\ fit 7%float 5%float = "slim"
  /\ fit 23%float 20%float = "regular"
  /\ fit 22%float 20%float = "oversize"
  /\ recommend_fit ∅ = "regular".
Proof. repeat split; vm_compute; reflexivity. Qed.

(** ** The theorems at the small store *)

Lemma recommend_fit_bands_witness :
  let measurements : gmap string float :=
    list_to_map [("chest", 23%float); ("waist", 20%float)] in
  (dict_get measurements "waist" =? 0)%float = false
  /\ (FIT_regular_min_ratio <=? 23 / 20)%float = true
  /\ (23 / 20 <? FIT_slim_min_ratio)%float = true
  /\ recommend_fit measurements = "regular".
Proof.
  intros measurements.
  assert (Hwaist : (dict_get measurements "waist" =? 0)%float = false) by reflexivity.
  assert (Hregular : (FIT_regular_min_ratio <=? 23 / 20)%float = true) by reflexivity.
  assert (Hbelow : (23 / 20 <? FIT_slim_min_ratio)%float = true) by reflexivity.
  repeat (split; [assumption|]).
  destruct (recommend_fit_bands measurements) as [_ Hbands].
  destruct (Hbands Hwaist) as (_ & Hband & _).
  exact (Hband Hregular Hbelow).
Defined.

Lemma recommend_products_scores_witness :
  let measurements := build_measurements triangle_scan in
  In oxford_shirt (gender_products boutique_db "men")
  /\ available_variants boutique_db oxford_shirt <> []
  /\ In (oxford_shirt, 40)
       (score_products boutique_db (recommend_size boutique_db measurements)
          (recommend_fit measurements)
          (recommended_color_rows boutique_db navy_and_white "light")
          (gender_products boutique_db "men")).
Proof.
  intros measurements.
  assert (Hin : In oxford_shirt (gender_products boutique_db "men"))
    by (vm_compute; tauto).
  assert (Hav : available_variants boutique_db oxford_shirt <> [])
    by (vm_compute; discriminate).
  split; [exact Hin|]. split; [exact Hav|].
  pose proof (recommend_products_scores boutique_db navy_and_white measurements
                "light" "men" 10) as H.
  cbv zeta in H. destruct H as [Hscored _].
  specialize (Hscored oxford_shirt Hin Hav).
  replace 40 with
    (expected_score boutique_db (recommend_size boutique_db measurements)
       (recommend_fit measurements)
       (recommended_color_rows boutique_db navy_and_white "light") oxford_shirt)
    by (vm_compute; reflexivity).
  exact Hscored.
Defined.

Lemma match_product_tiers_witness :
  let measurements := build_measurements plain_waist_scan in
  existsb (tier1 oxford_shirt "M" ["navy"; "white"]) (variants boutique_db) = true
  /\ exists m,
       match_product boutique_db measurements "rectangle" ["navy"; "white"] "oversize"
         oxford_shirt = Some (Some m)
       /\ is_perfect_match m = true
       /\ emitted_for oxford_shirt "M" "oversize" m.
Proof.
  intros measurements.
  assert (Hex : existsb (tier1 oxford_shirt "M" ["navy"; "white"]) (variants boutique_db)
                = true) by (vm_compute; reflexivity).
  split; [exact Hex|].
  destruct (match_product_tiers boutique_db measurements "rectangle" ["navy"; "white"]
              "oversize" oxford_shirt) as (rec_size & Hsize & Hperfect & _).
  assert (Hm : rec_size = "M") by (vm_compute in Hsize; congruence).
  subst rec_size.
  destruct (Hperfect Hex) as (m & Hmatch & Hp & _ & _ & Hemitted).
  exists m. auto.
Defined.

Lemma get_matching_product_variants_ranked_witness :
  exists output x y,
    get_matching_product_variants boutique_db navy_and_white plain_waist_scan
      (Some "men") None 6 = Some output
    /\ output !! 0%nat = Some x
    /\ output !! 1%nat = Some y
    /\ product_name (mr_product x) = "Oxford shirt"
    /\ product_name (mr_product y) = "Chino"
    /\ ranks_before x y.
Proof.
  destruct (get_matching_product_variants_ranked boutique_db navy_and_white
              plain_waist_scan (Some "men") None 6)
    as (output & Hget & _ & _ & _ & _ & Hrank & _).
  exists output.
  assert (Hout : exists x y,
             output = [x; y]
             /\ product_name (mr_product x) = "Oxford shirt"
             /\ product_name (mr_product y) = "Chino").
  { vm_compute in Hget. injection Hget as <-. eexists _, _.
    split; [reflexivity|]. split; reflexivity. }
  destruct Hout as (x & y & -> & Hx & Hy).
  exists x, y. split; [exact Hget|]. repeat (split; [reflexivity || assumption|]).
  exact (proj1 (Hrank 0%nat 1%nat x y (Nat.lt_0_succ 0) eq_refl eq_refl)).
Defined.

Lemma orchestrator_deduplicates_and_ranks_witness :
  In (parka, 15) (product_recommendations boutique_db navy_and_white triangle_scan)
  /\ exists first,
       List.find (same_product parka)
         (product_recommendations boutique_db navy_and_white triangle_scan) = Some first
       /\ List.filter (same_product parka)
            (unique_recommendations boutique_db navy_and_white triangle_scan) = [first].
Proof.
  assert (Hin : In (parka, 15)
                  (product_recommendations boutique_db navy_and_white triangle_scan))
    by (vm_compute; tauto).
  split; [exact Hin|].
  pose proof (orchestrator_deduplicates_and_ranks boutique_db navy_and_white
                triangle_scan) as H.
  cbv zeta in H. destruct H as (_ & Honce & _).
  destruct (Honce (parka, 15) Hin) as (first & Hfind & _ & Hranked).
  exists first. split; assumption.
Defined.

Lemma unisex_products_join_every_pass_witness :
  In parka (products boutique_db)
  /\ product_gender parka = "unisex"
  /\ available_variants boutique_db parka <> []
  /\ In (parka, 15)
       (recommend_products boutique_db navy_and_white (build_measurements triangle_scan)
          (scan_skin_tone triangle_scan) "men" 10).
Proof.
  assert (Hin : In parka (products boutique_db)) by (vm_compute; tauto).
  assert (Hav : available_variants boutique_db parka <> [])
    by (vm_compute; discriminate).
  split; [exact Hin|]. split; [reflexivity|]. split; [exact Hav|].
  pose proof (unisex_products_join_every_pass boutique_db navy_and_white
                triangle_scan) as H.
  cbv zeta in H. destruct H as (_ & _ & _ & _ & Hmen).
  specialize (Hmen parka Hin eq_refl Hav).
  replace 15 with
    (expected_score boutique_db
       (recommend_size boutique_db (build_measurements triangle_scan))
       (recommend_fit (build_measurements triangle_scan))
       (recommended_color_rows boutique_db navy_and_white (scan_skin_tone triangle_scan))
       parka)
    by (vm_compute; reflexivity).
  apply Hmen. vm_compute. lia.
Defined.

(** * Further properties of the engine *)

(** ** More on the order of binary64 values *)

Lemma SFleb_trans (x y z : spec_float) :
  SFleb x y = true -> SFleb y z = true -> SFleb x z = true.
Proof.
  unfold SFleb.
  destruct x as [sx|sx| |sx mx ex], y as [sy|sy| |sy my ey], z as [sz|sz| |sz mz ez];
    simpl; try discriminate; try reflexivity;
    try (destruct sx; try discriminate; try reflexivity);
    try (destruct sy; try discriminate; try reflexivity);
    try (destruct sz; try discriminate; try reflexivity).
  all: destruct (Z.compare_spec ex ey), (Z.compare_spec ey ez), (Z.compare_spec ex ez);
    simpl; try discriminate; try reflexivity; try lia; subst.
  all: rewrite !Pos.compare_cont_spec; simpl;
    destruct (Pos.compare_spec mx my), (Pos.compare_spec my mz), (Pos.compare_spec mx mz);
    simpl; try discriminate; try reflexivity; lia.
Qed.

Lemma SFleb_total (x y : spec_float) :
  x <> S754_nan -> y <> S754_nan -> SFleb x y = true \/ SFleb y x = true.
Proof.
  intros Hx Hy. destruct (SFleb x y) eqn:Hxy; [now left|right].
  apply SFleb_false_SFltb in Hxy; [|assumption..].
  unfold SFltb in Hxy. unfold SFleb. destruct (SFcompare y x) as [[]|]; congruence.
Qed.

Lemma leb_trans (x y z : float) :
  (x <=? y)%float = true -> (y <=? z)%float = true -> (x <=? z)%float = true.
Proof. rewrite !FloatAxioms.leb_spec. apply SFleb_trans. Qed.

Lemma is_nan_false (x : float) : is_nan x = false -> Prim2SF x <> S754_nan.
Proof.
  unfold is_nan. rewrite negb_false_iff, FloatAxioms.eqb_spec. intros H Hnan.
  rewrite Hnan in H. discriminate.
Qed.

Lemma is_nan_true (x : float) : is_nan x = true -> Prim2SF x = S754_nan.
Proof.
  unfold is_nan. rewrite negb_true_iff, FloatAxioms.eqb_spec.
  destruct (Prim2SF x) as [s|s| |s m e]; try reflexivity;
    unfold SFeqb, SFcompare; try (destruct s; discriminate).
  destruct s; rewrite Z.compare_refl, Pos.compare_cont_refl; discriminate.
Qed.

Lemma leb_total (x y : float) :
  is_nan x = false -> is_nan y = false ->
  (x <=? y)%float = true \/ (y <=? x)%float = true.
Proof.
  intros Hx Hy. rewrite !FloatAxioms.leb_spec.
  apply SFleb_total; now apply is_nan_false.
Qed.

Lemma ltb_leb (x y : float) : (x <? y)%float = true -> (x <=? y)%float = true.
Proof.
  rewrite FloatAxioms.ltb_spec, FloatAxioms.leb_spec. unfold SFltb, SFleb.
  destruct (SFcompare _ _) as [[]|]; congruence.
Qed.

Lemma leb_nan_r (x y : float) : Prim2SF y = S754_nan -> (x <=? y)%float = false.
Proof.
  rewrite FloatAxioms.leb_spec. intros ->. destruct (Prim2SF x); reflexivity.
Qed.

Lemma div_nan (x y : float) :
  Prim2SF x = S754_nan \/ Prim2SF y = S754_nan -> Prim2SF (x / y) = S754_nan.
Proof.
  rewrite FloatAxioms.div_spec. intros [-> | ->]; [reflexivity|].
  destruct (Prim2SF x); reflexivity.
Qed.

Lemma zero_div_below_threshold (t w : float) (mt : positive) (et : Z) :
  Prim2SF t = S754_finite false mt et ->
  (0 <? w)%float = true ->
  (t <=? 0 / w)%float = false.
Proof.
  rewrite FloatAxioms.ltb_spec, FloatAxioms.leb_spec, FloatAxioms.div_spec, Prim2SF_zero.
  intros -> Hw.
  destruct (Prim2SF w) as [s|s| |s m e]; try discriminate;
    destruct s; try discriminate; reflexivity.
Qed.

(** ** More on lists and the stable sort *)

Section SortOn.
Context {A : Type} (le : A -> A -> bool) (P : A -> Prop).
Hypothesis le_total : forall a b, P a -> P b -> le a b = true \/ le b a = true.
Hypothesis le_trans :
  forall a b c, P a -> P b -> P c -> le a b = true -> le b c = true -> le a c = true.

Lemma sort_insert_sorted_on (x : A) (l : list A) :
  P x -> List.Forall P l ->
  StronglySorted (fun a b => le a b = true) l ->
  StronglySorted (fun a b => le a b = true) (sort_insert le x l).
Proof.
  intros Hx. induction l as [|y r IH]; intros HP Hs; simpl.
  - constructor; constructor.
  - inversion Hs as [|? ? Hr Hall]; subst.
    inversion HP as [|? ? Hy HPr]; subst.
    rewrite List.Forall_forall in Hall, HPr.
    destruct (le x y) eqn:Hxy.
    + constructor; [exact Hs|]. constructor; [exact Hxy|].
      apply List.Forall_forall. intros z Hz. eauto.
    + constructor; [apply IH; [now apply List.Forall_forall|assumption]|].
      assert (Hyx : le y x = true) by (destruct (le_total x y Hx Hy); congruence).
      apply List.Forall_forall. intros z Hz.
      apply (Permutation_in _ (Permutation_sym (sort_insert_perm le x r))) in Hz.
      destruct Hz as [<-|Hz]; [exact Hyx|now apply Hall].
Qed.

Lemma stable_sort_sorted_on (l : list A) :
  List.Forall P l -> StronglySorted (fun a b => le a b = true) (stable_sort le l).
Proof.
  induction l as [|x r IH]; intros HP; simpl; [constructor|].
  inversion HP as [|? ? Hx Hr]; subst. apply sort_insert_sorted_on; auto.
  apply List.Forall_forall. intros z Hz. apply stable_sort_In in Hz.
  rewrite List.Forall_forall in Hr. auto.
Qed.

End SortOn.

Lemma StronglySorted_last {A : Type} (R : A -> A -> Prop) (l : list A) (d x : A) :
  StronglySorted R l -> In x l -> x = List.last l d \/ R x (List.last l d).
Proof.
  induction 1 as [|y r Hs IH Hall]; [intros []|].
  intros [<-|Hx].
  - destruct r as [|z r']; [now left|right].
    rewrite List.Forall_forall in Hall. apply Hall.
    change (List.last (y :: z :: r') d) with (List.last (z :: r') d).
    destruct (exists_last (l := z :: r')) as (l' & a & Hl); [discriminate|].
    rewrite Hl, last_last. apply in_or_app. right. now left.
  - destruct r as [|z r']; [destruct Hx|].
    change (List.last (y :: z :: r') d) with (List.last (z :: r') d). auto.
Qed.

Lemma StronglySorted_app_order {A : Type} (R : A -> A -> Prop) (l1 l2 : list A) :
  StronglySorted R (l1 ++ l2) -> forall x y, In x l1 -> In y l2 -> R x y.
Proof.
  induction l1 as [|z r IH]; simpl; intros Hs x y Hx Hy; [destruct Hx|].
  inversion Hs as [|? ? Hr Hall]; subst.
  destruct Hx as [<-|Hx]; [|now apply IH].
  rewrite List.Forall_forall in Hall. apply Hall, in_or_app. now right.
Qed.

Lemma NoDup_app_l {A : Type} (l1 l2 : list A) : List.NoDup (l1 ++ l2) -> List.NoDup l1.
Proof.
  induction l1 as [|x r IH]; simpl; intros H; [constructor|].
  inversion H as [|? ? Hx Hr]; subst. constructor; [|now apply IH].
  intros Hin. apply Hx, in_or_app. now left.
Qed.

Lemma NoDup_filter {A : Type} (f : A -> bool) (l : list A) :
  List.NoDup l -> List.NoDup (List.filter f l).
Proof.
  induction 1 as [|x r Hx Hr IH]; simpl; [constructor|].
  destruct (f x); [|exact IH]. constructor; [|exact IH].
  intros Hin. apply filter_In in Hin. tauto.
Qed.

Lemma sublist_In {A : Type} (l1 l2 : list A) (x : A) :
  sublist l1 l2 -> In x l1 -> In x l2.
Proof.
  induction 1 as [|y l1 l2 _ IH|y l1 l2 _ IH]; simpl; tauto.
Qed.

Lemma Forall2_In_l {A B : Type} (R : A -> B -> Prop) (l : list A) (k : list B) (x : A) :
  Forall2 R l k -> In x l -> exists y, In y k /\ R x y.
Proof.
  induction 1 as [|x' y l k Hxy _ IH]; simpl; [tauto|].
  intros [<-|Hx]; [eauto|]. destruct (IH Hx) as (y' & ? & ?). eauto.
Qed.

Lemma Forall2_In_r {A B : Type} (R : A -> B -> Prop) (l : list A) (k : list B) (y : B) :
  Forall2 R l k -> In y k -> exists x, In x l /\ R x y.
Proof.
  induction 1 as [|x y' l k Hxy _ IH]; simpl; [tauto|].
  intros [<-|Hy]; [eauto|]. destruct (IH Hy) as (x' & ? & ?). eauto.
Qed.

Lemma mapM_content {A B C : Type} (g : B -> C) (f1 f2 : A -> option B) (l : list A) :
  (forall x, g <$> f1 x = g <$> f2 x) ->
  map g <$> mapM f1 l = map g <$> mapM f2 l.
Proof.
  intros Hf. induction l as [|x r IH]; simpl; [reflexivity|].
  specialize (Hf x).
  destruct (f1 x) as [y1|], (f2 x) as [y2|]; simpl in *; try discriminate;
    [|reflexivity].
  injection Hf as Hy.
  destruct (mapM f1 r) as [k1|], (mapM f2 r) as [k2|]; simpl in *; try discriminate;
    [|reflexivity].
  injection IH as IH. now rewrite Hy, IH.
Qed.

(** The ranges ordered by [chest_min] are sorted when no bound is a NaN. *)
Lemma order_by_chest_min_sorted (l : list Size) :
  List.Forall (fun s => is_nan (chest_min s) = false) l ->
  StronglySorted (fun a b => (chest_min a <=? chest_min b)%float = true)
    (order_by_chest_min l).
Proof.
  apply (stable_sort_sorted_on _ (fun s => is_nan (chest_min s) = false)).
  - intros a b. apply leb_total.
  - intros a b c _ _ _. apply leb_trans.
Qed.

(** ** The generic size match, case by case *)

(** X1: when some range has both doubled values within its bounds, the
    generic match returns the name of the first such range of the store,
    whatever the other ranges are. *)
Theorem recommend_size_exact_match
    (db : Store) (measurements : gmap string float) :
  existsb (fits measurements) (sizes db) = true ->
  exists s,
    first_satisfying (fits measurements) (sizes db) s
    /\ recommend_size db measurements = size_name s.
Proof.
  intros Hex. unfold recommend_size.
  fold (chest_circumference measurements) (waist_circumference measurements).
  change (fun s => chest_in_range (chest_circumference measurements) s
                   && waist_in_range (waist_circumference measurements) s)
    with (fits measurements).
  destruct (List.filter (fits measurements) (sizes db)) as [|s rest] eqn:Hf.
  - assert (Hnone : head (List.filter (fits measurements) (sizes db)) = None)
      by now rewrite Hf.
    apply head_filter_None in Hnone. congruence.
  - exists s. split; [|reflexivity].
    apply head_filter_Some. now rewrite Hf.
Qed.

Lemma recommend_size_exact_match_witness :
  existsb (fits (build_measurements triangle_scan)) (sizes boutique_db) = true
  /\ recommend_size boutique_db (build_measurements triangle_scan) = "M"
  /\ exists s,
       first_satisfying (fits (build_measurements triangle_scan)) (sizes boutique_db) s
       /\ recommend_size boutique_db (build_measurements triangle_scan) = size_name s.
Proof.
  assert (Hex : existsb (fits (build_measurements triangle_scan)) (sizes boutique_db)
                = true) by (vm_compute; reflexivity).
  split; [exact Hex|]. split; [vm_compute; reflexivity|].
  exact (recommend_size_exact_match boutique_db _ Hex).
Defined.

(** A value below the lower chest bound of a range is not within it. *)
Lemma below_not_in_range (chest : float) (s : Size) :
  (chest <? chest_min s)%float = true -> chest_in_range chest s = false.
Proof.
  intros H. unfold chest_in_range. now rewrite (ltb_leb_false _ _ H).
Qed.

Lemma above_not_in_range (chest : float) (s : Size) :
  (chest_max s <? chest)%float = true -> chest_in_range chest s = false.
Proof.
  intros H. unfold chest_in_range. rewrite (ltb_leb_false _ _ H). apply andb_false_r.
Qed.

Lemma filter_fits_nil (db : Store) (measurements : gmap string float) :
  List.Forall (fun s => chest_in_range (chest_circumference measurements) s = false)
    (sizes db) ->
  List.filter (fits measurements) (sizes db) = [].
Proof.
  intros H. apply filter_none. intros s Hs. rewrite List.Forall_forall in H.
  unfold fits. now rewrite (H s Hs).
Qed.

(** X2: with a chest value below the lower chest bound of every range (and
    no NaN among these bounds), the generic match returns the name of a range
    whose lower chest bound is the least of the catalog. *)
Theorem recommend_size_below_all
    (db : Store) (measurements : gmap string float) :
  sizes db <> [] ->
  List.Forall (fun s => is_nan (chest_min s) = false) (sizes db) ->
  List.Forall (fun s => (chest_circumference measurements <? chest_min s)%float = true)
    (sizes db) ->
  exists s,
    In s (sizes db)
    /\ recommend_size db measurements = size_name s
    /\ List.Forall (fun s' => (chest_min s <=? chest_min s')%float = true) (sizes db).
Proof.
  intros Hne Hnan Hbelow.
  pose proof (order_by_chest_min_sorted (sizes db) Hnan) as Hsorted.
  assert (Hnil : List.filter (fits measurements) (sizes db) = []).
  { apply filter_fits_nil. eapply List.Forall_impl; [|exact Hbelow].
    intros s. apply below_not_in_range. }
  unfold recommend_size.
  fold (chest_circumference measurements) (waist_circumference measurements).
  change (fun s => chest_in_range (chest_circumference measurements) s
                   && waist_in_range (waist_circumference measurements) s)
    with (fits measurements).
  rewrite Hnil.
  assert (Hin : forall s, In s (order_by_chest_min (sizes db)) <-> In s (sizes db))
    by (intros s; apply stable_sort_In).
  destruct (order_by_chest_min (sizes db)) as [|first others] eqn:Hall.
  { exfalso. apply Hne. destruct (sizes db) as [|s r]; [reflexivity|].
    destruct (proj2 (Hin s) (or_introl eq_refl)). }
  assert (Hfirst : In first (sizes db)) by (apply Hin; now left).
  rewrite List.Forall_forall in Hbelow, Hnan.
  rewrite (Hbelow first Hfirst).
  exists first. split; [exact Hfirst|]. split; [reflexivity|].
  apply List.Forall_forall. intros s' Hs'.
  apply Hin in Hs'. inversion Hsorted as [|? ? _ Hle]; subst.
  destruct Hs' as [<-|Hs'].
  - destruct (leb_total (chest_min first) (chest_min first)); auto.
  - rewrite List.Forall_forall in Hle. auto.
Qed.

Lemma recommend_size_below_all_witness :
  recommend_size boutique_db narrow_measurements = "S"
  /\ exists s,
       In s (sizes boutique_db)
       /\ recommend_size boutique_db narrow_measurements = size_name s
       /\ List.Forall (fun s' => (chest_min s <=? chest_min s')%float = true)
            (sizes boutique_db).
Proof.
  split; [vm_compute; reflexivity|].
  apply recommend_size_below_all.
  - discriminate.
  - repeat constructor.
  - repeat constructor.
Defined.

(** X3: with a chest value above the upper chest bound of every range,
    ranges whose lower bound is not above their upper bound and no NaN among
    the lower bounds, the generic match returns the name of a range whose
    lower chest bound is the greatest of the catalog. *)
Theorem recommend_size_above_all
    (db : Store) (measurements : gmap string float) :
  sizes db <> [] ->
  List.Forall (fun s => is_nan (chest_min s) = false) (sizes db) ->
  List.Forall (fun s => (chest_min s <=? chest_max s)%float = true) (sizes db) ->
  List.Forall (fun s => (chest_max s <? chest_circumference measurements)%float = true)
    (sizes db) ->
  exists s,
    In s (sizes db)
    /\ recommend_size db measurements = size_name s
    /\ List.Forall (fun s' => (chest_min s' <=? chest_min s)%float = true) (sizes db).
Proof.
  intros Hne Hnan Hwf Habove.
  pose proof (order_by_chest_min_sorted (sizes db) Hnan) as Hsorted.
  assert (Hnil : List.filter (fits measurements) (sizes db) = []).
  { apply filter_fits_nil. eapply List.Forall_impl; [|exact Habove].
    intros s. apply above_not_in_range. }
  unfold recommend_size.
  fold (chest_circumference measurements) (waist_circumference measurements).
  change (fun s => chest_in_range (chest_circumference measurements) s
                   && waist_in_range (waist_circumference measurements) s)
    with (fits measurements).
  rewrite Hnil.
  assert (Hin : forall s, In s (order_by_chest_min (sizes db)) <-> In s (sizes db))
    by (intros s; apply stable_sort_In).
  destruct (order_by_chest_min (sizes db)) as [|first others] eqn:Hall.
  { exfalso. apply Hne. destruct (sizes db) as [|s r]; [reflexivity|].
    destruct (proj2 (Hin s) (or_introl eq_refl)). }
  assert (Hfirst : In first (sizes db)) by (apply Hin; now left).
  set (largest := List.last (first :: others) first).
  assert (Hlast : In largest (sizes db)).
  { apply Hin. unfold largest.
    destruct (exists_last (l := first :: others)) as (l' & a & Hl); [discriminate|].
    rewrite Hl, last_last. apply in_or_app. right. now left. }
  rewrite List.Forall_forall in Habove, Hnan, Hwf.
  assert (Hnot : (chest_circumference measurements <? chest_min first)%float = false).
  { destruct (chest_circumference measurements <? chest_min first)%float eqn:Hlt;
      [|reflexivity].
    apply ltb_leb_false in Hlt.
    rewrite (leb_trans _ _ _ (Hwf first Hfirst) (ltb_leb _ _ (Habove first Hfirst)))
      in Hlt. discriminate. }
  rewrite Hnot, (Habove largest Hlast).
  exists largest. split; [exact Hlast|]. split; [reflexivity|].
  apply List.Forall_forall. intros s' Hs'.
  apply Hin in Hs'.
  destruct (StronglySorted_last _ _ first s' Hsorted Hs') as [->|Hle]; [|exact Hle].
  fold largest. destruct (leb_total (chest_min largest) (chest_min largest)); auto.
Qed.

Lemma recommend_size_above_all_witness :
  recommend_size boutique_db broad_measurements = "L"
  /\ exists s,
       In s (sizes boutique_db)
       /\ recommend_size boutique_db broad_measurements = size_name s
       /\ List.Forall (fun s' => (chest_min s' <=? chest_min s)%float = true)
            (sizes boutique_db).
Proof.
  split; [vm_compute; reflexivity|].
  apply recommend_size_above_all.
  - discriminate.
  - repeat constructor.
  - repeat constructor.
  - repeat constructor.
Defined.

(** ** The adjustment table *)

Lemma shape_row_lookup (a b c d e : Z) (garment_type : string) :
  (shape_row a b c d e !! garment_type = None /\ ~ In garment_type known_garments)
  \/ (In garment_type known_garments
      /\ exists step, shape_row a b c d e !! garment_type = Some step
                      /\ In step [a; b; c; d; e]).
Proof.
  unfold shape_row, known_garments. cbn [list_to_map foldr fst snd].
  rewrite !lookup_insert, lookup_empty.
  repeat case_decide; subst;
    try (right; split; [simpl; tauto|eexists; split; [reflexivity|simpl; tauto]]).
  left. split; [reflexivity|]. simpl. intuition congruence.
Qed.

(** The table holds steps of one size at most, and only for the four
    adjusting shapes and the five garment types. *)
Lemma adjustment_of_cases (body_shape garment_type : string) :
  adjustment_of body_shape garment_type = 0
  \/ (In body_shape adjusting_shapes /\ In garment_type known_garments
      /\ (adjustment_of body_shape garment_type = 1
          \/ adjustment_of body_shape garment_type = -1)).
Proof.
  unfold adjustment_of, BODY_SHAPE_ADJUSTMENTS, adjusting_shapes.
  cbn [list_to_map foldr fst snd].
  rewrite !lookup_insert, lookup_empty.
  repeat case_decide; subst; cbn [default].
  all: try (left; rewrite lookup_empty; reflexivity).
  all: unfold id.
  all: match goal with
       | |- context [shape_row ?a ?b ?c ?d ?e !! ?g] =>
         destruct (shape_row_lookup a b c d e g)
           as [[-> _]|(Hg & step & -> & Hstep)]
       end; [left; reflexivity|].
  all: cbn [default]; simpl in Hstep.
  all: try (assert (step = 0) by (intuition lia); subst step; left; reflexivity).
  all: assert (Hs : step = 0 \/ step = 1 \/ step = -1) by intuition lia.
  all: destruct Hs as [->|Hs]; [left; reflexivity|].
  all: right; (split; [simpl; tauto|]); (split; [exact Hg|]); tauto.
Qed.


(** The labels of the scale are distinct: reading it at a position and
    looking the label up lead back to the position. *)
Lemma SIZE_ORDER_index_getitem (k : Z) (label : string) :
  0 <= k <= 6 -> list_getitem SIZE_ORDER k = Some label ->
  list_index label SIZE_ORDER = Some k.
Proof.
  intros Hk Hget.
  assert (Hcases : k = 0 \/ k = 1 \/ k = 2 \/ k = 3 \/ k = 4 \/ k = 5 \/ k = 6) by lia.
  repeat (destruct Hcases as [->|Hcases];
          [vm_compute in Hget; injection Hget as <-; reflexivity|]).
  subst k. vm_compute in Hget. injection Hget as <-. reflexivity.
Qed.

(** X4: the adjusted size is the size given or one of its neighbours on the
    scale: for a base size whose upper case is at position [i] of the scale,
    the result is on the scale at a position within one of [i]. *)
Theorem adjustment_moves_one_step
    (base_size body_shape garment_type : string) (i : Z) :
  list_index (upper base_size) SIZE_ORDER = Some i ->
  exists adjusted j,
    apply_body_shape_adjustment base_size body_shape garment_type = Some adjusted
    /\ list_index (upper adjusted) SIZE_ORDER = Some j
    /\ -1 <= j - i <= 1.
Proof.
  intros Hi. pose proof (list_index_range _ _ _ Hi) as Hrange. simpl in Hrange.
  destruct (apply_body_shape_adjustment_cases base_size body_shape garment_type)
    as [[Happ [Hz|Hnone]]|(i' & adjusted & Hnz & Hi' & Hget & Happ & Hin)].
  - exists base_size, i. rewrite Happ, Hi. repeat split; lia.
  - congruence.
  - rewrite Hi in Hi'. injection Hi' as <-.
    pose proof (clamp_index_range (i + adjustment_of body_shape garment_type)) as Hc.
    simpl in Hc.
    exists adjusted, (clamp_index (i + adjustment_of body_shape garment_type)).
    split; [exact Happ|]. split.
    + rewrite (SIZE_ORDER_upper _ Hin). apply SIZE_ORDER_index_getitem; [lia|exact Hget].
    + destruct (adjustment_of_cases body_shape garment_type) as [Hz|(_ & _ & Hstep)];
        [contradiction|].
      unfold clamp_index. simpl length. lia.
Qed.

Lemma adjustment_moves_one_step_witness :
  list_index (upper "xl") SIZE_ORDER = Some 4
  /\ exists adjusted j,
       apply_body_shape_adjustment "xl" "triangle" "shirt" = Some adjusted
       /\ list_index (upper adjusted) SIZE_ORDER = Some j
       /\ -1 <= j - 4 <= 1.
Proof.
  assert (Hi : list_index (upper "xl") SIZE_ORDER = Some 4) by reflexivity.
  split; [exact Hi|].
  exact (adjustment_moves_one_step "xl" "triangle" "shirt" 4 Hi).
Defined.



(** ** Garment-specific sizes *)

Lemma fit_focus_of_garment (garment_type : string) :
  fit_focus (default shirt_config (GARMENT_MEASUREMENTS !! garment_type))
  = if name_in garment_type waist_garments then "waist" else "chest".
Proof.
  unfold GARMENT_MEASUREMENTS, name_in, waist_garments.
  cbn [list_to_map foldr fst snd existsb].
  rewrite !lookup_insert, lookup_empty.
  repeat case_decide; subst; try reflexivity.
  cbn [default fit_focus shirt_config].
  repeat match goal with
         | |- context [String.eqb ?a ?b] =>
           destruct (String.eqb_spec a b); [congruence|]
         end.
  reflexivity.
Qed.

(** X6: pants, dresses and skirts are sized by the waist, every other
    garment type, known or not, by the chest: the base size is the name of
    the first range whose bounds for that measurement contain the doubled
    value, the generic match when there is none, and the body-shape
    adjustment is applied to it. *)
Theorem recommend_size_for_garment_focus
    (db : Store) (measurements : gmap string float) (garment_type body_shape : string) :
  recommend_size_for_garment db measurements garment_type body_shape
  = apply_body_shape_adjustment
      (match head (List.filter (focus_in_range measurements garment_type) (sizes db)) with
       | Some s => size_name s
       | None => recommend_size db measurements
       end)
      body_shape garment_type.
Proof.
  unfold recommend_size_for_garment, focus_in_range.
  rewrite fit_focus_of_garment.
  destruct (name_in garment_type waist_garments); simpl String.eqb; cbv iota;
    fold (waist_circumference measurements) (chest_circumference measurements);
    match goal with
    | |- context [List.filter ?f ?l] => destruct (List.filter f l); reflexivity
    end.
Qed.

(** The sizes and the fit read the chest and the waist only. *)
Lemma decisions_read_chest_and_waist
    (db : Store) (m1 m2 : gmap string float) :
  dict_get m1 "chest" = dict_get m2 "chest" ->
  dict_get m1 "waist" = dict_get m2 "waist" ->
  recommend_size db m1 = recommend_size db m2
  /\ recommend_fit m1 = recommend_fit m2
  /\ forall garment_type body_shape,
       recommend_size_for_garment db m1 garment_type body_shape
       = recommend_size_for_garment db m2 garment_type body_shape.
Proof.
  intros Hchest Hwaist.
  assert (Hsize : recommend_size db m1 = recommend_size db m2).
  { unfold recommend_size. now rewrite Hchest, Hwaist. }
  split; [exact Hsize|]. split.
  - unfold recommend_fit. now rewrite Hchest, Hwaist.
  - intros garment_type body_shape. unfold recommend_size_for_garment.
    rewrite fit_focus_of_garment.
    destruct (name_in garment_type waist_garments); simpl String.eqb; cbv iota;
      now rewrite Hsize, ?Hchest, ?Hwaist.
Qed.

(** X7: with no range in the store every garment-specific size is 'S', 'M'
    or 'L': the default 'M', moved by one size at most. *)
Theorem empty_catalog_sizes
    (db : Store) (measurements : gmap string float) (garment_type body_shape : string) :
  sizes db = [] ->
  recommend_size db measurements = "M"
  /\ exists size,
       recommend_size_for_garment db measurements garment_type body_shape = Some size
       /\ In size ["S"; "M"; "L"].
Proof.
  intros Hempty.
  assert (Hdefault : recommend_size db measurements = "M")
    by (unfold recommend_size; rewrite Hempty; reflexivity).
  split; [exact Hdefault|].
  assert (Hbase : recommend_size_for_garment db measurements garment_type body_shape
                  = apply_body_shape_adjustment "M" body_shape garment_type).
  { unfold recommend_size_for_garment. rewrite Hempty, Hdefault.
    destruct (String.eqb _ "chest"); [|destruct (String.eqb _ "waist")]; reflexivity. }
  rewrite Hbase.
  destruct (apply_body_shape_adjustment_cases "M" body_shape garment_type)
    as [[-> _]|(i & adjusted & Hnz & Hi & Hget & -> & _)].
  - exists "M". simpl. tauto.
  - exists adjusted. split; [reflexivity|].
    injection Hi as <-.
    destruct (adjustment_of_cases body_shape garment_type) as [Hz|(_ & _ & [Hs|Hs])];
      [contradiction| |]; rewrite Hs in Hget; vm_compute in Hget;
      injection Hget as <-; simpl; tauto.
Qed.

Lemma empty_catalog_sizes_witness :
  sizes crowded_db = []
  /\ recommend_size crowded_db (build_measurements plain_scan) = "M"
  /\ exists size,
       recommend_size_for_garment crowded_db (build_measurements plain_scan)
         "pants" "triangle" = Some size
       /\ In size ["S"; "M"; "L"].
Proof.
  split; [reflexivity|].
  exact (empty_catalog_sizes crowded_db (build_measurements plain_scan)
           "pants" "triangle" eq_refl).
Defined.

(** ** The fit classifier at its edges *)

(** X8: with a positive waist, a chest that is zero, negative or missing is
    classified 'oversize'. *)
Theorem recommend_fit_without_chest (measurements : gmap string float) :
  (0 <? dict_get measurements "waist")%float = true ->
  (dict_get measurements "chest" <=? 0)%float = true ->
  recommend_fit measurements = "oversize".
Proof.
  intros Hwaist Hchest. unfold recommend_fit.
  rewrite (positive_not_zero _ Hwaist).
  set (chest := dict_get measurements "chest") in *.
  set (waist := dict_get measurements "waist") in *. cbv zeta.
  destruct (FIT_slim_min_ratio <=? chest / waist)%float eqn:Hslim.
  { pose proof (div_threshold _ chest 0 waist _ _ FIT_slim_min_ratio_finite
                  Hwaist Hchest Hslim) as H.
    rewrite (zero_div_below_threshold _ _ _ _ FIT_slim_min_ratio_finite Hwaist) in H.
    discriminate. }
  destruct (FIT_regular_min_ratio <=? chest / waist)%float eqn:Hregular; [|reflexivity].
  pose proof (div_threshold _ chest 0 waist _ _ FIT_regular_min_ratio_finite
                Hwaist Hchest Hregular) as H.
  rewrite (zero_div_below_threshold _ _ _ _ FIT_regular_min_ratio_finite Hwaist) in H.
  discriminate.
Qed.

Lemma recommend_fit_without_chest_witness :
  let measurements : gmap string float := {["waist" := 40%float]} in
  (0 <? dict_get measurements "waist")%float = true
  /\ (dict_get measurements "chest" <=? 0)%float = true
  /\ recommend_fit measurements = "oversize".
Proof.
  intros measurements.
  assert (Hwaist : (0 <? dict_get measurements "waist")%float = true) by reflexivity.
  assert (Hchest : (dict_get measurements "chest" <=? 0)%float = true) by reflexivity.
  split; [exact Hwaist|]. split; [exact Hchest|].
  exact (recommend_fit_without_chest measurements Hwaist Hchest).
Defined.

(** X9: a waist that is not a number, or a chest that is not a number with
    a waist other than zero, is classified 'oversize'. *)
Theorem recommend_fit_not_a_number (measurements : gmap string float) :
  is_nan (dict_get measurements "waist") = true
  \/ (is_nan (dict_get measurements "chest") = true
      /\ (dict_get measurements "waist" =? 0)%float = false) ->
  recommend_fit measurements = "oversize".
Proof.
  intros H. unfold recommend_fit.
  assert (Hwaist : (dict_get measurements "waist" =? 0)%float = false).
  { destruct H as [H|[_ H]]; [|exact H].
    apply is_nan_true in H. rewrite FloatAxioms.eqb_spec, H. reflexivity. }
  rewrite Hwaist.
  assert (Hratio : Prim2SF (dict_get measurements "chest" / dict_get measurements "waist")
                   = S754_nan).
  { apply div_nan. destruct H as [H|[H _]]; apply is_nan_true in H; auto. }
  now rewrite !(leb_nan_r _ _ Hratio).
Qed.

Lemma recommend_fit_not_a_number_witness :
  let measurements : gmap string float := {["chest" := nan; "waist" := 40%float]} in
  (is_nan (dict_get measurements "waist") = true
   \/ (is_nan (dict_get measurements "chest") = true
       /\ (dict_get measurements "waist" =? 0)%float = false))
  /\ recommend_fit measurements = "oversize".
Proof.
  intros measurements.
  assert (H : is_nan (dict_get measurements "waist") = true
              \/ (is_nan (dict_get measurements "chest") = true
                  /\ (dict_get measurements "waist" =? 0)%float = false)).
  { right. split; reflexivity. }
  split; [exact H|]. exact (recommend_fit_not_a_number measurements H).
Defined.

(** ** The passes of the product scorer *)

(** The products of one pass, before the cut. *)
Lemma scored_products_NoDup (db : Store) (size fit : string) (cols : list Color)
    (gender : string) :
  List.NoDup (products db) ->
  List.NoDup (map fst (score_products db size fit cols (gender_products db gender))).
Proof.
  intros Hnd. rewrite score_products_map_fst.
  apply NoDup_filter. unfold gender_products. now apply NoDup_filter.
Qed.

Lemma score_products_length (db : Store) (size fit : string) (cols : list Color)
    (ps : list Product) :
  (length (score_products db size fit cols ps) <= length ps)%nat.
Proof.
  rewrite <- (length_map fst), score_products_map_fst. apply List.filter_length_le.
Qed.

Lemma gender_products_length (db : Store) (gender : string) :
  (length (gender_products db gender) <= length (products db))%nat.
Proof. apply List.filter_length_le. Qed.

Lemma recommend_products_In
    (db : Store) (get_recommended_colors : string -> string -> list string)
    (measurements : gmap string float) (skin_tone gender : string) (limit : Z)
    (product : Product) (priority : Z) :
  In (product, priority)
    (recommend_products db get_recommended_colors measurements skin_tone gender limit) ->
  In product (gender_products db gender)
  /\ available_variants db product <> []
  /\ priority
     = expected_score db (recommend_size db measurements) (recommend_fit measurements)
         (recommended_color_rows db get_recommended_colors skin_tone) product.
Proof.
  intros Hin. apply slice_to_incl in Hin. apply stable_sort_In in Hin.
  now apply score_products_In in Hin.
Qed.

(** X10: a pass returns a prefix of its scored products in descending order
    of priority: every entry it leaves out has at most the priority of every
    entry it returns, it returns at most [limit] entries when the limit is
    not negative and all of them when the limit is not below their number,
    and with distinct rows in the store no product is returned twice. *)
Theorem recommend_products_best_first
    (db : Store) (get_recommended_colors : string -> string -> list string)
    (measurements : gmap string float) (skin_tone gender : string) (limit : Z) :
  let scored :=
    score_products db (recommend_size db measurements) (recommend_fit measurements)
      (recommended_color_rows db get_recommended_colors skin_tone)
      (gender_products db gender) in
  let output :=
    recommend_products db get_recommended_colors measurements skin_tone gender limit in
  StronglySorted (fun a b => snd b <= snd a) output
  /\ (exists left_out,
        Permutation scored (output ++ left_out)
        /\ forall e e', In e output -> In e' left_out -> snd e' <= snd e)
  /\ (0 <= limit -> Z.of_nat (length output) <= limit)
  /\ (Z.of_nat (length scored) <= limit -> Permutation scored output)
  /\ (List.NoDup (products db) -> List.NoDup (map fst output)).
Proof.
  intros scored output.
  assert (Hout : output = slice_to limit (sort_by_priority scored)) by reflexivity.
  destruct (slice_to_prefix limit (sort_by_priority scored)) as [left_out Hsplit].
  rewrite <- Hout in Hsplit.
  pose proof (sort_by_priority_sorted scored) as Hsorted.
  assert (Hperm : Permutation scored (sort_by_priority scored)) by apply stable_sort_perm.
  split; [rewrite Hout; now apply slice_to_sorted|].
  split.
  { exists left_out. split; [now rewrite <- Hsplit|].
    intros e e' He He'. rewrite Hsplit in Hsorted.
    exact (StronglySorted_app_order _ _ _ Hsorted e e' He He'). }
  split; [rewrite Hout; apply slice_to_length|].
  split.
  { intros Hall. rewrite Hout, slice_to_all; [exact Hperm|].
    unfold sort_by_priority. now rewrite stable_sort_length. }
  intros Hnd.
  apply (NoDup_app_l _ (map fst left_out)). rewrite <- map_app, <- Hsplit.
  eapply Permutation_NoDup; [apply Permutation_map, Hperm|].
  now apply scored_products_NoDup.
Qed.

Lemma recommend_products_best_first_witness :
  List.NoDup (products boutique_db)
  /\ List.NoDup
       (map fst
          (recommend_products boutique_db navy_and_white
             (build_measurements triangle_scan) "light" "men" 2))
  /\ Z.of_nat
       (length
          (recommend_products boutique_db navy_and_white
             (build_measurements triangle_scan) "light" "men" 2)) <= 2.
Proof.
  assert (Hnd : List.NoDup (products boutique_db)).
  { repeat constructor; simpl; intuition discriminate. }
  pose proof (recommend_products_best_first boutique_db navy_and_white
                (build_measurements triangle_scan) "light" "men" 2)
    as (_ & _ & Hlen & _ & Hdistinct).
  split; [exact Hnd|]. split; [exact (Hdistinct Hnd)|]. apply Hlen. lia.
Defined.

(** ** The measurements of a scan *)

Lemma add_if_set_lookup (key k : string) (x : option float) (d : gmap string float) :
  add_if_set key x d !! k
  = if decide (key = k) then (match truthy x with Some v => Some v | None => d !! k end)
    else d !! k.
Proof.
  unfold add_if_set, truthy. destruct x as [v|]; [destruct (v =? 0)%float|];
    rewrite ?lookup_insert; repeat case_decide; congruence.
Qed.

Lemma add_if_set_commute (k1 k2 : string) (x y : option float) (d : gmap string float) :
  k1 <> k2 ->
  add_if_set k1 x (add_if_set k2 y d) = add_if_set k2 y (add_if_set k1 x d).
Proof.
  intros Hne. apply map_eq. intros k. rewrite !add_if_set_lookup.
  repeat case_decide; subst; try congruence; destruct (truthy x), (truthy y); congruence.
Qed.

(** X11: the two entry points build the same dictionary from a scan,
    although they add the optional measurements in different orders. *)
Theorem build_measurements_same (body_scan : BodyScan) :
  build_measurements_for_recommendations body_scan = build_measurements body_scan.
Proof.
  unfold build_measurements_for_recommendations, build_measurements.
  rewrite (add_if_set_commute "inseam" "arm_length") by discriminate.
  rewrite (add_if_set_commute "inseam" "torso_length") by discriminate.
  reflexivity.
Qed.

(** X12: the dictionary of a scan holds the four required measurements as
    they are, an optional measurement exactly when its field is set and not
    zero, and no other key. *)
Theorem build_measurements_lookup (body_scan : BodyScan) :
  let measurements := build_measurements body_scan in
  measurements !! "height" = Some (scan_height body_scan)
  /\ measurements !! "chest" = Some (scan_chest body_scan)
  /\ measurements !! "waist" = Some (scan_waist body_scan)
  /\ measurements !! "shoulder_width" = Some (scan_shoulder_width body_scan)
  /\ measurements !! "hip" = truthy (scan_hip body_scan)
  /\ measurements !! "inseam" = truthy (scan_inseam body_scan)
  /\ measurements !! "torso_length" = truthy (scan_torso_length body_scan)
  /\ measurements !! "arm_length" = truthy (scan_arm_length body_scan)
  /\ (forall key, ~ In key (required_keys ++ optional_keys) -> measurements !! key = None).
Proof.
  unfold build_measurements. cbn [list_to_map foldr fst snd].
  repeat split; try intros key Hkey;
    rewrite !add_if_set_lookup, ?lookup_insert, ?lookup_empty;
    repeat case_decide; subst; try congruence; try reflexivity;
    try (exfalso; apply Hkey; simpl; tauto);
    try (destruct (truthy _); reflexivity).
Qed.

Lemma build_measurements_chest_waist (body_scan : BodyScan) :
  dict_get (build_measurements body_scan) "chest" = scan_chest body_scan
  /\ dict_get (build_measurements body_scan) "waist" = scan_waist body_scan.
Proof.
  unfold dict_get, build_measurements. cbn [list_to_map foldr fst snd].
  split; rewrite !add_if_set_lookup, ?lookup_insert;
    repeat case_decide; try congruence; reflexivity.
Qed.

Lemma same_ranking_measurements (db : Store) (scan1 scan2 : BodyScan) :
  same_ranking_fields scan1 scan2 ->
  recommend_size db (build_measurements scan1) = recommend_size db (build_measurements scan2)
  /\ recommend_fit (build_measurements scan1) = recommend_fit (build_measurements scan2)
  /\ forall garment_type body_shape,
       recommend_size_for_garment db (build_measurements scan1) garment_type body_shape
       = recommend_size_for_garment db (build_measurements scan2) garment_type body_shape.
Proof.
  intros (Hc & Hw & _). apply decisions_read_chest_and_waist.
  - destruct (build_measurements_chest_waist scan1) as [-> _].
    destruct (build_measurements_chest_waist scan2) as [-> _]. exact Hc.
  - destruct (build_measurements_chest_waist scan1) as [_ ->].
    destruct (build_measurements_chest_waist scan2) as [_ ->]. exact Hw.
Qed.

Lemma same_decisive_ranking (scan1 scan2 : BodyScan) :
  same_decisive_fields scan1 scan2 -> same_ranking_fields scan1 scan2.
Proof. intros (? & ? & _ & _ & ?). repeat split; assumption. Qed.

(** ** The output of the variant matcher *)

Lemma match_product_sound
    (db : Store) (measurements : gmap string float) (body_shape : string)
    (names : list string) (fit : string) (product : Product) (m : MatchResult) :
  match_product db measurements body_shape names fit product = Some (Some m) ->
  mr_product m = product
  /\ mr_fit_type m = product_fit_type product
  /\ recommend_size_for_garment db measurements (product_category product) body_shape
     = Some (mr_recommended_size m)
  /\ In (mr_variant m) (variants db)
  /\ tier2 product (mr_recommended_size m) (mr_variant m) = true
  /\ mr_recommended_color m = color_name (variant_color (mr_variant m))
  /\ is_perfect_match m = name_in (color_name (variant_color (mr_variant m))) names.
Proof.
  unfold match_product.
  destruct (recommend_size_for_garment db measurements (product_category product)
              body_shape) as [size|]; simpl; [|discriminate].
  destruct (head (List.filter (tier1 product size names) (variants db)))
    as [v1|] eqn:H1.
  - intros [= <-]. simpl.
    destruct (head_filter_Some _ _ _ H1) as (before & after & Hsplit & Hv1 & _).
    repeat split; auto.
    + rewrite Hsplit. apply in_or_app. right. now left.
    + now apply tier1_tier2 in Hv1.
    + unfold tier1 in Hv1. repeat (apply andb_prop in Hv1; destruct Hv1 as [Hv1 ?]).
      congruence.
  - destruct (head (List.filter (tier2 product size) (variants db))) as [v2|] eqn:H2;
      intros [= <-]. simpl.
    destruct (head_filter_Some _ _ _ H2) as (before & after & Hsplit & Hv2 & _).
    assert (Hin : In v2 (variants db))
      by (rewrite Hsplit; apply in_or_app; right; now left).
    repeat split; auto.
    apply head_filter_None in H1.
    destruct (name_in (color_name (variant_color v2)) names) eqn:Hcolor; [|reflexivity].
    rewrite <- not_true_iff_false in H1. exfalso. apply H1.
    apply existsb_exists. exists v2. split; [exact Hin|].
    unfold tier2 in Hv2. unfold tier1. rewrite Hcolor.
    repeat (apply andb_prop in Hv2; destruct Hv2 as [Hv2 ?]).
    now repeat (apply andb_true_intro; split).
Qed.

Lemma match_product_found
    (db : Store) (measurements : gmap string float) (body_shape : string)
    (names : list string) (fit : string) (product : Product) (size : string) :
  recommend_size_for_garment db measurements (product_category product) body_shape
  = Some size ->
  existsb (tier2 product size) (variants db) = true ->
  exists m,
    match_product db measurements body_shape names fit product = Some (Some m)
    /\ mr_product m = product /\ mr_recommended_size m = size.
Proof.
  intros Hsize Hex. unfold match_product. rewrite Hsize. simpl.
  destruct (head (List.filter (tier1 product size names) (variants db)));
    [eexists; split; [reflexivity|split; reflexivity]|].
  destruct (head (List.filter (tier2 product size) (variants db))) eqn:H2;
    [eexists; split; [reflexivity|split; reflexivity]|].
  apply head_filter_None in H2. congruence.
Qed.

Lemma emitted_In
    (db : Store) (measurements : gmap string float) (body_shape : string)
    (names : list string) (fit : string) (ps : list Product) (m : MatchResult) :
  In m (emitted db measurements body_shape names fit ps)
  <-> In (mr_product m) ps
      /\ match_product db measurements body_shape names fit (mr_product m)
         = Some (Some m).
Proof.
  unfold emitted. rewrite in_flat_map. split.
  - intros (p & Hp & Hm).
    destruct (match_product db measurements body_shape names fit p) as [[m'|]|]
      eqn:Hmatch; simpl in Hm; try tauto.
    destruct Hm as [<-|[]].
    destruct (match_product_sound _ _ _ _ _ _ _ Hmatch) as [-> _]. auto.
  - intros [Hin Hmatch]. exists (mr_product m). split; [exact Hin|].
    rewrite Hmatch. now left.
Qed.

Lemma emitted_NoDup
    (db : Store) (measurements : gmap string float) (body_shape : string)
    (names : list string) (fit : string) (ps : list Product) :
  List.NoDup ps ->
  List.NoDup (map mr_product (emitted db measurements body_shape names fit ps)).
Proof.
  induction 1 as [|p r Hp Hr IH]; simpl; [constructor|].
  fold (emitted db measurements body_shape names fit r).
  destruct (match_product db measurements body_shape names fit p) as [[m|]|] eqn:Hmatch;
    simpl; try exact IH.
  destruct (match_product_sound _ _ _ _ _ _ _ Hmatch) as [-> _].
  constructor; [|exact IH].
  intros Hin. apply in_map_iff in Hin as (m' & Heq & Hm').
  apply emitted_In in Hm' as [Hm' _]. rewrite Heq in Hm'. contradiction.
Qed.

Lemma emitted_length
    (db : Store) (measurements : gmap string float) (body_shape : string)
    (names : list string) (fit : string) (ps : list Product) :
  (length (emitted db measurements body_shape names fit ps) <= length ps)%nat.
Proof.
  induction ps as [|p r IH]; simpl; [lia|].
  fold (emitted db measurements body_shape names fit r).
  rewrite length_app.
  destruct (match_product db measurements body_shape names fit p) as [[m|]|]; simpl; lia.
Qed.

Lemma get_matching_product_variants_output
    (db : Store) (get_recommended_colors : string -> string -> list string)
    (body_scan : BodyScan) (gender fit_type : option string) (limit : Z) :
  get_matching_product_variants db get_recommended_colors body_scan gender fit_type limit
  = Some (slice_to limit
            (sort_matches
               (emitted db (build_measurements body_scan) (body_shape_of body_scan)
                  (recommend_colors get_recommended_colors (scan_skin_tone body_scan)
                     (undertone_of body_scan))
                  (recommend_fit (build_measurements body_scan))
                  (filtered_products db gender fit_type)))).
Proof.
  unfold get_matching_product_variants. now rewrite collect_matches_emitted.
Qed.

Lemma filtered_products_In (db : Store) (gender fit_type : option string) (p : Product) :
  In p (filtered_products db gender fit_type) ->
  In p (products db)
  /\ (forall g, gender = Some g -> g = "men" \/ g = "women" ->
      product_gender p = g \/ product_gender p = "unisex")
  /\ (forall f, fit_type = Some f -> In f ["slim"; "regular"; "oversize"] ->
      product_fit_type p = f).
Proof.
  unfold filtered_products. intros Hin.
  assert (Hfit : In p (match gender with
                       | Some g =>
                         if negb (String.eqb g "") && name_in g ["men"; "women"]
                         then List.filter
                                (fun p => String.eqb (product_gender p) g
                                          || String.eqb (product_gender p) "unisex")
                                (products db)
                         else products db
                       | None => products db
                       end)
                 /\ (forall f, fit_type = Some f -> In f ["slim"; "regular"; "oversize"] ->
                     product_fit_type p = f)).
  { destruct fit_type as [f|]; [|split; [exact Hin|discriminate]].
    destruct (negb (String.eqb f "") && name_in f ["slim"; "regular"; "oversize"])
      eqn:Hvalid.
    - apply filter_In in Hin as [Hin Hf]. split; [exact Hin|].
      intros f' [= <-] _. now apply String.eqb_eq.
    - split; [exact Hin|]. intros f' [= <-] Hf'. exfalso.
      simpl in Hf'. destruct Hf' as [<-|[<-|[<-|[]]]]; discriminate. }
  destruct Hfit as [Hg Hfit]. split; [|split; [|exact Hfit]].
  - destruct gender as [g|]; [|exact Hg].
    destruct (negb (String.eqb g "") && name_in g ["men"; "women"]); [|exact Hg].
    now apply filter_In in Hg.
  - intros g -> Hvalid.
    assert (Hv : negb (String.eqb g "") && name_in g ["men"; "women"] = true)
      by (destruct Hvalid as [-> | ->]; reflexivity).
    rewrite Hv in Hg. apply filter_In in Hg as [_ Hg].
    apply orb_true_iff in Hg. rewrite !String.eqb_eq in Hg. exact Hg.
Qed.

Lemma filtered_products_length (db : Store) (gender fit_type : option string) :
  (length (filtered_products db gender fit_type) <= length (products db))%nat.
Proof.
  unfold filtered_products.
  destruct fit_type as [f|]; [destruct (negb (String.eqb f "") && _)|];
    (destruct gender as [g|]; [destruct (negb (String.eqb g "") && _)|]);
    repeat (eapply Nat.le_trans; [apply List.filter_length_le|]); apply Nat.le_refl.
Qed.

Lemma filtered_products_NoDup (db : Store) (gender fit_type : option string) :
  List.NoDup (products db) -> List.NoDup (filtered_products db gender fit_type).
Proof.
  intros Hnd. unfold filtered_products.
  destruct fit_type as [f|];
    [destruct (negb (String.eqb f "") && _); [apply NoDup_filter|]|];
    (destruct gender as [g|];
     [destruct (negb (String.eqb g "") && _); [apply NoDup_filter|]|]);
    exact Hnd.
Qed.

(** X13: a gender other than 'men' and 'women' (so 'unisex' too) and a fit
    type other than 'slim', 'regular' and 'oversize' do not filter: the
    matcher answers as without them. *)
Theorem get_matching_product_variants_other_filters
    (db : Store) (get_recommended_colors : string -> string -> list string)
    (body_scan : BodyScan) (gender fit_type : option string) (limit : Z)
    (g f : string) :
  (g <> "men" /\ g <> "women" ->
   get_matching_product_variants db get_recommended_colors body_scan (Some g) fit_type
     limit
   = get_matching_product_variants db get_recommended_colors body_scan None fit_type
       limit)
  /\ (~ In f ["slim"; "regular"; "oversize"] ->
      get_matching_product_variants db get_recommended_colors body_scan gender (Some f)
        limit
      = get_matching_product_variants db get_recommended_colors body_scan gender None
          limit).
Proof.
  split.
  - intros [Hmen Hwomen]. rewrite !get_matching_product_variants_output.
    assert (Hsame : filtered_products db (Some g) fit_type
                    = filtered_products db None fit_type).
    { unfold filtered_products, name_in. simpl existsb.
      apply String.eqb_neq in Hmen, Hwomen. rewrite Hmen, Hwomen.
      now rewrite andb_false_r. }
    now rewrite Hsame.
  - intros Hf. rewrite !get_matching_product_variants_output.
    assert (Hsame : filtered_products db gender (Some f)
                    = filtered_products db gender None).
    { unfold filtered_products, name_in. simpl existsb.
      destruct (String.eqb_spec f "slim"); [subst f; simpl in Hf; tauto|].
      destruct (String.eqb_spec f "regular"); [subst f; simpl in Hf; tauto|].
      destruct (String.eqb_spec f "oversize"); [subst f; simpl in Hf; tauto|].
      now rewrite andb_false_r. }
    now rewrite Hsame.
Qed.

Lemma get_matching_product_variants_other_filters_witness :
  get_matching_product_variants boutique_db navy_and_white plain_waist_scan
    (Some "unisex") (Some "men") 6
  = get_matching_product_variants boutique_db navy_and_white plain_waist_scan
      None (Some "men") 6
  /\ get_matching_product_variants boutique_db navy_and_white plain_waist_scan
       (Some "men") (Some "loose") 6
     = get_matching_product_variants boutique_db navy_and_white plain_waist_scan
         (Some "men") None 6.
Proof.
  split.
  - apply (proj1 (get_matching_product_variants_other_filters boutique_db navy_and_white
                    plain_waist_scan None (Some "men") 6 "unisex" "")).
    split; discriminate.
  - apply (proj2 (get_matching_product_variants_other_filters boutique_db navy_and_white
                    plain_waist_scan (Some "men") None 6 "" "loose")).
    simpl. intuition discriminate.
Defined.

(** X14: every match the matcher returns is for a product of the store that
    passes the filters asked for (with gender 'men' or 'women' the product has
    that gender or is unisex, with a valid fit type it has that fit type); its
    variant is a variant of that product in the store, in stock and of the
    garment-specific size of the product's category; the color reported is
    the variant's, and the match is perfect exactly when that color is a
    recommended one.  With distinct rows in the store no product is matched
    twice. *)
Theorem get_matching_product_variants_sound
    (db : Store) (get_recommended_colors : string -> string -> list string)
    (body_scan : BodyScan) (gender fit_type : option string) (limit : Z) :
  exists output,
    get_matching_product_variants db get_recommended_colors body_scan gender fit_type
      limit = Some output
    /\ (forall m,
          In m output ->
          In (mr_product m) (products db)
          /\ (forall g, gender = Some g -> g = "men" \/ g = "women" ->
              product_gender (mr_product m) = g
              \/ product_gender (mr_product m) = "unisex")
          /\ (forall f, fit_type = Some f -> In f ["slim"; "regular"; "oversize"] ->
              product_fit_type (mr_product m) = f /\ mr_fit_type m = f)
          /\ recommend_size_for_garment db (build_measurements body_scan)
               (product_category (mr_product m)) (body_shape_of body_scan)
             = Some (mr_recommended_size m)
          /\ In (mr_variant m) (variants db)
          /\ variant_product (mr_variant m) = product_id (mr_product m)
          /\ size_name (variant_size (mr_variant m)) = mr_recommended_size m
          /\ 0 < inventory_quantity (mr_variant m)
          /\ mr_recommended_color m = color_name (variant_color (mr_variant m))
          /\ is_perfect_match m
             = name_in (color_name (variant_color (mr_variant m)))
                 (recommend_colors get_recommended_colors (scan_skin_tone body_scan)
                    (undertone_of body_scan)))
    /\ (List.NoDup (products db) -> List.NoDup (map mr_product output)).
Proof.
  rewrite get_matching_product_variants_output. eexists. split; [reflexivity|].
  set (collected := emitted _ _ _ _ _ _).
  split.
  - intros m Hm. apply slice_to_incl in Hm. apply stable_sort_In in Hm.
    apply emitted_In in Hm as [Hin Hmatch].
    apply match_product_sound in Hmatch
      as (_ & Hfit & Hsize & Hvariant & Htier & Hcolor & Hperfect).
    apply tier2_true in Htier as (Hproduct & Hname & Hstock).
    apply filtered_products_In in Hin as (Hstore & Hg & Hf).
    split; [exact Hstore|]. split; [exact Hg|].
    split; [intros f Hfit_type Hvalid; rewrite Hfit; split; now apply Hf|].
    auto 10.
  - intros Hnd.
    destruct (slice_to_prefix limit (sort_matches collected)) as [rest Hsplit].
    apply (NoDup_app_l _ (map mr_product rest)). rewrite <- map_app, <- Hsplit.
    eapply Permutation_NoDup; [apply Permutation_map, stable_sort_perm|].
    apply emitted_NoDup. now apply filtered_products_NoDup.
Qed.

Lemma get_matching_product_variants_sound_witness :
  exists output m,
    get_matching_product_variants boutique_db navy_and_white plain_waist_scan
      (Some "men") None 6 = Some output
    /\ In m output
    /\ product_gender (mr_product m) = "men"
    /\ 0 < inventory_quantity (mr_variant m)
    /\ is_perfect_match m = true.
Proof.
  destruct (get_matching_product_variants_sound boutique_db navy_and_white
              plain_waist_scan (Some "men") None 6) as (output & Hout & Hsound & _).
  destruct output as [|m rest]; [vm_compute in Hout; discriminate|].
  exists (m :: rest), m. split; [exact Hout|]. split; [now left|].
  destruct (Hsound m (or_introl eq_refl)) as (_ & _ & _ & _ & _ & _ & _ & Hstock & _).
  vm_compute in Hout. injection Hout as <- _. repeat split.
Defined.

(** X15: with a limit that is not below the number of products, the matcher
    returns every product that passes the filters and has a variant in stock
    of the garment-specific size of its category. *)
Theorem get_matching_product_variants_complete
    (db : Store) (get_recommended_colors : string -> string -> list string)
    (body_scan : BodyScan) (gender fit_type : option string) (limit : Z)
    (product : Product) (size : string) :
  Z.of_nat (length (products db)) <= limit ->
  In product (filtered_products db gender fit_type) ->
  recommend_size_for_garment db (build_measurements body_scan)
    (product_category product) (body_shape_of body_scan) = Some size ->
  existsb (tier2 product size) (variants db) = true ->
  exists output m,
    get_matching_product_variants db get_recommended_colors body_scan gender fit_type
      limit = Some output
    /\ In m output /\ mr_product m = product /\ mr_recommended_size m = size.
Proof.
  intros Hlimit Hin Hsize Hstock.
  rewrite get_matching_product_variants_output.
  set (names := recommend_colors _ _ _).
  set (fit := recommend_fit _).
  destruct (match_product_found db (build_measurements body_scan)
              (body_shape_of body_scan) names fit product size Hsize Hstock)
    as (m & Hmatch & Hproduct & Hrec).
  eexists. exists m. split; [reflexivity|]. split; [|auto].
  rewrite slice_to_all.
  - apply stable_sort_In, emitted_In. rewrite Hproduct. auto.
  - unfold sort_matches. rewrite stable_sort_length.
    pose proof (emitted_length db (build_measurements body_scan)
                  (body_shape_of body_scan) names fit
                  (filtered_products db gender fit_type)).
    pose proof (filtered_products_length db gender fit_type). lia.
Qed.

Lemma get_matching_product_variants_complete_witness :
  exists output m,
    get_matching_product_variants boutique_db navy_and_white plain_waist_scan
      (Some "men") None 6 = Some output
    /\ In m output /\ mr_product m = chino /\ mr_recommended_size m = "L".
Proof.
  apply get_matching_product_variants_complete.
  - vm_compute. discriminate.
  - vm_compute. auto.
  - vm_compute. reflexivity.
  - vm_compute. reflexivity.
Defined.

Lemma collect_matches_measurements
    (db : Store) (m1 m2 : gmap string float) (body_shape : string)
    (names : list string) (fit : string) (ps : list Product) (acc : list MatchResult) :
  (forall garment_type,
      recommend_size_for_garment db m1 garment_type body_shape
      = recommend_size_for_garment db m2 garment_type body_shape) ->
  collect_matches db m1 body_shape names fit ps acc
  = collect_matches db m2 body_shape names fit ps acc.
Proof.
  intros Hsize. revert acc. induction ps as [|p rest IH]; intros acc; simpl; [reflexivity|].
  unfold match_product. rewrite Hsize.
  destruct (recommend_size_for_garment db m2 (product_category p) body_shape); simpl;
    [|reflexivity].
  destruct (head (List.filter (tier1 p s names) (variants db)));
    [|destruct (head (List.filter (tier2 p s) (variants db)))]; simpl; apply IH.
Qed.

(** X16: the variant matcher reads only the chest, the waist, the body
    shape, the undertone and the skin tone of a scan: the height, the
    shoulder width and the four optional measurements never change its
    result. *)
Theorem get_matching_product_variants_decisive_fields
    (db : Store) (get_recommended_colors : string -> string -> list string)
    (scan1 scan2 : BodyScan) (gender fit_type : option string) (limit : Z) :
  same_decisive_fields scan1 scan2 ->
  get_matching_product_variants db get_recommended_colors scan1 gender fit_type limit
  = get_matching_product_variants db get_recommended_colors scan2 gender fit_type limit.
Proof.
  intros Hsame.
  destruct (same_ranking_measurements db scan1 scan2 (same_decisive_ranking _ _ Hsame))
    as (_ & Hfit & Hsize).
  destruct Hsame as (_ & _ & Hshape & Hunder & Hskin).
  unfold get_matching_product_variants.
  rewrite Hshape, Hunder, Hskin, Hfit.
  rewrite (collect_matches_measurements db (build_measurements scan1)
             (build_measurements scan2)); [reflexivity|].
  intros garment_type. apply Hsize.
Qed.

Lemma get_matching_product_variants_decisive_fields_witness :
  same_decisive_fields triangle_scan tall_triangle_scan
  /\ build_measurements triangle_scan <> build_measurements tall_triangle_scan
  /\ get_matching_product_variants boutique_db navy_and_white triangle_scan None None 6
     = get_matching_product_variants boutique_db navy_and_white tall_triangle_scan
         None None 6.
Proof.
  assert (Hsame : same_decisive_fields triangle_scan tall_triangle_scan)
    by (repeat split).
  split; [exact Hsame|]. split.
  - intros Heq.
    assert (Hhip : build_measurements triangle_scan !! "hip"
                   = build_measurements tall_triangle_scan !! "hip") by now rewrite Heq.
    vm_compute in Hhip. discriminate.
  - exact (get_matching_product_variants_decisive_fields boutique_db navy_and_white
             triangle_scan tall_triangle_scan None None 6 Hsame).
Defined.

(** ** The rows of the orchestrator *)

(** The rows are made, one for one, from the first ten ranked entries. *)
Lemma generate_recommendations_rows
    (db : Store) (get_recommended_colors : string -> string -> list string)
    (body_scan : BodyScan) :
  exists records,
    generate_recommendations_for_scan db get_recommended_colors body_scan = Some records
    /\ Forall2
         (fun e r =>
            rec_product r = fst e /\ rec_priority r = snd e
            /\ rec_body_scan r = body_scan
            /\ recommend_size_for_garment db (build_measurements body_scan)
                 (product_category (fst e)) (body_shape_of body_scan)
               = Some (rec_recommended_size r)
            /\ rec_recommended_fit r = recommend_fit (build_measurements body_scan)
            /\ rec_recommended_colors r
               = String.concat ", "
                   (slice_to 5 (recommend_colors get_recommended_colors
                                  (scan_skin_tone body_scan) (undertone_of body_scan))))
         (slice_to 10 (unique_recommendations db get_recommended_colors body_scan))
         records.
Proof.
  unfold generate_recommendations_for_scan.
  match goal with |- context [mapM ?f ?l] => set (make := f); set (entries := l) end.
  destruct (mapM_is_Some_2 make entries) as [records Hrecords].
  { apply List.Forall_forall. intros [product priority] _. unfold make. simpl.
    destruct (recommend_size_for_garment_total db (build_measurements body_scan)
                (product_category product) (body_shape_of body_scan)) as [size ->].
    simpl. eauto. }
  exists records. split; [exact Hrecords|].
  apply mapM_Some_1 in Hrecords.
  eapply Forall2_impl; [exact Hrecords|].
  intros [product priority] r Hr. unfold make in Hr. simpl in Hr.
  destruct (recommend_size_for_garment db (build_measurements body_scan)
              (product_category product) (body_shape_of body_scan)) as [size|] eqn:Hsize;
    simpl in Hr; [|discriminate].
  injection Hr as <-. simpl. auto 10.
Qed.

Lemma product_recommendations_In
    (db : Store) (get_recommended_colors : string -> string -> list string)
    (body_scan : BodyScan) (e : Product * Z) :
  In e (product_recommendations db get_recommended_colors body_scan) ->
  exists gender,
    In gender ["men"; "women"; "unisex"]
    /\ In e (recommend_products db get_recommended_colors (build_measurements body_scan)
               (scan_skin_tone body_scan) gender 10).
Proof.
  unfold product_recommendations. intros Hin. apply in_flat_map in Hin as (g & ? & ?).
  eauto.
Qed.

Lemma gender_products_In (db : Store) (gender : string) (product : Product) :
  In product (gender_products db gender)
  <-> In product (products db)
      /\ (product_gender product = gender \/ product_gender product = "unisex").
Proof.
  unfold gender_products. rewrite filter_In, orb_true_iff, !String.eqb_eq. tauto.
Qed.

(** X17: every row the orchestrator makes is for a product of the store
    with a variant in stock, whose gender is 'men', 'women' or 'unisex'; its
    priority is the score of that product (between 5 and 40), its size the
    garment-specific size of the product's category for the body shape of the
    scan, its fit the recommended fit, its colors the first five recommended
    names; the rows are in descending order of priority and no product id
    has two rows. *)
Theorem generate_recommendations_rows_sound
    (db : Store) (get_recommended_colors : string -> string -> list string)
    (body_scan : BodyScan) :
  let measurements := build_measurements body_scan in
  exists records,
    generate_recommendations_for_scan db get_recommended_colors body_scan = Some records
    /\ StronglySorted (fun a b => rec_priority b <= rec_priority a) records
    /\ List.NoDup (map (fun r => product_id (rec_product r)) records)
    /\ forall r,
         In r records ->
         In (rec_product r) (products db)
         /\ In (product_gender (rec_product r)) ["men"; "women"; "unisex"]
         /\ available_variants db (rec_product r) <> []
         /\ rec_priority r
            = expected_score db (recommend_size db measurements)
                (recommend_fit measurements)
                (recommended_color_rows db get_recommended_colors
                   (scan_skin_tone body_scan))
                (rec_product r)
         /\ 5 <= rec_priority r <= 40
         /\ recommend_size_for_garment db measurements
              (product_category (rec_product r)) (body_shape_of body_scan)
            = Some (rec_recommended_size r)
         /\ rec_recommended_fit r = recommend_fit measurements
         /\ rec_recommended_colors r
            = String.concat ", "
                (slice_to 5 (recommend_colors get_recommended_colors
                               (scan_skin_tone body_scan) (undertone_of body_scan)))
         /\ rec_body_scan r = body_scan.
Proof.
  intros measurements.
  destruct (generate_recommendations_rows db get_recommended_colors body_scan)
    as (records & Hgen & Hrows).
  exists records. split; [exact Hgen|].
  set (ranked := unique_recommendations db get_recommended_colors body_scan) in *.
  set (encountered := product_recommendations db get_recommended_colors body_scan).
  assert (Hmap : map (fun r => (rec_product r, rec_priority r)) records
                 = slice_to 10 ranked).
  { clear Hgen. induction Hrows as [|[p s] r l k (Hp & Hs & _) _ IH]; simpl;
      [reflexivity|].
    simpl in Hp, Hs. now rewrite Hp, Hs, IH. }
  assert (Hsorted : StronglySorted (fun a b => snd b <= snd a) (slice_to 10 ranked))
    by (apply slice_to_sorted, sort_by_priority_sorted).
  assert (Hperm : Permutation (remove_duplicates encountered ∅ []) ranked)
    by apply stable_sort_perm.
  split; [|split].
  - rewrite <- Hmap in Hsorted. clear -Hsorted.
    induction records as [|r k IH]; [constructor|].
    simpl in Hsorted. inversion Hsorted as [|? ? Hk Hall]; subst.
    constructor; [now apply IH|].
    rewrite List.Forall_forall in Hall. apply List.Forall_forall. intros r' Hr'.
    apply (Hall (rec_product r', rec_priority r')).
    now apply (in_map (fun r => (rec_product r, rec_priority r))).
  - replace (map (fun r => product_id (rec_product r)) records)
      with (map (fun e : Product * Z => product_id (fst e))
              (map (fun r => (rec_product r, rec_priority r)) records))
      by (rewrite map_map; reflexivity).
    rewrite Hmap. destruct (slice_to_prefix 10 ranked) as [rest Hsplit].
    apply (NoDup_app_l _ (map (fun e : Product * Z => product_id (fst e)) rest)).
    rewrite <- map_app, <- Hsplit.
    eapply Permutation_NoDup; [apply Permutation_map, Hperm|].
    apply remove_duplicates_NoDup.
  - intros r Hr.
    destruct (Forall2_In_r _ _ _ _ Hrows Hr)
      as ([p s] & He & Hp & Hs & Hscan & Hsize & Hfit & Hcolors).
    simpl in Hp, Hs, Hsize.
    apply slice_to_incl in He.
    apply (Permutation_in _ (Permutation_sym Hperm)) in He.
    apply (sublist_In _ _ _ (remove_duplicates_sublist encountered ∅)) in He.
    apply product_recommendations_In in He as (gender & Hgender & He).
    apply recommend_products_In in He as (Hin & Hav & Hscore).
    apply gender_products_In in Hin as [Hin Hg].
    rewrite Hp, Hs. fold measurements in Hscore, Hsize.
    split; [exact Hin|].
    split; [destruct Hg as [-> | ->]; [exact Hgender|simpl; tauto]|].
    split; [exact Hav|]. split; [exact Hscore|].
    split; [rewrite Hscore; apply expected_score_bounds|].
    auto.
Qed.

Lemma generate_recommendations_rows_sound_witness :
  exists records r,
    generate_recommendations_for_scan boutique_db navy_and_white triangle_scan
    = Some records
    /\ In r records
    /\ available_variants boutique_db (rec_product r) <> []
    /\ 5 <= rec_priority r <= 40.
Proof.
  destruct (generate_recommendations_rows_sound boutique_db navy_and_white triangle_scan)
    as (records & Hgen & _ & _ & Hrows).
  destruct records as [|r rest]; [vm_compute in Hgen; discriminate|].
  exists (r :: rest), r. split; [exact Hgen|]. split; [now left|].
  destruct (Hrows r (or_introl eq_refl)) as (_ & _ & Hstock & _ & Hbounds & _).
  split; [exact Hstock|exact Hbounds].
Defined.

(** The loop that removes duplicates keeps an entry for every product id. *)
Lemma remove_duplicates_covers (recs : list (Product * Z)) (e : Product * Z) :
  In e recs ->
  exists first,
    In first (remove_duplicates recs ∅ [])
    /\ product_id (fst first) = product_id (fst e).
Proof.
  intros Hin.
  destruct (find_is_Some (same_product (fst e)) recs e Hin) as [first Hfind].
  { unfold same_product. apply Z.eqb_refl. }
  pose proof (find_some _ _ Hfind) as [_ Hsame].
  exists first. split; [|now apply Z.eqb_eq in Hsame].
  apply remove_duplicates_In. split; [apply not_elem_of_empty|].
  now rewrite (same_product_first _ _ Hsame).
Qed.

(** X18: in a store of at most ten products the limits cut nothing: every
    product with a variant in stock whose gender is 'men', 'women' or 'unisex'
    gets a row. *)
Theorem small_store_all_recommended
    (db : Store) (get_recommended_colors : string -> string -> list string)
    (body_scan : BodyScan) :
  (length (products db) <= 10)%nat ->
  exists records,
    generate_recommendations_for_scan db get_recommended_colors body_scan = Some records
    /\ forall product,
         In product (products db) ->
         available_variants db product <> [] ->
         In (product_gender product) ["men"; "women"; "unisex"] ->
         exists r, In r records /\ product_id (rec_product r) = product_id product.
Proof.
  intros Hsmall.
  destruct (generate_recommendations_rows db get_recommended_colors body_scan)
    as (records & Hgen & Hrows).
  exists records. split; [exact Hgen|].
  intros product Hin Hav Hgender.
  set (encountered := product_recommendations db get_recommended_colors body_scan).
  set (deduplicated := remove_duplicates encountered ∅ []).
  set (ranked := unique_recommendations db get_recommended_colors body_scan) in *.
  assert (Hpass : exists priority, In (product, priority) encountered).
  { eexists. apply in_flat_map. exists (product_gender product). split; [exact Hgender|].
    unfold recommend_products. rewrite slice_to_all.
    - apply stable_sort_In, score_products_In. split; [|split; [exact Hav|reflexivity]].
      apply gender_products_In. auto.
    - unfold sort_by_priority. rewrite stable_sort_length.
      pose proof (score_products_length db
                    (recommend_size db (build_measurements body_scan))
                    (recommend_fit (build_measurements body_scan))
                    (List.filter
                       (fun c => name_in (color_name c)
                                   (recommend_colors get_recommended_colors
                                      (scan_skin_tone body_scan) "warm"))
                       (colors db))
                    (gender_products db (product_gender product))).
      pose proof (gender_products_length db (product_gender product)). lia. }
  destruct Hpass as [priority Hpass].
  destruct (remove_duplicates_covers encountered _ Hpass) as (first & Hfirst & Hid).
  simpl in Hid.
  assert (Hlen : (length deduplicated <= length (products db))%nat).
  { rewrite <- (length_map (fun e : Product * Z => product_id (fst e))),
      <- (length_map product_id (products db)).
    apply NoDup_incl_length; [apply remove_duplicates_NoDup|].
    intros id Hid'. apply in_map_iff in Hid' as (e & <- & He).
    apply (sublist_In _ _ _ (remove_duplicates_sublist encountered ∅)) in He.
    destruct e as [p s].
    apply product_recommendations_In in He as (gender & _ & He).
    apply recommend_products_In in He as (Hp & _).
    apply gender_products_In in Hp as [Hp _]. now apply in_map. }
  assert (Hall : slice_to 10 ranked = ranked).
  { apply slice_to_all. unfold ranked, unique_recommendations, sort_by_priority.
    rewrite stable_sort_length. fold encountered. fold deduplicated. lia. }
  rewrite Hall in Hrows.
  assert (Hranked : In first ranked).
  { unfold ranked, unique_recommendations, sort_by_priority.
    apply stable_sort_In. exact Hfirst. }
  destruct (Forall2_In_l _ _ _ _ Hrows Hranked) as (r & Hr & Hproduct & _).
  exists r. split; [exact Hr|]. now rewrite Hproduct.
Qed.

Lemma small_store_all_recommended_witness :
  (length (products boutique_db) <= 10)%nat
  /\ exists records,
       generate_recommendations_for_scan boutique_db navy_and_white triangle_scan
       = Some records
       /\ exists r, In r records /\ product_id (rec_product r) = product_id parka.
Proof.
  assert (Hsmall : (length (products boutique_db) <= 10)%nat) by (simpl; lia).
  split; [exact Hsmall|].
  destruct (small_store_all_recommended boutique_db navy_and_white triangle_scan Hsmall)
    as (records & Hgen & Hall).
  exists records. split; [exact Hgen|]. apply Hall.
  - simpl. auto.
  - vm_compute. discriminate.
  - simpl. auto.
Defined.

(** X19: the orchestrator reads the chest, the waist, the body shape, the
    undertone and the skin tone of a scan only: two scans that agree on them
    get the same rows (product, size, fit, colors, priority), in the same
    order. *)
Theorem generate_recommendations_decisive_fields
    (db : Store) (get_recommended_colors : string -> string -> list string)
    (scan1 scan2 : BodyScan) :
  same_decisive_fields scan1 scan2 ->
  map record_content
    <$> generate_recommendations_for_scan db get_recommended_colors scan1
  = map record_content
      <$> generate_recommendations_for_scan db get_recommended_colors scan2.
Proof.
  intros Hsame.
  destruct (same_ranking_measurements db scan1 scan2 (same_decisive_ranking _ _ Hsame))
    as (Hbase & Hfit & Hsize).
  destruct Hsame as (_ & _ & Hshape & Hunder & Hskin).
  assert (Hrecs : product_recommendations db get_recommended_colors scan1
                  = product_recommendations db get_recommended_colors scan2).
  { unfold product_recommendations, recommend_products.
    now rewrite Hbase, Hfit, Hskin. }
  unfold generate_recommendations_for_scan, unique_recommendations.
  rewrite Hrecs. apply mapM_content.
  intros [product priority]. rewrite Hsize, Hshape, Hfit, Hunder, Hskin.
  destruct (recommend_size_for_garment db (build_measurements scan2)
              (product_category product) (body_shape_of scan2)); reflexivity.
Qed.

Lemma generate_recommendations_decisive_fields_witness :
  same_decisive_fields triangle_scan tall_triangle_scan
  /\ map record_content
       <$> generate_recommendations_for_scan boutique_db navy_and_white triangle_scan
     = map record_content
         <$> generate_recommendations_for_scan boutique_db navy_and_white
               tall_triangle_scan.
Proof.
  assert (Hsame : same_decisive_fields triangle_scan tall_triangle_scan)
    by (repeat split).
  split; [exact Hsame|].
  exact (generate_recommendations_decisive_fields boutique_db navy_and_white
           triangle_scan tall_triangle_scan Hsame).
Defined.

(** X20: which products get a row, in which order and with which priority
    and fit, is decided by the chest, the waist and the skin tone alone:
    neither the body shape nor the undertone of the scan changes it. *)
Theorem ranking_reads_chest_waist_skin_tone
    (db : Store) (get_recommended_colors : string -> string -> list string)
    (scan1 scan2 : BodyScan) :
  same_ranking_fields scan1 scan2 ->
  map record_rank
    <$> generate_recommendations_for_scan db get_recommended_colors scan1
  = map record_rank
      <$> generate_recommendations_for_scan db get_recommended_colors scan2.
Proof.
  intros Hsame.
  destruct (same_ranking_measurements db scan1 scan2 Hsame) as (Hsize & Hfit & _).
  destruct Hsame as (_ & _ & Hskin).
  assert (Hrecs : product_recommendations db get_recommended_colors scan1
                  = product_recommendations db get_recommended_colors scan2).
  { unfold product_recommendations, recommend_products.
    now rewrite Hsize, Hfit, Hskin. }
  unfold generate_recommendations_for_scan, unique_recommendations.
  rewrite Hrecs. apply mapM_content.
  intros [product priority]. rewrite Hfit.
  destruct (recommend_size_for_garment_total db (build_measurements scan1)
              (product_category product) (body_shape_of scan1)) as [size1 ->].
  destruct (recommend_size_for_garment_total db (build_measurements scan2)
              (product_category product) (body_shape_of scan2)) as [size2 ->].
  reflexivity.
Qed.

Lemma ranking_reads_chest_waist_skin_tone_witness :
  same_ranking_fields triangle_scan unshaped_scan
  /\ body_shape_of triangle_scan <> body_shape_of unshaped_scan
  /\ map record_rank
       <$> generate_recommendations_for_scan boutique_db navy_and_white triangle_scan
     = map record_rank
         <$> generate_recommendations_for_scan boutique_db navy_and_white unshaped_scan.
Proof.
  assert (Hsame : same_ranking_fields triangle_scan unshaped_scan) by (repeat split).
  split; [exact Hsame|]. split; [vm_compute; discriminate|].
  exact (ranking_reads_chest_waist_skin_tone boutique_db navy_and_white
           triangle_scan unshaped_scan Hsame).
Defined.

(** ** Removing duplicates, and empty stores *)

Lemma remove_duplicates_fresh (recs : list (Product * Z)) (seen : gset Z) :
  List.NoDup (map (fun e => product_id (fst e)) recs) ->
  (forall e, In e recs -> product_id (fst e) ∉ seen) ->
  remove_duplicates recs seen [] = recs.
Proof.
  revert seen. induction recs as [|[product priority] rest IH]; intros seen Hnd Hfresh;
    simpl; [reflexivity|].
  inversion Hnd as [|? ? Hx Hr]; subst.
  destruct (decide (product_id product ∈ seen)) as [Hin|_].
  { exfalso. apply (Hfresh (product, priority)); [now left|exact Hin]. }
  rewrite remove_duplicates_acc. simpl. f_equal.
  apply IH; [exact Hr|].
  intros e He [Hid|Hseen]%elem_of_union.
  - apply elem_of_singleton in Hid. apply Hx. simpl. rewrite <- Hid.
    now apply (in_map (fun e => product_id (fst e))).
  - apply (Hfresh e); [now right|exact Hseen].
Qed.

(** X21: the loop that removes duplicates returns a list without repeated
    product ids as it is; so running it on its own result changes nothing. *)
Theorem remove_duplicates_idempotent (recs : list (Product * Z)) :
  (List.NoDup (map (fun e => product_id (fst e)) recs) ->
   remove_duplicates recs ∅ [] = recs)
  /\ remove_duplicates (remove_duplicates recs ∅ []) ∅ [] = remove_duplicates recs ∅ [].
Proof.
  assert (H : forall l, List.NoDup (map (fun e => product_id (fst e)) l) ->
                        remove_duplicates l ∅ [] = l).
  { intros l Hnd. apply remove_duplicates_fresh; [exact Hnd|].
    intros e _. apply not_elem_of_empty. }
  split; [apply H|]. apply H, remove_duplicates_NoDup.
Qed.

Lemma remove_duplicates_idempotent_witness :
  remove_duplicates [(oxford_shirt, 40); (parka, 15); (chino, 5)] ∅ []
  = [(oxford_shirt, 40); (parka, 15); (chino, 5)].
Proof.
  apply (proj1 (remove_duplicates_idempotent
                  [(oxford_shirt, 40); (parka, 15); (chino, 5)])).
  repeat constructor; simpl; intuition discriminate.
Defined.

(** X22: with no product in the store the three entry points return empty
    lists, whatever the scan. *)
Theorem empty_store_outputs
    (db : Store) (get_recommended_colors : string -> string -> list string)
    (body_scan : BodyScan) (measurements : gmap string float)
    (skin_tone gender : string) (gender_filter fit_filter : option string)
    (limit : Z) :
  products db = [] ->
  recommend_products db get_recommended_colors measurements skin_tone gender limit = []
  /\ get_matching_product_variants db get_recommended_colors body_scan
       gender_filter fit_filter limit = Some []
  /\ generate_recommendations_for_scan db get_recommended_colors body_scan = Some [].
Proof.
  intros Hempty.
  assert (Hpass : forall m s g l,
             recommend_products db get_recommended_colors m s g l = []).
  { intros m s g l. unfold recommend_products, gender_products. rewrite Hempty. simpl.
    unfold slice_to. destruct (0 <=? l); apply firstn_nil. }
  split; [apply Hpass|]. split.
  - rewrite get_matching_product_variants_output.
    assert (Hnone : filtered_products db gender_filter fit_filter = []).
    { pose proof (filtered_products_length db gender_filter fit_filter) as Hlen.
      rewrite Hempty in Hlen.
      destruct (filtered_products db gender_filter fit_filter); [reflexivity|].
      simpl in Hlen. lia. }
    rewrite Hnone. simpl. unfold slice_to. destruct (0 <=? limit); now rewrite firstn_nil.
  - unfold generate_recommendations_for_scan, unique_recommendations,
      product_recommendations. simpl. rewrite !Hpass. reflexivity.
Qed.

Lemma empty_store_outputs_witness :
  products gap_db = []
  /\ get_matching_product_variants gap_db no_colors plain_scan None None 6 = Some []
  /\ generate_recommendations_for_scan gap_db no_colors plain_scan = Some [].
Proof.
  split; [reflexivity|].
  exact (proj2 (empty_store_outputs gap_db no_colors plain_scan ∅ "" ""
                  None None 6 eq_refl)).
Defined.

(** ** Negative limits *)



